(** * Fetch-and-reconcile pipeline of the school crawler

    A shallow embedding of
    - [crawler/storage/supabase_manager.py]: the rank normaliser, the
      emptiness test, the partial-update flow of [unreviewed_schools];
    - [crawler/scripts/crawl_qs_topN.py]: the Top-N rank parser;
    - [crawler/core/http_client.py]: the retry loop of [get_page].

    Python values are a small inductive type; dictionaries are association
    lists in insertion order; strings are sequences of code points below
    256; code that may raise lives in the error monad [exc]. *)

From Stdlib Require Import ZArith NArith List String Ascii Bool Lia.
Import ListNotations.
Open Scope string_scope.
Open Scope Z_scope.

(** ** Python exceptions and the error monad *)

Inductive pyexc : Type :=
| ValueError
| AttributeError
| TypeError
| KeyError
| NetworkError.

Inductive exc (A : Type) : Type :=
| Ret (a : A)
| Raise (e : pyexc).

Arguments Ret {A} a.
Arguments Raise {A} e.

Definition bind {A B : Type} (m : exc A) (k : A -> exc B) : exc B :=
  match m with
  | Ret a => k a
  | Raise e => Raise e
  end.

Notation "x <- m ;; k" := (bind m (fun x => k))
  (at level 61, m at next level, right associativity).

(** [try: body except Exception: handler] *)
Definition try_except {A : Type} (body : exc A) (handler : pyexc -> A) : A :=
  match body with
  | Ret a => a
  | Raise e => handler e
  end.

(** ** Python values *)

#[local] Set Warnings "-register-all".

(** A float is carried by its [repr] text (which determines the float):
    the code below only prints floats and tests their truth value. *)
Inductive pyval : Type :=
| VNone
| VBool (b : bool)
| VInt (n : Z)
| VFloat (r : string)
| VStr (s : string)
| VList (l : list pyval)
| VDict (d : list (string * pyval)).

Definition pydict : Type := list (string * pyval).

(** ** Characters and strings *)

Definition code (c : ascii) : N := N_of_ascii c.

Definition dquote : ascii := "034"%char.
Definition squote : ascii := "039"%char.
Definition backslash : ascii := "092"%char.

(** [str.isspace] on one code point below 256. *)
Definition isspace (c : ascii) : bool :=
  let n := code c in
  ((9 <=? n) && (n <=? 13) || (28 <=? n) && (n <=? 32)
   || (n =? 133) || (n =? 160))%N.

(** The blanks [int()] skips around a literal: code points 28 to 31 are
    blanks for [str.strip] but not for [int]. *)
Definition isspace_int (c : ascii) : bool :=
  let n := code c in
  ((9 <=? n) && (n <=? 13) || (n =? 32) || (n =? 133) || (n =? 160))%N.

Definition is_decimal (c : ascii) : bool :=
  let n := code c in ((48 <=? n) && (n <=? 57))%N.

(** [str.isdigit] on one code point: the decimal digits and the three
    superscript digits of Latin-1. *)
Definition isdigit_char (c : ascii) : bool :=
  let n := code c in
  (is_decimal c || (n =? 178) || (n =? 179) || (n =? 185))%N.

Definition digit_val (c : ascii) : Z := Z.of_N (code c) - 48.

Fixpoint lstrip_by (sp : ascii -> bool) (s : string) : string :=
  match s with
  | EmptyString => EmptyString
  | String c r => if sp c then lstrip_by sp r else s
  end.

Fixpoint rstrip_by (sp : ascii -> bool) (s : string) : string :=
  match s with
  | EmptyString => EmptyString
  | String c r =>
      match rstrip_by sp r with
      | EmptyString => if sp c then EmptyString else String c EmptyString
      | r' => String c r'
      end
  end.

Definition strip_by (sp : ascii -> bool) (s : string) : string :=
  rstrip_by sp (lstrip_by sp s).

(** [s.strip()] *)
Definition strip (s : string) : string := strip_by isspace s.

Definition is_empty_str (s : string) : bool :=
  match s with
  | EmptyString => true
  | String _ _ => false
  end.

Fixpoint all_chars (p : ascii -> bool) (s : string) : bool :=
  match s with
  | EmptyString => true
  | String c r => p c && all_chars p r
  end.

Fixpoint has_char (x : ascii) (s : string) : bool :=
  match s with
  | EmptyString => false
  | String c r => Ascii.eqb c x || has_char x r
  end.

(** [s.startswith(x)] for a one-character [x] *)
Definition startswith_char (x : ascii) (s : string) : bool :=
  match s with
  | EmptyString => false
  | String c _ => Ascii.eqb c x
  end.

(** [s.endswith(x)] for a one-character [x] *)
Fixpoint endswith_char (x : ascii) (s : string) : bool :=
  match s with
  | EmptyString => false
  | String c EmptyString => Ascii.eqb c x
  | String _ r => endswith_char x r
  end.

(** [s[1:]] *)
Definition drop_first (s : string) : string :=
  match s with
  | EmptyString => EmptyString
  | String _ r => r
  end.

(** [s[:-1]] *)
Fixpoint drop_last (s : string) : string :=
  match s with
  | EmptyString => EmptyString
  | String _ EmptyString => EmptyString
  | String c r => String c (drop_last r)
  end.

(** [s.split(x, 1)] when [x] occurs in [s]: the text before the first [x]
    and the text after it. *)
Fixpoint split_first (x : ascii) (s : string) : string * string :=
  match s with
  | EmptyString => (EmptyString, EmptyString)
  | String c r =>
      if Ascii.eqb c x then (EmptyString, r)
      else let (a, b) := split_first x r in (String c a, b)
  end.

(** [s.replace(x, "")] for a one-character [x] *)
Fixpoint remove_char (x : ascii) (s : string) : string :=
  match s with
  | EmptyString => EmptyString
  | String c r =>
      if Ascii.eqb c x then remove_char x r else String c (remove_char x r)
  end.

(** [s.isdigit()] *)
Definition isdigit (s : string) : bool :=
  negb (is_empty_str s) && all_chars isdigit_char s.

(** [s.lower()] on the ASCII letters, enough for a case-insensitive match. *)
Definition lower_char (c : ascii) : ascii :=
  let n := code c in
  if ((65 <=? n) && (n <=? 90))%N then ascii_of_N (n + 32) else c.

Fixpoint lower (s : string) : string :=
  match s with
  | EmptyString => EmptyString
  | String c r => String (lower_char c) (lower r)
  end.

(** [x in s] for strings *)
Fixpoint contains (x s : string) : bool :=
  String.prefix x s ||
  match s with
  | EmptyString => false
  | String _ r => contains x r
  end.

(** No character of [s] is a blank of [sp]. *)
Definition clean (sp : ascii -> bool) (s : string) : bool :=
  all_chars (fun c => negb (sp c)) s.

(** [s] is empty or starts with a character [sp] keeps. *)
Definition head_kept (sp : ascii -> bool) (s : string) : bool :=
  match s with
  | EmptyString => true
  | String c _ => negb (sp c)
  end.

(** ** [int(s)] and [str(n)] *)

(** The digits of an integer literal: decimal digits, single underscores
    allowed between two digits.  [prev] tells whether the previous
    character was a digit. *)
Fixpoint int_digits (s : string) (acc : Z) (prev : bool) : option Z :=
  match s with
  | EmptyString => if prev then Some acc else None
  | String c r =>
      if is_decimal c then int_digits r (10 * acc + digit_val c) true
      else if Ascii.eqb c "_" then
             if prev then int_digits r acc false else None
           else None
  end.

(** An optional sign, then the digits. *)
Definition int_signed (s : string) : option Z :=
  match s with
  | EmptyString => None
  | String c r =>
      if Ascii.eqb c "+" then int_digits r 0 false
      else if Ascii.eqb c "-" then option_map Z.opp (int_digits r 0 false)
      else int_digits s 0 false
  end.

(** [int(s)] for a string [s], base 10; [ValueError] on a malformed
    literal.  The interpreter's configurable limit on the number of digits
    is not modelled. *)
Definition py_int (s : string) : exc Z :=
  match int_signed (strip_by isspace_int s) with
  | Some n => Ret n
  | None => Raise ValueError
  end.

(** The value of a run of decimal digits read after [acc]. *)
Fixpoint dec_fold (s : string) (acc : Z) : Z :=
  match s with
  | EmptyString => acc
  | String c r => dec_fold r (10 * acc + digit_val c)
  end.

(** A non-empty run of decimal digits. *)
Definition is_digits (s : string) : bool :=
  negb (is_empty_str s) && all_chars is_decimal s.

(** The characters [str(n)] prints. *)
Definition is_signed_char (c : ascii) : bool := is_decimal c || Ascii.eqb c "-".

Definition digit_char (d : N) : ascii := ascii_of_N (48 + d).

Fixpoint N_digits (fuel : nat) (n : N) (acc : string) : string :=
  match fuel with
  | O => acc
  | S f =>
      let acc' := String (digit_char (n mod 10)) acc in
      if (n <? 10)%N then acc' else N_digits f (n / 10) acc'
  end.

Definition N_to_string (n : N) : string :=
  N_digits (S (N.to_nat (N.size n))) n EmptyString.

(** [str(n)] for an integer *)
Definition Z_to_string (n : Z) : string :=
  match n with
  | Z0 => "0"
  | Zpos p => N_to_string (Npos p)
  | Zneg p => String "-" (N_to_string (Npos p))
  end.

(** ** [repr] and [str] *)

Definition hex_char (d : N) : ascii :=
  if (d <? 10)%N then ascii_of_N (48 + d) else ascii_of_N (87 + d).

Definition printable (c : ascii) : bool :=
  let n := code c in
  negb ((n <? 32) || (127 <=? n) && (n <=? 160) || (n =? 173))%N.

Definition repr_char (q c : ascii) : string :=
  let n := code c in
  if Ascii.eqb c q || Ascii.eqb c backslash then String backslash (String c EmptyString)
  else if (n =? 9)%N then String backslash "t"
  else if (n =? 10)%N then String backslash "n"
  else if (n =? 13)%N then String backslash "r"
  else if printable c then String c EmptyString
  else String backslash
         (String "x" (String (hex_char (n / 16)) (String (hex_char (n mod 16)) EmptyString))).

Fixpoint repr_chars (q : ascii) (s : string) : string :=
  match s with
  | EmptyString => EmptyString
  | String c r => repr_char q c ++ repr_chars q r
  end.

(** [repr(s)] for a string: single quotes, unless the text holds a single
    quote and no double quote. *)
Definition repr_str (s : string) : string :=
  let q := if has_char squote s && negb (has_char dquote s) then dquote else squote in
  String q (repr_chars q s ++ String q EmptyString).

Fixpoint join_with (sep : string) (l : list string) : string :=
  match l with
  | [] => EmptyString
  | [x] => x
  | x :: r => x ++ sep ++ join_with sep r
  end.

Fixpoint py_repr (v : pyval) : string :=
  match v with
  | VNone => "None"
  | VBool true => "True"
  | VBool false => "False"
  | VInt n => Z_to_string n
  | VFloat r => r
  | VStr s => repr_str s
  | VList l => "[" ++ join_with ", " (map py_repr l) ++ "]"
  | VDict d =>
      "{" ++ join_with ", "
               (map (fun kv => repr_str (fst kv) ++ ": " ++ py_repr (snd kv)) d)
          ++ "}"
  end.

(** [str(v)] *)
Definition py_str (v : pyval) : string :=
  match v with
  | VStr s => s
  | _ => py_repr v
  end.

(** [bool(v)] *)
Definition truthy (v : pyval) : bool :=
  match v with
  | VNone => false
  | VBool b => b
  | VInt n => negb (n =? 0)
  | VFloat r => negb (String.eqb r "0.0" || String.eqb r "-0.0")
  | VStr s => negb (is_empty_str s)
  | VList l => match l with [] => false | _ => true end
  | VDict d => match d with [] => false | _ => true end
  end.

(** [a or b] *)
Definition py_or (a b : pyval) : pyval := if truthy a then a else b.

(** [v.strip()]: only strings have the method. *)
Definition py_strip (v : pyval) : exc string :=
  match v with
  | VStr s => Ret (strip s)
  | _ => Raise AttributeError
  end.

(** ** Rank normalisation (supabase_manager.py) *)

Definition rank_triple : Type := option string * option Z * option Z.

Definition _normalize_qs_ranking (val : pyval) : rank_triple :=
  match val with
  | VNone => (None, None, None)
  | _ =>
      let s := strip (py_str val) in
      if is_empty_str s then (None, None, None)
      else if startswith_char "=" s then
        let s_num := strip (drop_first s) in
        try_except
          (n <- py_int s_num ;;
           Ret (Some (String "=" (Z_to_string n)), Some n, Some n))
          (fun _ => (Some s, None, None))
      else if endswith_char "+" s then
        let base := strip (drop_last s) in
        try_except
          (n <- py_int base ;;
           Ret (Some (Z_to_string n ++ "+"), Some n, None))
          (fun _ => (Some s, None, None))
      else if has_char "-" s then
        let (a, b) := split_first "-" s in
        try_except
          (amin <- py_int (strip a) ;;
           bmax <- py_int (strip b) ;;
           Ret (Some (Z_to_string amin ++ "-" ++ Z_to_string bmax),
                Some amin, Some bmax))
          (fun _ => (Some s, None, None))
      else
        try_except
          (n <- py_int s ;;
           Ret (Some (Z_to_string n), Some n, Some n))
          (fun _ => (Some s, None, None))
  end.

(** The integer the reconciliation engine writes to the scalar rank column:
    [rmin] of the triple. *)
Definition written_rank (val : pyval) : option Z :=
  snd (fst (_normalize_qs_ranking val)).

(** ** Rank parsing of the Top-N script (crawl_qs_topN.py) *)

Definition _parse_rank_bounds (rank_str : pyval) : exc (option Z * option Z) :=
  match rank_str with
  | VNone => Ret (None, None)
  | _ =>
      let s := remove_char "=" (strip (py_str rank_str)) in
      if is_empty_str s then Ret (None, None)
      else if isdigit s then
        n <- py_int s ;; Ret (Some n, Some n)
      else if has_char "-" s then
        let (a0, b0) := split_first "-" s in
        let a := strip a0 in
        let b := strip b0 in
        if isdigit a && isdigit b then
          lo <- py_int a ;; hi <- py_int b ;; Ret (Some lo, Some hi)
        else Ret (None, None)
      else Ret (None, None)
  end.

Definition _normalize_rank_to_int (rank_str : pyval) : exc (option Z) :=
  bounds <- _parse_rank_bounds rank_str ;;
  match bounds with
  | (Some lo, Some hi) => Ret (Some hi)
  | _ => Ret None
  end.

(** ** Dictionaries *)

Fixpoint dict_get (k : string) (d : pydict) : option pyval :=
  match d with
  | [] => None
  | (k', v) :: r => if String.eqb k' k then Some v else dict_get k r
  end.

(** [d.get(k)] *)
Definition dget (d : pydict) (k : string) : pyval :=
  match dict_get k d with
  | Some v => v
  | None => VNone
  end.

(** [d.get(k, default)] *)
Definition dget_default (d : pydict) (k : string) (default : pyval) : pyval :=
  match dict_get k d with
  | Some v => v
  | None => default
  end.

(** [d[k]] *)
Definition getitem (d : pydict) (k : string) : exc pyval :=
  match dict_get k d with
  | Some v => Ret v
  | None => Raise KeyError
  end.

(** [k in d] *)
Definition dict_mem (k : string) (d : pydict) : bool :=
  match dict_get k d with
  | Some _ => true
  | None => false
  end.

(** [d[k] = v]: an existing key keeps its place, a new key goes last. *)
Fixpoint dict_set (k : string) (v : pyval) (d : pydict) : pydict :=
  match d with
  | [] => [(k, v)]
  | (k', v') :: r =>
      if String.eqb k' k then (k', v) :: r else (k', v') :: dict_set k v r
  end.

(** [d.pop(k, None)] *)
Fixpoint dict_remove (k : string) (d : pydict) : pydict :=
  match d with
  | [] => []
  | (k', v') :: r =>
      if String.eqb k' k then r else (k', v') :: dict_remove k r
  end.

(** [{**old, **new}] *)
Definition dict_merge (old new : pydict) : pydict :=
  fold_left (fun acc kv => dict_set (fst kv) (snd kv) acc) new old.

Definition is_none (v : pyval) : bool :=
  match v with
  | VNone => true
  | _ => false
  end.

(** [{k: v for k, v in d.items() if v is not None}] *)
Definition drop_none (d : pydict) : pydict :=
  filter (fun kv => negb (is_none (snd kv))) d.

(** [{**v}]: only a mapping unpacks. *)
Definition as_mapping (v : pyval) : exc pydict :=
  match v with
  | VDict d => Ret d
  | _ => Raise TypeError
  end.

(** [raw[k] = v] on a value: only a dict takes a string key. *)
Definition setitem (raw : pyval) (k : string) (v : pyval) : exc pyval :=
  match raw with
  | VDict d => Ret (VDict (dict_set k v d))
  | _ => Raise TypeError
  end.

Definition of_opt_int (o : option Z) : pyval :=
  match o with
  | Some n => VInt n
  | None => VNone
  end.

(** ** The record store *)

(** How the remote end treats one request: it serves it, answers with an
    error status, or the request raises on the wire. *)
Inductive reply : Type :=
| Served
| Refused
| Dropped.

(** The characters that a query string and an [ilike] pattern carry as
    themselves: the ASCII letters and digits, the blank, and [-], [.], [/]
    and [:].  The lookups paste the name and the website into the query
    string as they are (lines 380 and 388), so that any other character may
    change the query on the wire: [&] and [#] end the filter, [%] starts an
    escape, [_] and [*] are wildcards of the pattern. *)
Definition wire_char (c : ascii) : bool :=
  let n := code c in
  ((48 <=? n) && (n <=? 57) || (65 <=? n) && (n <=? 90)
   || (97 <=? n) && (n <=? 122)
   || (n =? 32) || (n =? 45) || (n =? 46) || (n =? 47) || (n =? 58))%N.

Definition wire_safe (x : string) : bool := all_chars wire_char x.

(** Modelled from the spec: the persistent store behind the PostgREST
    endpoint is not part of the repository.  It holds the rows of
    [unreviewed_schools] in response order, assigns the identity of a new
    row, and treats the next requests as [replies] says (served once the
    list is used up).  What it makes of a filter whose text is not
    [wire_safe] is not fixed by the code: [misread column text] is the
    filter it serves for such a text, or [None] when it answers the query
    with an error status. *)
Record world : Type := mkWorld {
  rows : list pydict;
  next_id : Z;
  replies : list reply;
  misread : string -> string -> option (pydict -> bool)
}.

(** A remote end that answers every query it cannot read as meant with an
    error status. *)
Definition refusing : string -> string -> option (pydict -> bool) :=
  fun _ _ => None.

Record response : Type := mkResponse {
  status_code : Z;
  body : list pydict
}.

(** State and exceptions: a computation reads and updates a state [S] and
    returns or raises. *)
Definition M (S A : Type) : Type := S -> exc A * S.

Definition mret {S A : Type} (a : A) : M S A := fun s => (Ret a, s).

Definition mbind {S A B : Type} (m : M S A) (k : A -> M S B) : M S B :=
  fun s =>
    match m s with
    | (Ret a, s') => k a s'
    | (Raise e, s') => (Raise e, s')
    end.

Definition lift {S A : Type} (m : exc A) : M S A := fun s => (m, s).

(** [try: body except Exception: handler]; what [body] did to the state
    before raising stays done. *)
Definition mtry {S A : Type} (body : M S A) (handler : pyexc -> A) : M S A :=
  fun s =>
    match body s with
    | (Ret a, s') => (Ret a, s')
    | (Raise e, s') => (Ret (handler e), s')
    end.

Declare Scope m_scope.
Delimit Scope m_scope with M.
Notation "x <-- m ;;; k" := (mbind m (fun x => k))
  (at level 61, m at next level, right associativity) : m_scope.

(** The filters of [get_unreviewed_school_by_match]. *)
Inductive query : Type :=
| ById (school_id : pyval)
| ByWebsite (website_url : string)
| ByName (name : string).

(** Modelled from the spec: [find] by identity compares the text of the
    identity; the other two filters are meant as case-blind substring
    matches on a text column ([ilike.*x*]).  [row_matches] is the filter
    the code means; [served_filter] below is the one the remote end
    serves. *)
Definition ilike_sub (column : pyval) (x : string) : bool :=
  match column with
  | VStr t => contains (lower x) (lower t)
  | _ => false
  end.

Definition row_matches (q : query) (row : pydict) : bool :=
  match q with
  | ById i =>
      match dict_get "id" row with
      | Some j => String.eqb (py_str j) (py_str i)
      | None => false
      end
  | ByWebsite x => ilike_sub (dget row "website_url") x
  | ByName x => ilike_sub (dget row "name") x
  end.

Definition next_reply (w : world) : reply * world :=
  match replies w with
  | [] => (Served, w)
  | r :: rest => (r, mkWorld (rows w) (next_id w) rest (misread w))
  end.

(** The text of [q] reaches the remote end as the code means it. *)
Definition wire_ok (q : query) : bool :=
  match q with
  | ById _ => true
  | ByWebsite x => wire_safe x
  | ByName x => wire_safe x
  end.

(** The filter the remote end serves for the query string built from [q],
    if it serves one.  An identity is one the store assigned (the entry
    point passes [existing["id"]]), whose text the wire carries as it
    is. *)
Definition served_filter (w : world) (q : query) : option (pydict -> bool) :=
  match q with
  | ById _ => Some (row_matches q)
  | ByWebsite x =>
      if wire_safe x then Some (row_matches q) else misread w "website_url" x
  | ByName x =>
      if wire_safe x then Some (row_matches q) else misread w "name" x
  end.

(** [client.get(f"...?select=*&<column>=ilike.*{text}*&limit=1")] *)
Definition http_get (q : query) : M world response :=
  fun w =>
    let (r, w') := next_reply w in
    match r with
    | Served =>
        match served_filter w' q with
        | Some p =>
            (Ret (mkResponse 200
                    match find p (rows w') with
                    | Some row => [row]
                    | None => []
                    end), w')
        | None => (Ret (mkResponse 400 []), w')
        end
    | Refused => (Ret (mkResponse 500 []), w')
    | Dropped => (Raise NetworkError, w')
    end.

(** [client.post(.../unreviewed_schools, json=payload)] with
    [Prefer: return=representation] *)
Definition http_post (payload : pydict) : M world response :=
  fun w =>
    let (r, w') := next_reply w in
    match r with
    | Served =>
        let row := ("id", VInt (next_id w')) :: payload in
        (Ret (mkResponse 201 [row]),
         mkWorld (rows w' ++ [row]) (next_id w' + 1) (replies w') (misread w'))
    | Refused => (Ret (mkResponse 500 []), w')
    | Dropped => (Raise NetworkError, w')
    end.

Definition update_row (i : pyval) (payload : pydict) (row : pydict) : pydict :=
  if row_matches (ById i) row then dict_merge row payload else row.

(** [client.patch(.../unreviewed_schools?id=eq.<id>, json=payload)] *)
Definition http_patch (i : pyval) (payload : pydict) : M world response :=
  fun w =>
    let (r, w') := next_reply w in
    match r with
    | Served =>
        let rows' := map (update_row i payload) (rows w') in
        (Ret (mkResponse 200 (filter (row_matches (ById i)) rows')),
         mkWorld rows' (next_id w') (replies w') (misread w'))
    | Refused => (Ret (mkResponse 500 []), w')
    | Dropped => (Raise NetworkError, w')
    end.

(** ** The partial-update flow (supabase_manager.py) *)

Definition _is_empty_value (v : pyval) : bool :=
  match v with
  | VNone => true
  | VStr s => is_empty_str (strip s)
  | _ => false
  end.

(** One lookup of [get_unreviewed_school_by_match]: the first row of a
    200 answer, if any. *)
Definition first_row (q : query) : M world (option pydict) :=
  (r <-- http_get q ;;;
   mret (if status_code r =? 200 then hd_error (body r) else None))%M.

Definition get_unreviewed_school_by_match
    (school_id website_url name : pyval) : M world (option pydict) :=
  mtry
    (by_id <-- (if truthy school_id then first_row (ById school_id)
                else mret None) ;;;
     match by_id with
     | Some row => mret (Some row)
     | None =>
         by_site <-- (if truthy website_url
                      then first_row (ByWebsite (py_str website_url))
                      else mret None) ;;;
         match by_site with
         | Some row => mret (Some row)
         | None =>
             by_name <-- (if truthy name
                          then first_row (ByName (py_str name))
                          else mret None) ;;;
             match by_name with
             | Some row => mret (Some row)
             | None => mret None
             end
         end
     end)%M
    (fun _ => None).

(** The rank entries folded into [raw_data]. *)
Definition annotate_rank (raw : pyval) (t : rank_triple) : exc pyval :=
  let '(disp, rmin, rmax) := t in
  raw1 <- match disp with
          | Some d => setitem raw "qs_ranking_display" (VStr d)
          | None => Ret raw
          end ;;
  raw2 <- match rmin with
          | Some n => setitem raw1 "qs_rank_min" (VInt n)
          | None => Ret raw1
          end ;;
  match rmax with
  | Some n => setitem raw2 "qs_rank_max" (VInt n)
  | None => Ret raw2
  end.

Definition patch_payload (current updates : pydict) : exc pydict :=
  let payload := drop_none updates in
  if dict_mem "qs_ranking" payload then
    let '(disp, rmin, rmax) := _normalize_qs_ranking (dget payload "qs_ranking") in
    let payload1 :=
      match rmin with
      | Some n => dict_set "qs_ranking" (VInt n) payload
      | None => dict_remove "qs_ranking" payload
      end in
    let old_raw := py_or (dget current "raw_data") (VDict []) in
    let new_raw := py_or (dget updates "raw_data") (VDict []) in
    o <- as_mapping old_raw ;;
    n <- as_mapping new_raw ;;
    merged <- annotate_rank (VDict (dict_merge o n)) (disp, rmin, rmax) ;;
    Ret (dict_set "raw_data" merged payload1)
  else if dict_mem "raw_data" updates then
    let old_raw := py_or (dget current "raw_data") (VDict []) in
    let new_raw := py_or (dget updates "raw_data") (VDict []) in
    match old_raw, new_raw with
    | VDict o, VDict n => Ret (dict_set "raw_data" (VDict (dict_merge o n)) payload)
    | _, _ => Ret payload
    end
  else Ret payload.

Definition patch_unreviewed_school (school_id : pyval) (updates : pydict)
    : M world bool :=
  mtry
    (match updates with
     | [] => mret true
     | _ =>
         current <-- get_unreviewed_school_by_match school_id VNone VNone ;;;
         match current with
         | None => mret false
         | Some cur =>
             payload <-- lift (patch_payload cur updates) ;;;
             r <-- http_patch school_id payload ;;;
             mret ((status_code r =? 200) || (status_code r =? 204))
         end
     end)%M
    (fun _ => false).

Definition candidate_fields : list string :=
  ["year_founded"; "country"; "location"; "website_url"; "initial"; "type";
   "confidence_score"; "source_url"].

(** The scalar fields staged for a matched row. *)
Definition stage_fields (fill_only_empty : bool) (existing data : pydict) : pydict :=
  fold_left
    (fun patch f =>
       if fill_only_empty then
         let old_v := dget existing f in
         let new_v := dget data f in
         if _is_empty_value old_v && negb (_is_empty_value new_v)
         then dict_set f new_v patch else patch
       else
         if negb (is_none (dget data f)) then dict_set f (dget data f) patch
         else patch)
    candidate_fields [].

Definition stage_rank (fill_only_empty : bool) (existing : pydict)
    (rmin : option Z) (patch : pydict) : pydict :=
  match rmin with
  | Some n =>
      let old_rank := dget existing "qs_ranking" in
      if (fill_only_empty && _is_empty_value old_rank) || negb fill_only_empty
      then dict_set "qs_ranking" (VInt n) patch else patch
  | None => patch
  end.

(** The caller's candidate dict and the store: [raw_data] of the candidate
    is written in place when it is a non-empty dict. *)
Definition session : Type := (world * pydict)%type.

Definition on_store {A : Type} (m : M world A) : M session A :=
  fun s => let (r, w') := m (fst s) in (r, (w', snd s)).

Definition the_data : M session pydict := fun s => (Ret (snd s), s).

(** [raw = holder.get("raw_data") or {}] followed by the three rank
    assignments; [raw] is the candidate's own dict unless that was falsy. *)
Definition fold_rank_into_raw (held : pyval) (t : rank_triple) : M session pyval :=
  fun s =>
    match annotate_rank (py_or held (VDict [])) t with
    | Ret raw =>
        (Ret raw,
         (fst s, if truthy held && dict_mem "raw_data" (snd s)
                 then dict_set "raw_data" raw (snd s) else snd s))
    | Raise e => (Raise e, s)
    end.

Definition outcome : Type := (pyval * string)%type.

Definition build_insert_payload (data : pydict) (name website_url source_url : string)
    (rmin : option Z) : pydict :=
  [ ("name", VStr name);
    ("initial", dget data "initial");
    ("type", dget data "type");
    ("country", dget data "country");
    ("location", dget data "location");
    ("year_founded", dget data "year_founded");
    ("qs_ranking", of_opt_int rmin);
    ("website_url", py_or (VStr website_url) (dget data "website"));
    ("source_url", VStr source_url);
    ("confidence_score", dget_default data "confidence_score" (VFloat "0.0"));
    ("raw_data", dget_default data "raw_data" (VDict []));
    ("status", dget_default data "status" (VStr "pending")) ].

Definition or_none (s : string) : pyval :=
  if is_empty_str s then VNone else VStr s.

(** The [patch] dict of the branch [if existing:], once [raw] is known. *)
Definition staged_patch (fill_only_empty : bool) (existing data : pydict)
    (t : rank_triple) (raw : pyval) : pydict :=
  let rmin := snd (fst t) in
  let patch0 := stage_rank fill_only_empty existing rmin
                  (stage_fields fill_only_empty existing data) in
  if truthy raw then dict_set "raw_data" raw patch0 else patch0.

(** The branch [if existing:] of the entry point. *)
Definition enrich_existing (fill_only_empty : bool) (existing data : pydict)
    (t : rank_triple) : M session outcome :=
  (raw <-- fold_rank_into_raw (dget data "raw_data") t ;;;
   let patch := staged_patch fill_only_empty existing data t raw in
   match patch with
   | _ :: _ =>
       i <-- lift (getitem existing "id") ;;;
       ok <-- on_store (patch_unreviewed_school i patch) ;;;
       mret (if ok then i else VNone, if ok then "enriched" else "skipped")
   | [] =>
       i <-- lift (getitem existing "id") ;;;
       mret (i, "skipped")
   end)%M.

(** The insertion of a candidate that matched no row. *)
Definition insert_new (data : pydict) (name website_url source_url : string)
    (t : rank_triple) : M session outcome :=
  (let rmin := snd (fst t) in
   let payload0 := build_insert_payload data name website_url source_url rmin in
   raw <-- fold_rank_into_raw (dget payload0 "raw_data") t ;;;
   let insert_payload := drop_none (dict_set "raw_data" raw payload0) in
   r <-- on_store (http_post insert_payload) ;;;
   if (status_code r =? 200) || (status_code r =? 201) then
     mret (dget (hd [] (body r)) "id", "inserted")
   else mret (VNone, "skipped"))%M.

Definition enrich_body (fill_only_empty : bool) : M session outcome :=
  (data <-- the_data ;;;
   name <-- lift (py_strip (py_or (dget data "name") (VStr EmptyString))) ;;;
   website_url <-- lift (py_strip (py_or (py_or (dget data "website_url")
                                                (dget data "website"))
                                         (VStr EmptyString))) ;;;
   source_url <-- lift (py_strip (py_or (dget data "source_url")
                                        (VStr EmptyString))) ;;;
   let t := _normalize_qs_ranking (dget data "qs_ranking") in
   existing <-- on_store (get_unreviewed_school_by_match
                            VNone (or_none website_url) (or_none name)) ;;;
   match existing with
   | Some row =>
       if truthy (VDict row) then enrich_existing fill_only_empty row data t
       else insert_new data name website_url source_url t
   | None => insert_new data name website_url source_url t
   end)%M.

(** The entry point: the whole body sits in [try: ... except Exception:].
    It returns the outcome, the store and the caller's candidate dict as
    the call leaves them. *)
Definition enrich_or_insert_unreviewed_school
    (data : pydict) (fill_only_empty : bool) (w : world)
    : outcome * world * pydict :=
  let '(r, (w', data')) := enrich_body fill_only_empty (w, data) in
  (try_except r (fun _ => (VNone, "skipped")), w', data').

(** The scalar fields of a row the entry point may stage. *)
Definition scalar_fields : list string := candidate_fields ++ ["qs_ranking"].

(** Every row's identity prints differently: [id] is the primary key. *)
Definition ids_unique (w : world) : Prop :=
  NoDup (map (fun row => py_str (dget row "id")) (rows w)).

(** *** Candidates and stores of the idempotence property *)

(** The three texts the entry point reads off a candidate. *)
Definition candidate_name (data : pydict) : string :=
  strip (py_str (py_or (dget data "name") (VStr EmptyString))).

Definition candidate_site (data : pydict) : string :=
  strip (py_str (py_or (py_or (dget data "website_url") (dget data "website"))
                       (VStr EmptyString))).

Definition candidate_source (data : pydict) : string :=
  strip (py_str (py_or (dget data "source_url") (VStr EmptyString))).

Definition text_or_none (v : pyval) : bool :=
  match v with
  | VNone | VStr _ => true
  | _ => false
  end.

Fixpoint nodup_keys (d : pydict) : bool :=
  match d with
  | [] => true
  | (k, _) :: r => negb (dict_mem k r) && nodup_keys r
  end.

(** An auxiliary payload: absent, or a dict (whose keys are distinct). *)
Definition payload_ok (v : pyval) : bool :=
  match v with
  | VNone => true
  | VDict d => nodup_keys d
  | _ => false
  end.

(** A candidate record as the data model has it: name, website and source
    are texts or absent, the payload is a mapping or absent. *)
Definition well_formed_candidate (data : pydict) : bool :=
  text_or_none (dget data "name") && text_or_none (dget data "website_url")
  && text_or_none (dget data "website") && text_or_none (dget data "source_url")
  && payload_ok (dget data "raw_data").

(** The candidate has a name or a website to be found by. *)
Definition identifiable (data : pydict) : bool :=
  negb (is_empty_str (candidate_name data))
  || negb (is_empty_str (candidate_site data)).

(** The name and the website of the candidate reach the remote end as
    they are written. *)
Definition wire_plain (data : pydict) : bool :=
  wire_safe (candidate_name data) && wire_safe (candidate_site data).

(** [row] answers one of the lookups the entry point makes for [data]. *)
Definition row_hit (data row : pydict) : bool :=
  negb (is_empty_str (candidate_site data))
  && row_matches (ByWebsite (candidate_site data)) row
  || negb (is_empty_str (candidate_name data))
     && row_matches (ByName (candidate_name data)) row.

Definition matches_nothing (data : pydict) (w : world) : bool :=
  forallb (fun row => negb (row_hit data row)) (rows w).

(** The store serves every request, and the identity it assigns next is
    truthy and names no row yet. *)
Definition serving_fresh (w : world) : bool :=
  match replies w with [] => true | _ => false end
  && negb (next_id w =? 0)
  && forallb (fun row => negb (row_matches (ById (VInt (next_id w))) row)) (rows w).

(** The candidate brings a rank text or a non-empty payload. *)
Definition carries_payload (data : pydict) : bool :=
  match fst (fst (_normalize_qs_ranking (dget data "qs_ranking"))) with
  | Some _ => true
  | None => truthy (dget data "raw_data")
  end.

(** [raw_data] of the candidate, or a new dict when that is falsy. *)
Definition payload_base (data : pydict) : pyval :=
  py_or (dget data "raw_data") (VDict []).

Definition set_opt (k : string) (o : option pyval) (d : pydict) : pydict :=
  match o with
  | Some v => dict_set k v d
  | None => d
  end.

(** The entries the rank triple adds to a payload dict. *)
Definition with_rank (t : rank_triple) (d : pydict) : pydict :=
  let '(disp, rmin, rmax) := t in
  set_opt "qs_rank_max" (option_map VInt rmax)
    (set_opt "qs_rank_min" (option_map VInt rmin)
       (set_opt "qs_ranking_display" (option_map VStr disp) d)).

(** The payload of [data] with the entries of its rank folded in. *)
Definition noted_payload (data : pydict) : pyval :=
  match payload_base data with
  | VDict d => VDict (with_rank (_normalize_qs_ranking (dget data "qs_ranking")) d)
  | v => v
  end.

(** The row the first reconciliation of [data] creates under identity [n]. *)
Definition created_row (data : pydict) (n : Z) : pydict :=
  ("id", VInt n)
  :: drop_none
       (dict_set "raw_data" (noted_payload data)
          (build_insert_payload data (candidate_name data) (candidate_site data)
             (candidate_source data)
             (snd (fst (_normalize_qs_ranking (dget data "qs_ranking")))))).

(** The caller's dict after that call: a non-empty payload was written in
    place. *)
Definition candidate_after (data : pydict) : pydict :=
  if truthy (dget data "raw_data")
  then dict_set "raw_data" (noted_payload data) data else data.

(** ** The retry loop of [get_page] (http_client.py) *)

(** What one [session.get] does: it answers with a status or raises. *)
Inductive fetch_result : Type :=
| Status (code : Z)
| TimeoutException
| RequestError
| OtherException.

(** What the loop does besides fetching, in order: the pacing gate
    [_rate_limit] (whose own sleep depends on the wall clock), the requests
    and the sleeps between attempts. *)
Inductive event : Type :=
| RateLimit
| Request (attempt : Z)
| SleepBackoff (wait_time : Z)
| SleepRetryDelay.

Inductive page_result : Type :=
| Page (status : Z)
| NoPage.

(** [for attempt in range(retries + 1)], from [attempt] on; [todo] counts
    the attempts left and [env] answers the [k]-th attempt. *)
Fixpoint get_page_from (env : Z -> fetch_result) (retries : Z)
    (todo : nat) (attempt : Z) (log : list event) : page_result * list event :=
  match todo with
  | O => (NoPage, log)
  | S todo' =>
      let log1 := (log ++ [RateLimit; Request attempt])%list in
      match env attempt with
      | Status code =>
          if code =? 200 then (Page code, log1)
          else if code =? 404 then (NoPage, log1)
          else if (code =? 429) || (code =? 503) then
            let wait_time := 2 ^ attempt * 5 in
            get_page_from env retries todo' (attempt + 1)
              (log1 ++ [SleepBackoff wait_time])%list
          else if attempt <? retries then
            get_page_from env retries todo' (attempt + 1)
              (log1 ++ [SleepRetryDelay])%list
          else (NoPage, log1)
      | _ =>
          if attempt <? retries then
            get_page_from env retries todo' (attempt + 1)
              (log1 ++ [SleepRetryDelay])%list
          else (NoPage, log1)
      end
  end.

(** [settings.MAX_RETRIES], unless the environment overrides it. *)
Definition MAX_RETRIES : Z := 3.

Definition get_page (env : Z -> fetch_result) (retries : option Z)
    : page_result * list event :=
  let retries := match retries with Some r => r | None => MAX_RETRIES end in
  get_page_from env retries (Z.to_nat (retries + 1)) 0 [].

Definition backoff_waits (log : list event) : list Z :=
  flat_map (fun e => match e with SleepBackoff w => [w] | _ => [] end) log.

Definition requests_sent (log : list event) : nat :=
  List.length (filter (fun e => match e with Request _ => true | _ => false end) log).

(** A throttling answer: HTTP 429 or 503. *)
Definition throttled (r : fetch_result) : bool :=
  match r with
  | Status code => (code =? 429) || (code =? 503)
  | _ => false
  end.

(** The loop indices [attempt], [attempt + 1], ... of [todo] attempts. *)
Fixpoint attempts_from (todo : nat) (attempt : Z) : list Z :=
  match todo with
  | O => []
  | S todo' => attempt :: attempts_from todo' (attempt + 1)
  end.

(** What a run of throttled attempts leaves in the log. *)
Definition throttled_run (todo : nat) (attempt : Z) : list event :=
  flat_map (fun k => [RateLimit; Request k; SleepBackoff (2 ^ k * 5)])
           (attempts_from todo attempt).

(** ** Further code of supabase_manager.py *)

(** The store keeps its rows and the next identity. *)
Definition same_table (w w' : world) : Prop :=
  rows w' = rows w /\ next_id w' = next_id w.

(** The row a served insertion creates from the entry point's payload. *)
Definition inserted_row (data : pydict) (name site source : string)
    (raw : pyval) (rmin : option Z) (n : Z) : pydict :=
  ("id", VInt n)
  :: drop_none (dict_set "raw_data" raw
                  (build_insert_payload data name site source rmin)).

Definition int_or_none (v : pyval) : bool :=
  match v with
  | VNone | VInt _ => true
  | _ => false
  end.

(** Every row holds an integer, or nothing, in the scalar rank column. *)
Definition rank_column_ok (w : world) : Prop :=
  forall row, In row (rows w) -> int_or_none (dget row "qs_ranking") = true.

(** The identities of the table: distinct positive integers below the
    next one to be assigned. *)
Definition store_ok (w : world) : Prop :=
  ids_unique w /\ 0 < next_id w /\
  forall row, In row (rows w) ->
              exists k, dict_get "id" row = Some (VInt k) /\ 0 < k < next_id w.

(** [store_unreviewed_school]: insertion only. *)
Definition store_insert_data (school_data : pydict) (qs_min : option Z) : pydict :=
  [ ("name", dget school_data "name");
    ("initial", dget school_data "initial");
    ("type", dget school_data "type");
    ("country", dget school_data "country");
    ("location", dget school_data "location");
    ("year_founded", dget school_data "year_founded");
    ("qs_ranking", of_opt_int qs_min);
    ("website_url", py_or (dget school_data "website_url")
                          (dget school_data "website"));
    ("source_url", dget school_data "source_url");
    ("confidence_score", dget_default school_data "confidence_score" (VFloat "0.0"));
    ("raw_data", dget_default school_data "raw_data" (VDict []));
    ("status", VStr "pending") ].

Definition store_body : M session pyval :=
  (school_data <-- the_data ;;;
   let t := _normalize_qs_ranking (dget school_data "qs_ranking") in
   let insert_data := store_insert_data school_data (snd (fst t)) in
   raw <-- fold_rank_into_raw (dget insert_data "raw_data") t ;;;
   let insert_data := drop_none (dict_set "raw_data" raw insert_data) in
   resp <-- on_store (http_post insert_data) ;;;
   if (status_code resp =? 200) || (status_code resp =? 201) then
     mret (dget (hd [] (body resp)) "id")
   else mret VNone)%M.

Definition store_unreviewed_school (school_data : pydict) (w : world)
    : pyval * world * pydict :=
  let '(r, (w', data')) := store_body (w, school_data) in
  (try_except r (fun _ => VNone), w', data').

(** The test the entry point applies to a candidate field [f] before it
    stages it. *)
Definition field_staged (fill_only_empty : bool) (existing data : pydict)
    (f : string) : bool :=
  if fill_only_empty
  then _is_empty_value (dget existing f) && negb (_is_empty_value (dget data f))
  else negb (is_none (dget data f)).

Definition is_candidate_field (f : string) : bool :=
  existsb (String.eqb f) candidate_fields.

(** The filters a lookup was given, as far as [row] answers one. *)
Definition answers (school_id website_url name : pyval) (row : pydict) : bool :=
  truthy school_id && row_matches (ById school_id) row
  || truthy website_url && row_matches (ByWebsite (py_str website_url)) row
  || truthy name && row_matches (ByName (py_str name)) row.

(** The mapping a stored or incoming [raw_data] stands for in a merge. *)
Definition mapping_of (v : pyval) : pydict :=
  match v with
  | VDict d => d
  | _ => []
  end.

Definition mapping_or_none (v : pyval) : bool :=
  match v with
  | VNone | VDict _ => true
  | _ => false
  end.

(** The three keys the rank triple is recorded under. *)
Definition is_rank_key (k : string) : bool :=
  String.eqb k "qs_ranking_display" || String.eqb k "qs_rank_min"
  || String.eqb k "qs_rank_max".

(** The row a served [store_unreviewed_school] creates under identity [n]. *)
Definition stored_row (data : pydict) (n : Z) : pydict :=
  ("id", VInt n)
  :: drop_none
       (dict_set "raw_data" (noted_payload data)
          (store_insert_data data (written_rank (dget data "qs_ranking")))).

(** The columns [store_unreviewed_school] copies as they are. *)
Definition copied_columns : list string :=
  ["name"; "initial"; "type"; "country"; "location"; "year_founded"; "source_url"].

(** ** Further code of http_client.py *)

(** An answer that ends the loop of [get_page] at once: HTTP 200 or 404. *)
Definition terminal (r : fetch_result) : bool :=
  match r with
  | Status code => (code =? 200) || (code =? 404)
  | _ => false
  end.

(** What [get_page] returns on a terminal answer. *)
Definition answer_of (r : fetch_result) : page_result :=
  match r with
  | Status code => if code =? 200 then Page code else NoPage
  | _ => NoPage
  end.

(** The loop indices of the requests of a log, in order. *)
Definition request_indices (log : list event) : list Z :=
  flat_map (fun e => match e with Request k => [k] | _ => [] end) log.

(** Every request follows a call of [_rate_limit], and every call of
    [_rate_limit] is followed by a request. *)
Fixpoint paced (log : list event) : bool :=
  match log with
  | [] => true
  | RateLimit :: rest =>
      match rest with
      | Request _ :: rest' => paced rest'
      | _ => false
      end
  | Request _ :: _ => false
  | _ :: rest => paced rest
  end.


(** The number of sleeps of [settings.RETRY_DELAY]. *)
Definition retry_delays (log : list event) : nat :=
  List.length (filter (fun e => match e with SleepRetryDelay => true | _ => false end)
                      log).

Definition total (l : list Z) : Z := fold_right Z.add 0 l.

(** [post_data]: the loop of [get_page] without the cases for 404, 429
    and 503; [except Exception] takes every failure of the request. *)
Fixpoint post_data_from (env : Z -> fetch_result) (retries : Z)
    (todo : nat) (attempt : Z) (log : list event) : page_result * list event :=
  match todo with
  | O => (NoPage, log)
  | S todo' =>
      let log1 := (log ++ [RateLimit; Request attempt])%list in
      match env attempt with
      | Status code =>
          if code =? 200 then (Page code, log1)
          else if attempt <? retries then
            post_data_from env retries todo' (attempt + 1)
              (log1 ++ [SleepRetryDelay])%list
          else (NoPage, log1)
      | _ =>
          if attempt <? retries then
            post_data_from env retries todo' (attempt + 1)
              (log1 ++ [SleepRetryDelay])%list
          else (NoPage, log1)
      end
  end.

Definition post_data (env : Z -> fetch_result) (retries : option Z)
    : page_result * list event :=
  let retries := match retries with Some r => r | None => MAX_RETRIES end in
  post_data_from env retries (Z.to_nat (retries + 1)) 0 [].

(** The answer is HTTP 200. *)
Definition is_ok (r : fetch_result) : bool :=
  match r with
  | Status code => code =? 200
  | _ => false
  end.

(** What a run of failed attempts of [post_data] leaves in the log. *)
Definition delayed_run (todo : nat) (attempt : Z) : list event :=
  flat_map (fun k => [RateLimit; Request k; SleepRetryDelay])
           (attempts_from todo attempt).

(** ** The crawler (base_crawler.py) *)

(** The dict [get_page] returns for a page, as far as the crawler's own
    code looks at it: it is truthy, and it names the URL and the status. *)
Record page_data : Type := mkPage {
  page_url : string;
  page_status : Z
}.

(** The fields of [BaseCrawler] the crawling methods use.  [fetches]
    counts the calls of [get_page] made so far; it is not a field of the
    class but tells which answers of the web the next call sees. *)
Record crawler : Type := mkCrawler {
  is_running : bool;
  crawled_count : Z;
  failed_count : Z;
  visited_urls : list string;
  fetches : nat
}.

(** [url in self.visited_urls] *)
Definition in_set (url : string) (s : list string) : bool :=
  existsb (String.eqb url) s.

(** [self.visited_urls.add(url)] *)
Definition set_add (url : string) (s : list string) : list string :=
  if in_set url s then s else url :: s.

Definition start (c : crawler) : crawler :=
  if is_running c then c
  else mkCrawler true 0 0 [] (fetches c).

Definition stop (c : crawler) : crawler :=
  if negb (is_running c) then c
  else mkCrawler false (crawled_count c) (failed_count c) (visited_urls c) (fetches c).

Definition cleanup (c : crawler) : crawler :=
  mkCrawler (is_running c) (crawled_count c) (failed_count c) [] (fetches c).

(** The result of [crawl_urls]: the list it returns, or the error of the
    division in its progress report. *)
Inductive crawl_result : Type :=
| Crawled (results : list page_data)
| ZeroDivisionError.

Section Crawler.

(** The web: what the [n]-th call of [get_page], made for [url], is
    answered at each of its attempts. *)
Variable web : nat -> string -> Z -> fetch_result.

Definition crawl_url (url : string) (c : crawler) : option page_data * crawler :=
  if negb (is_running c) then (None, c)
  else if in_set url (visited_urls c) then (None, c)
  else
    match fst (get_page (web (fetches c) url) None) with
    | NoPage =>
        (None,
         mkCrawler (is_running c) (crawled_count c) (failed_count c + 1)
                   (visited_urls c) (S (fetches c)))
    | Page status =>
        (Some (mkPage url status),
         mkCrawler (is_running c) (crawled_count c + 1) (failed_count c)
                   (set_add url (visited_urls c)) (S (fetches c)))
    end.

(** [for i, url in enumerate(urls, 1)], from position [i] on. *)
Fixpoint crawl_urls_from (urls : list string) (i : Z) (results : list page_data)
    (c : crawler) : crawl_result * crawler :=
  match urls with
  | [] => (Crawled results, c)
  | url :: rest =>
      if negb (is_running c) then (Crawled results, c)
      else
        let (result, c1) := crawl_url url c in
        let results1 :=
          match result with
          | Some p => (results ++ [p])%list
          | None => results
          end in
        if (i mod 10 =? 0) && (crawled_count c1 + failed_count c1 =? 0)
        then (ZeroDivisionError, c1)
        else crawl_urls_from rest (i + 1) results1 c1
  end.

Definition crawl_urls (urls : list string) (c : crawler) : crawl_result * crawler :=
  match urls with
  | [] => (Crawled [], c)
  | _ => crawl_urls_from urls 1 [] c
  end.

End Crawler.

(** The counters are not negative and count every visited URL. *)
Definition counts_ok (c : crawler) : Prop :=
  0 <= failed_count c /\
  Z.of_nat (List.length (visited_urls c)) <= crawled_count c.

(** ** The upsert loop of the Top-N script (crawl_qs_topN.py) *)

(** The candidate [ensure_topN] builds from a fetched row [r]; [r["name"]]
    raises when the row has no name. *)
Definition topN_candidate (r : pydict) : exc pydict :=
  name <- getitem r "name" ;;
  Ret [ ("name", name);
        ("initial", dget r "initial");
        ("type", dget_default r "type" (VStr "University"));
        ("country", dget r "country");
        ("location", dget r "location");
        ("year_founded", dget r "year_founded");
        ("qs_ranking", dget r "qs_ranking");
        ("website_url", py_or (dget r "website_url") (dget r "website"));
        ("source_url", dget r "source_url");
        ("confidence_score", dget_default r "confidence_score" (VFloat "0.95"));
        ("raw_data", dget_default r "raw_data" (VDict []));
        ("status", VStr "pending") ].

(** The four counters of the loop. *)
Record tally : Type := mkTally {
  stored : Z;
  enriched : Z;
  skipped : Z;
  failed : Z
}.

(** One pass of the loop body.  The candidate dict is not used after the
    call, so what the call leaves in it is dropped. *)
Definition upsert_row (r : pydict) (st : tally * world) : tally * world :=
  let (t, w) := st in
  match topN_candidate r with
  | Ret candidate =>
      let '(o, w', _) := enrich_or_insert_unreviewed_school candidate true w in
      if String.eqb (snd o) "inserted" then
        (mkTally (stored t + 1) (enriched t) (skipped t) (failed t), w')
      else if String.eqb (snd o) "enriched" then
        (mkTally (stored t) (enriched t + 1) (skipped t) (failed t), w')
      else
        (mkTally (stored t) (enriched t) (skipped t + 1) (failed t), w')
  | Raise _ =>
      (mkTally (stored t) (enriched t) (skipped t) (failed t + 1), w)
  end.

(** [for i, r in enumerate(rows, 1)] with the counters at zero. *)
Definition upsert_all (batch : list pydict) (w : world) : tally * world :=
  fold_left (fun st r => upsert_row r st) batch (mkTally 0 0 0 0, w).

(** The fetched rows without a name. *)
Definition nameless (batch : list pydict) : list pydict :=
  filter (fun r => negb (dict_mem "name" r)) batch.

(** ** The completeness check of the Top-N script (crawl_qs_topN.py) *)

(** [range(lo, hi)] *)
Definition py_range (lo hi : Z) : list Z :=
  map (fun i => lo + Z.of_nat i) (seq 0 (Z.to_nat (hi - lo))).

(** [isinstance(v, int)], with the integer [v] stands for: a [bool] is an
    [int] too. *)
Definition as_int (v : pyval) : option Z :=
  match v with
  | VInt n => Some n
  | VBool b => Some (if b then 1 else 0)
  | _ => None
  end.

(** [[row.get("qs_ranking") for row in rows if isinstance(..., int)]] *)
Definition topN_ranks (rows : list pydict) : list Z :=
  flat_map (fun row => match as_int (dget row "qs_ranking") with
                       | Some n => [n]
                       | None => []
                       end) rows.

(** [max(ranks) if ranks else None] *)
Definition max_rank (ranks : list Z) : option Z :=
  match ranks with
  | [] => None
  | x :: r => Some (fold_left Z.max r x)
  end.

(** [fetch_topN_status], from the answer to its query on: the count, the
    largest rank and the ranks present.  The set of ranks is kept as the
    list of its members. *)
Definition fetch_topN_status (answer : exc response) : Z * option Z * list Z :=
  match answer with
  | Ret r =>
      if status_code r =? 200 then
        let ranks := topN_ranks (body r) in
        (Z.of_nat (List.length ranks), max_rank ranks, ranks)
      else (0, None, [])
  | Raise _ => (0, None, [])
  end.

Definition need_fetch_topN (N count : Z) (max_rank : option Z) (present : list Z)
    : bool :=
  if count <? N then true
  else
    match max_rank with
    | None => true
    | Some m =>
        if m <? N then true
        else
          let missing :=
            filter (fun k => negb (existsb (Z.eqb k) present)) (py_range 1 (N + 1)) in
          (0 <? Z.of_nat (List.length missing))
    end.

(** [need_fetch_topN] on what [fetch_topN_status] reports. *)
Definition refetch (N : Z) (answer : exc response) : bool :=
  let '(count, m, present) := fetch_topN_status answer in
  need_fetch_topN N count m present.

(** ** The address of robots.txt (http_client.py) *)

(** [s[n:]] *)
Fixpoint skip (n : nat) (s : string) : string :=
  match n, s with
  | S n', String _ r => skip n' r
  | _, _ => s
  end.

(** [s.split(sep, 1)] for a non-empty [sep] that occurs in [s]: the text
    before and after its first occurrence. *)
Fixpoint split_at (sep s : string) : option (string * string) :=
  if String.prefix sep s then Some (EmptyString, skip (String.length sep) s)
  else
    match s with
    | EmptyString => None
    | String c r =>
        match split_at sep r with
        | Some (b, a) => Some (String c b, a)
        | None => None
        end
    end.

(** [s.split(sep)[1]]; there is no such piece when [sep] does not occur. *)
Definition second_piece (sep s : string) : option string :=
  match split_at sep s with
  | Some (_, rest) =>
      match split_at sep rest with
      | Some (b, _) => Some b
      | None => Some rest
      end
  | None => None
  end.

(** The domain [check_robots_txt] extracts; [None] stands for the
    [IndexError] of a missing piece. *)
Definition base_domain (base_url : string) : option string :=
  if contains "://" base_url then
    match second_piece "://" base_url with
    | Some piece => Some (fst (split_first "/" piece))
    | None => None
    end
  else Some (fst (split_first "/" base_url)).

Definition robots_url (base_domain : string) : string :=
  "https://" ++ base_domain ++ "/robots.txt".

(** [check_robots_txt], given what [session.get] does with an address: it
    answers with a status and a text, or raises. *)
Definition check_robots_txt (session_get : string -> exc (Z * string))
    (base_url : string) : option string :=
  match base_domain base_url with
  | Some d =>
      match session_get (robots_url d) with
      | Ret (code, text) => if code =? 200 then Some text else None
      | Raise _ => None
      end
  | None => None
  end.

(** * Properties *)

(** ** Strings *)

Section Strip.

Variable sp : ascii -> bool.

Lemma rstrip_by_clean (s : string) : clean sp s = true -> rstrip_by sp s = s.
Proof.
  induction s as [|c r IH]; simpl; intros H; [reflexivity|].
  apply andb_true_iff in H as [Hc Hr].
  rewrite (IH Hr). apply negb_true_iff in Hc. rewrite Hc.
  destruct r; reflexivity.
Qed.

Lemma strip_by_clean (s : string) : clean sp s = true -> strip_by sp s = s.
Proof.
  intros H. unfold strip_by.
  assert (lstrip_by sp s = s) as ->.
  { destruct s as [|c r]; simpl in *; [reflexivity|].
    apply andb_true_iff in H as [Hc _]. apply negb_true_iff in Hc.
    now rewrite Hc. }
  now apply rstrip_by_clean.
Qed.

Lemma lstrip_by_head (s : string) : head_kept sp (lstrip_by sp s) = true.
Proof.
  induction s as [|c r IH]; simpl; [reflexivity|].
  destruct (sp c) eqn:E; [exact IH|]. simpl. now rewrite E.
Qed.

Lemma lstrip_by_fixed (s : string) : head_kept sp s = true -> lstrip_by sp s = s.
Proof.
  destruct s as [|c r]; simpl; [reflexivity|].
  intros H. apply negb_true_iff in H. now rewrite H.
Qed.

Lemma rstrip_by_head (s : string) :
  head_kept sp s = true -> head_kept sp (rstrip_by sp s) = true.
Proof.
  destruct s as [|c r]; simpl; [reflexivity|]. intros H.
  destruct (rstrip_by sp r); [|exact H].
  apply negb_true_iff in H. rewrite H. simpl. now rewrite H.
Qed.

Lemma rstrip_by_idem (s : string) :
  rstrip_by sp (rstrip_by sp s) = rstrip_by sp s.
Proof.
  induction s as [|c r IH]; simpl; [reflexivity|].
  destruct (rstrip_by sp r) as [|c' r'] eqn:E.
  - destruct (sp c) eqn:Ec; simpl; [reflexivity|]. now rewrite Ec.
  - change (rstrip_by sp (String c (String c' r')))
      with (match rstrip_by sp (String c' r') with
            | EmptyString => if sp c then EmptyString else String c EmptyString
            | x => String c x
            end).
    now rewrite IH.
Qed.

Lemma strip_by_idem (s : string) : strip_by sp (strip_by sp s) = strip_by sp s.
Proof.
  unfold strip_by.
  rewrite (lstrip_by_fixed (rstrip_by sp (lstrip_by sp s))).
  - apply rstrip_by_idem.
  - apply rstrip_by_head, lstrip_by_head.
Qed.

Lemma rstrip_by_empty (s : string) :
  rstrip_by sp s = EmptyString <-> all_chars sp s = true.
Proof.
  induction s as [|c r IH]; simpl; [tauto|].
  destruct (rstrip_by sp r) eqn:E.
  - destruct (sp c); simpl.
    + split; [intros _; now apply IH | reflexivity].
    + split; discriminate.
  - split; [discriminate|].
    intros H. apply andb_true_iff in H as [_ H]. apply IH in H. discriminate.
Qed.

Lemma lstrip_by_all (s : string) :
  all_chars sp (lstrip_by sp s) = all_chars sp s.
Proof.
  induction s as [|c r IH]; simpl; [reflexivity|].
  destruct (sp c) eqn:E; simpl; [exact IH | now rewrite E].
Qed.

Lemma strip_by_empty (s : string) :
  strip_by sp s = EmptyString <-> all_chars sp s = true.
Proof.
  unfold strip_by. rewrite rstrip_by_empty, lstrip_by_all. tauto.
Qed.

End Strip.

Lemma append_assoc (s t u : string) : (s ++ t) ++ u = s ++ (t ++ u).
Proof.
  induction s as [|c r IH]; simpl; [reflexivity | now rewrite IH].
Qed.

Lemma length_append (s t : string) :
  String.length (s ++ t) = (String.length s + String.length t)%nat.
Proof.
  induction s as [|c r IH]; simpl; [reflexivity | now rewrite IH].
Qed.

Lemma all_chars_app (p : ascii -> bool) (s t : string) :
  all_chars p (s ++ t) = all_chars p s && all_chars p t.
Proof.
  induction s as [|c r IH]; simpl; [reflexivity|].
  now rewrite IH, andb_assoc.
Qed.

Lemma all_chars_impl (p q : ascii -> bool) (s : string) :
  (forall c, p c = true -> q c = true) ->
  all_chars p s = true -> all_chars q s = true.
Proof.
  intros Hpq. induction s as [|c r IH]; simpl; [reflexivity|].
  intros H. apply andb_true_iff in H as [Hc Hr].
  now rewrite (Hpq c Hc), (IH Hr).
Qed.

Lemma has_char_app (x : ascii) (s t : string) :
  has_char x (s ++ t) = has_char x s || has_char x t.
Proof.
  induction s as [|c r IH]; simpl; [reflexivity|].
  now rewrite IH, orb_assoc.
Qed.

Lemma has_char_none (p : ascii -> bool) (x : ascii) (s : string) :
  p x = false -> all_chars p s = true -> has_char x s = false.
Proof.
  intros Hx. induction s as [|c r IH]; simpl; [reflexivity|].
  intros H. apply andb_true_iff in H as [Hc Hr]. rewrite (IH Hr), orb_false_r.
  destruct (Ascii.eqb_spec c x); [congruence | reflexivity].
Qed.

Lemma endswith_char_snoc (x : ascii) (s : string) :
  endswith_char x (s ++ String x EmptyString) = true.
Proof.
  induction s as [|c r IH]; simpl; [apply Ascii.eqb_refl|].
  destruct (r ++ String x EmptyString) eqn:E; [|exact IH].
  destruct r; discriminate.
Qed.

Lemma drop_last_snoc (x : ascii) (s : string) :
  drop_last (s ++ String x EmptyString) = s.
Proof.
  induction s as [|c r IH]; simpl; [reflexivity|].
  destruct (r ++ String x EmptyString) eqn:E.
  - destruct r; discriminate.
  - now rewrite IH.
Qed.

Lemma split_first_app (x : ascii) (s t : string) :
  has_char x s = false ->
  split_first x (s ++ String x t) = (s, t).
Proof.
  induction s as [|c r IH]; simpl.
  - now rewrite Ascii.eqb_refl.
  - intros H. apply orb_false_iff in H as [Hc Hr].
    now rewrite Hc, (IH Hr).
Qed.

Lemma split_first_before (x : ascii) (s : string) :
  has_char x (fst (split_first x s)) = false.
Proof.
  induction s as [|c r IH]; simpl; [reflexivity|].
  destruct (Ascii.eqb c x) eqn:E; [reflexivity|].
  destruct (split_first x r) as [a b]. simpl in *. now rewrite E, IH.
Qed.

Lemma has_char_lstrip (sp : ascii -> bool) (x : ascii) (s : string) :
  has_char x s = false -> has_char x (lstrip_by sp s) = false.
Proof.
  induction s as [|c r IH]; simpl; [reflexivity|].
  intros H. destruct (sp c); [|exact H].
  apply orb_false_iff in H as [_ H]. now apply IH.
Qed.

Lemma has_char_rstrip (sp : ascii -> bool) (x : ascii) (s : string) :
  has_char x s = false -> has_char x (rstrip_by sp s) = false.
Proof.
  induction s as [|c r IH]; simpl; [reflexivity|].
  intros H. apply orb_false_iff in H as [Hc Hr]. specialize (IH Hr).
  destruct (rstrip_by sp r).
  - destruct (sp c); simpl; [reflexivity | now rewrite Hc].
  - simpl in *. now rewrite Hc, IH.
Qed.

Lemma has_char_strip (sp : ascii -> bool) (x : ascii) (s : string) :
  has_char x s = false -> has_char x (strip_by sp s) = false.
Proof.
  intros H. now apply has_char_rstrip, has_char_lstrip.
Qed.

(** ** Integer literals *)

Lemma is_decimal_digit_val (c : ascii) :
  is_decimal c = true -> 0 <= digit_val c <= 9.
Proof.
  unfold is_decimal, digit_val. intros H.
  apply andb_true_iff in H as [H1 H2].
  apply N.leb_le in H1, H2. lia.
Qed.

Lemma int_digits_decimal (s : string) :
  all_chars is_decimal s = true ->
  forall acc prev,
    int_digits s acc prev =
    match s with
    | EmptyString => if prev then Some acc else None
    | _ => Some (dec_fold s acc)
    end.
Proof.
  induction s as [|c r IH]; simpl; intros H acc prev; [reflexivity|].
  apply andb_true_iff in H as [Hc Hr]. rewrite Hc, (IH Hr).
  destruct r; reflexivity.
Qed.

Lemma int_digits_nonneg (s : string) :
  forall acc prev n, int_digits s acc prev = Some n -> 0 <= acc -> 0 <= n.
Proof.
  induction s as [|c r IH]; cbn [int_digits]; intros acc prev n H Hacc.
  - destruct prev; [injection H as <-; exact Hacc | discriminate].
  - destruct (is_decimal c) eqn:Ec.
    + apply IH in H; [exact H|]. apply is_decimal_digit_val in Ec. lia.
    + destruct (Ascii.eqb c "_"); [|discriminate].
      destruct prev; [|discriminate]. now apply IH in H.
Qed.

Lemma dec_fold_app (s t : string) (acc : Z) :
  dec_fold (s ++ t) acc = dec_fold t (dec_fold s acc).
Proof.
  revert acc. induction s as [|c r IH]; simpl; intros acc; [reflexivity|].
  apply IH.
Qed.

Lemma N_digits_app (fuel : nat) :
  forall n acc, N_digits fuel n acc = N_digits fuel n EmptyString ++ acc.
Proof.
  induction fuel as [|f IH]; simpl; intros n acc; [reflexivity|].
  destruct (n <? 10)%N; [reflexivity|].
  rewrite IH, (IH _ (String _ EmptyString)), append_assoc.
  reflexivity.
Qed.

Lemma digit_char_decimal (d : N) : (d < 10)%N -> is_decimal (digit_char d) = true.
Proof.
  intros H. unfold is_decimal, digit_char, code.
  rewrite N_ascii_embedding by lia.
  apply andb_true_iff. split; apply N.leb_le; lia.
Qed.

Lemma digit_char_val (d : N) : (d < 10)%N -> digit_val (digit_char d) = Z.of_N d.
Proof.
  intros H. unfold digit_val, digit_char, code.
  rewrite N_ascii_embedding by lia. lia.
Qed.

Lemma N_digits_spec (fuel : nat) :
  forall n, (n < 2 ^ N.of_nat fuel)%N ->
    all_chars is_decimal (N_digits (S fuel) n EmptyString) = true /\
    is_empty_str (N_digits (S fuel) n EmptyString) = false /\
    forall acc, dec_fold (N_digits (S fuel) n EmptyString) acc
                = 10 ^ Z.of_nat (String.length (N_digits (S fuel) n EmptyString)) * acc
                  + Z.of_N n.
Proof.
  induction fuel as [|f IH]; intros n Hn.
  - assert (n = 0%N) as -> by (simpl in Hn; lia).
    split; [reflexivity | split; [reflexivity|]].
    intros acc. simpl. unfold digit_val. simpl. lia.
  - assert (Hmod : (n mod 10 < 10)%N) by (apply N.mod_lt; lia).
    change (N_digits (S (S f)) n EmptyString)
      with (if (n <? 10)%N then String (digit_char (n mod 10)) EmptyString
            else N_digits (S f) (n / 10) (String (digit_char (n mod 10)) EmptyString)).
    destruct (N.ltb_spec n 10) as [Hlt|Hge].
    + rewrite N.mod_small by exact Hlt.
      simpl. rewrite digit_char_decimal, digit_char_val by exact Hlt.
      split; [reflexivity | split; [reflexivity|]]. intros acc. lia.
    + assert (Hdiv : (n / 10 < 2 ^ N.of_nat f)%N).
      { apply N.Div0.div_lt_upper_bound.
        replace (N.of_nat (S f)) with (N.succ (N.of_nat f)) in Hn by lia.
        rewrite N.pow_succ_r' in Hn. lia. }
      destruct (IH _ Hdiv) as (Hall & Hne & Hval).
      rewrite N_digits_app.
      set (u := N_digits (S f) (n / 10) EmptyString) in *.
      split; [|split].
      * rewrite all_chars_app, Hall. simpl.
        now rewrite digit_char_decimal.
      * destruct u; [discriminate | reflexivity].
      * intros acc. rewrite dec_fold_app, Hval. cbn [dec_fold].
        rewrite digit_char_val by exact Hmod.
        rewrite length_append. simpl String.length.
        rewrite Nat2Z.inj_add, Z.pow_add_r by lia.
        change (Z.of_nat 1) with 1. rewrite Z.pow_1_r.
        pose proof (N.div_mod n 10 ltac:(lia)) as Hdm.
        assert (Z.of_N n = 10 * Z.of_N (n / 10) + Z.of_N (n mod 10)) by lia.
        rewrite H. ring.
Qed.

Lemma N_to_string_spec (n : N) :
  all_chars is_decimal (N_to_string n) = true /\
  is_empty_str (N_to_string n) = false /\
  dec_fold (N_to_string n) 0 = Z.of_N n.
Proof.
  unfold N_to_string.
  destruct (N_digits_spec (N.to_nat (N.size n)) n) as (H1 & H2 & H3).
  - rewrite N2Nat.id. apply N.size_gt.
  - split; [exact H1 | split; [exact H2|]]. rewrite H3. lia.
Qed.

Ltac by_char c :=
  destruct c as [[|] [|] [|] [|] [|] [|] [|] [|]]; cbv;
  intros; solve [reflexivity | discriminate | congruence | split; congruence].

Lemma decimal_signed (c : ascii) : is_decimal c = true -> is_signed_char c = true.
Proof. unfold is_signed_char. now intros ->. Qed.

Lemma signed_not_space (c : ascii) :
  is_signed_char c = true -> negb (isspace c) = true.
Proof. revert c. intros c. by_char c. Qed.

Lemma signed_not_space_int (c : ascii) :
  is_signed_char c = true -> negb (isspace_int c) = true.
Proof. revert c. intros c. by_char c. Qed.

Lemma decimal_not_sign (c : ascii) :
  is_decimal c = true -> Ascii.eqb c "+" = false /\ Ascii.eqb c "-" = false.
Proof. revert c. intros c. by_char c. Qed.

Lemma decimal_isdigit_char (c : ascii) :
  is_decimal c = true -> isdigit_char c = true.
Proof. unfold isdigit_char. now intros ->. Qed.

Lemma signed_clean (s : string) :
  all_chars is_signed_char s = true -> clean isspace s = true.
Proof. apply all_chars_impl, signed_not_space. Qed.

Lemma signed_clean_int (s : string) :
  all_chars is_signed_char s = true -> clean isspace_int s = true.
Proof. apply all_chars_impl, signed_not_space_int. Qed.

Lemma strip_signed (s : string) :
  all_chars is_signed_char s = true -> strip s = s.
Proof. intros H. apply strip_by_clean, signed_clean, H. Qed.

Lemma startswith_has (x : ascii) (s : string) :
  has_char x s = false -> startswith_char x s = false.
Proof.
  destruct s as [|c r]; simpl; [reflexivity|].
  intros H. now apply orb_false_iff in H as [H _].
Qed.

Lemma endswith_has (x : ascii) (s : string) :
  has_char x s = false -> endswith_char x s = false.
Proof.
  induction s as [|c r IH]; simpl; [reflexivity|].
  intros H. apply orb_false_iff in H as [Hc Hr].
  destruct r; [exact Hc | now apply IH].
Qed.

Lemma is_digits_parts (s : string) :
  is_digits s = true ->
  is_empty_str s = false /\ all_chars is_decimal s = true.
Proof.
  unfold is_digits. intros H. apply andb_true_iff in H as [H1 H2].
  apply negb_true_iff in H1. now split.
Qed.

Lemma digits_signed (s : string) :
  is_digits s = true -> all_chars is_signed_char s = true.
Proof.
  intros H. apply is_digits_parts in H as [_ H].
  revert H. apply all_chars_impl, decimal_signed.
Qed.

Lemma digits_no_char (x : ascii) (s : string) :
  is_decimal x = false -> is_digits s = true -> has_char x s = false.
Proof.
  intros Hx H. apply is_digits_parts in H as [_ H].
  now apply (has_char_none is_decimal).
Qed.

Lemma py_int_digits (s : string) :
  is_digits s = true -> py_int s = Ret (dec_fold s 0).
Proof.
  intros H. unfold py_int.
  rewrite (strip_by_clean _ _ (signed_clean_int _ (digits_signed _ H))).
  apply is_digits_parts in H as [Hne Hall].
  destruct s as [|c r]; [discriminate|].
  unfold int_signed.
  assert (Hc : is_decimal c = true) by (simpl in Hall; now apply andb_true_iff in Hall).
  destruct (decimal_not_sign c Hc) as [-> ->].
  now rewrite (int_digits_decimal _ Hall).
Qed.

Lemma Z_to_string_nonneg (n : Z) :
  0 <= n -> is_digits (Z_to_string n) = true /\ dec_fold (Z_to_string n) 0 = n.
Proof.
  destruct n as [|p|p]; intros Hn; [split; reflexivity | | lia].
  simpl. destruct (N_to_string_spec (Npos p)) as (H1 & H2 & H3).
  unfold is_digits. rewrite H1, H2, H3. split; reflexivity.
Qed.

Lemma Z_to_string_signed (n : Z) :
  all_chars is_signed_char (Z_to_string n) = true.
Proof.
  destruct n as [|p|p]; [reflexivity | |].
  - apply digits_signed, (Z_to_string_nonneg (Zpos p)). lia.
  - simpl. apply digits_signed. apply (Z_to_string_nonneg (Zpos p)). lia.
Qed.

(** [int(str(n))] is [n]. *)
Lemma py_int_Z_to_string (n : Z) : py_int (Z_to_string n) = Ret n.
Proof.
  destruct n as [|p|p]; [reflexivity | |].
  - destruct (Z_to_string_nonneg (Zpos p)) as [Hd Hv]; [lia|].
    now rewrite (py_int_digits _ Hd), Hv.
  - unfold py_int.
    rewrite (strip_by_clean _ _ (signed_clean_int _ (Z_to_string_signed (Zneg p)))).
    destruct (Z_to_string_nonneg (Zpos p)) as [Hd Hv]; [lia|].
    simpl in *. apply is_digits_parts in Hd as [Hne Hall].
    rewrite (int_digits_decimal _ Hall).
    destruct (N_to_string (N.pos p)); [discriminate|].
    simpl in *. now rewrite Hv.
Qed.

Lemma py_int_no_minus (s : string) (n : Z) :
  has_char "-" s = false -> py_int s = Ret n -> 0 <= n.
Proof.
  intros Hs. unfold py_int.
  apply (has_char_strip isspace_int) in Hs.
  destruct (strip_by isspace_int s) as [|c r]; simpl; [discriminate|].
  simpl in Hs. apply orb_false_iff in Hs as [Hc _]. rewrite Hc.
  destruct (Ascii.eqb c "+").
  - destruct (int_digits r 0 false) eqn:E; [|discriminate].
    intros [= <-]. apply (int_digits_nonneg _ _ _ _ E). lia.
  - destruct (is_decimal c) eqn:Ec.
    + destruct (int_digits r _ true) eqn:E; [|discriminate].
      intros [= <-]. apply (int_digits_nonneg _ _ _ _ E).
      apply is_decimal_digit_val in Ec. lia.
    + destruct (Ascii.eqb c "_"); discriminate.
Qed.

(** ** The rank normaliser *)

Lemma strip_idem (s : string) : strip (strip s) = strip s.
Proof. apply strip_by_idem. Qed.

Lemma normalize_text (v : pyval) :
  is_none v = false ->
  _normalize_qs_ranking v = _normalize_qs_ranking (VStr (strip (py_str v))).
Proof.
  intros Hv. unfold _normalize_qs_ranking.
  destruct v; try discriminate Hv; cbn [py_str]; unfold strip;
    rewrite strip_by_idem; reflexivity.
Qed.

Lemma normalize_stripped (s : string) :
  _normalize_qs_ranking (VStr s) =
  let s := strip s in
  if is_empty_str s then (None, None, None)
  else if startswith_char "=" s then
    match py_int (strip (drop_first s)) with
    | Ret n => (Some (String "=" (Z_to_string n)), Some n, Some n)
    | Raise _ => (Some s, None, None)
    end
  else if endswith_char "+" s then
    match py_int (strip (drop_last s)) with
    | Ret n => (Some (Z_to_string n ++ "+"), Some n, None)
    | Raise _ => (Some s, None, None)
    end
  else if has_char "-" s then
    match py_int (strip (fst (split_first "-" s))),
          py_int (strip (snd (split_first "-" s))) with
    | Ret amin, Ret bmax =>
        (Some (Z_to_string amin ++ "-" ++ Z_to_string bmax), Some amin, Some bmax)
    | _, _ => (Some s, None, None)
    end
  else
    match py_int s with
    | Ret n => (Some (Z_to_string n), Some n, Some n)
    | Raise _ => (Some s, None, None)
    end.
Proof.
  unfold _normalize_qs_ranking. cbn [py_str]. cbv zeta.
  destruct (is_empty_str (strip s)); [reflexivity|].
  destruct (startswith_char "=" (strip s)).
  { destruct (py_int (strip (drop_first (strip s)))); reflexivity. }
  destruct (endswith_char "+" (strip s)).
  { destruct (py_int (strip (drop_last (strip s)))); reflexivity. }
  destruct (has_char "-" (strip s)).
  { destruct (split_first "-" (strip s)) as [a b]. cbn [fst snd].
    destruct (py_int (strip a)); [|reflexivity].
    destruct (py_int (strip b)); reflexivity. }
  destruct (py_int (strip s)); reflexivity.
Qed.

Lemma canonical_tie (n : Z) :
  _normalize_qs_ranking (VStr (String "=" (Z_to_string n)))
  = (Some (String "=" (Z_to_string n)), Some n, Some n).
Proof.
  rewrite normalize_stripped. cbv zeta.
  pose proof (Z_to_string_signed n) as Hu.
  assert (Hs : strip (String "=" (Z_to_string n)) = String "=" (Z_to_string n)).
  { apply strip_by_clean. unfold clean. simpl. now apply signed_clean. }
  rewrite Hs. cbn [is_empty_str startswith_char drop_first].
  rewrite Ascii.eqb_refl, (strip_signed _ Hu), py_int_Z_to_string. reflexivity.
Qed.

Lemma canonical_open (n : Z) :
  _normalize_qs_ranking (VStr (Z_to_string n ++ "+"))
  = (Some (Z_to_string n ++ "+"), Some n, None).
Proof.
  rewrite normalize_stripped. cbv zeta.
  pose proof (Z_to_string_signed n) as Hu.
  assert (Hs : strip (Z_to_string n ++ "+") = Z_to_string n ++ "+").
  { apply strip_by_clean. unfold clean. rewrite all_chars_app.
    fold (clean isspace (Z_to_string n)). now rewrite (signed_clean _ Hu). }
  rewrite Hs.
  assert (Hne : is_empty_str (Z_to_string n ++ "+") = false)
    by (destruct (Z_to_string n); reflexivity).
  rewrite Hne, startswith_has.
  2:{ rewrite has_char_app. simpl.
      now rewrite (has_char_none is_signed_char "=" _ eq_refl Hu). }
  rewrite endswith_char_snoc, drop_last_snoc, (strip_signed _ Hu),
    py_int_Z_to_string.
  reflexivity.
Qed.

Lemma canonical_band (a b : Z) :
  0 <= a ->
  _normalize_qs_ranking (VStr (Z_to_string a ++ "-" ++ Z_to_string b))
  = (Some (Z_to_string a ++ "-" ++ Z_to_string b), Some a, Some b).
Proof.
  intros Ha. rewrite normalize_stripped. cbv zeta.
  destruct (Z_to_string_nonneg a Ha) as [Hda _].
  pose proof (Z_to_string_signed a) as Hua.
  pose proof (Z_to_string_signed b) as Hub.
  set (s := Z_to_string a ++ "-" ++ Z_to_string b).
  assert (Hall : all_chars is_signed_char s = true).
  { unfold s. rewrite !all_chars_app, Hua, Hub. reflexivity. }
  rewrite (strip_signed _ Hall).
  assert (Hne : is_empty_str s = false).
  { unfold s. destruct (Z_to_string a); reflexivity. }
  rewrite Hne.
  rewrite (startswith_has _ _ (has_char_none is_signed_char "=" _ eq_refl Hall)).
  rewrite (endswith_has _ _ (has_char_none is_signed_char "+" _ eq_refl Hall)).
  assert (Hm : has_char "-" s = true).
  { unfold s. rewrite !has_char_app. simpl. now rewrite orb_true_r. }
  rewrite Hm. unfold s. simpl append at 2 3.
  rewrite (split_first_app "-" _ _ (digits_no_char "-" _ eq_refl Hda)).
  cbn [fst snd].
  rewrite (strip_signed _ Hua), (strip_signed _ Hub), !py_int_Z_to_string.
  reflexivity.
Qed.

Lemma canonical_plain (n : Z) :
  0 <= n ->
  _normalize_qs_ranking (VStr (Z_to_string n))
  = (Some (Z_to_string n), Some n, Some n).
Proof.
  intros Hn. rewrite normalize_stripped. cbv zeta.
  destruct (Z_to_string_nonneg n Hn) as [Hd _].
  rewrite (strip_signed _ (digits_signed _ Hd)).
  destruct (is_digits_parts _ Hd) as [-> _].
  rewrite (startswith_has _ _ (digits_no_char "=" _ eq_refl Hd)).
  rewrite (endswith_has _ _ (digits_no_char "+" _ eq_refl Hd)).
  rewrite (digits_no_char "-" _ eq_refl Hd), py_int_Z_to_string.
  reflexivity.
Qed.

Lemma normalize_display_fixed (s d : string) (lo hi : option Z) :
  strip s = s ->
  _normalize_qs_ranking (VStr s) = (Some d, lo, hi) ->
  _normalize_qs_ranking (VStr d) = (Some d, lo, hi).
Proof.
  intros Hs H. pose proof H as H0.
  rewrite normalize_stripped in H. cbv zeta in H. rewrite Hs in H.
  destruct (is_empty_str s); [discriminate|].
  destruct (startswith_char "=" s).
  { destruct (py_int (strip (drop_first s))); injection H as <- <- <-;
      [apply canonical_tie | exact H0]. }
  destruct (endswith_char "+" s).
  { destruct (py_int (strip (drop_last s))); injection H as <- <- <-;
      [apply canonical_open | exact H0]. }
  destruct (has_char "-" s) eqn:Hm.
  { destruct (py_int (strip (fst (split_first "-" s)))) as [amin|] eqn:Ea;
      [|injection H as <- <- <-; exact H0].
    destruct (py_int (strip (snd (split_first "-" s)))) as [bmax|];
      injection H as <- <- <-; [|exact H0].
    apply canonical_band.
    apply (py_int_no_minus _ _ (has_char_strip isspace "-" _
             (split_first_before "-" s)) Ea). }
  destruct (py_int s) as [n|] eqn:En; injection H as <- <- <-; [|exact H0].
  apply canonical_plain, (py_int_no_minus _ _ Hm En).
Qed.

(** C5: the normaliser maps "=5" to ("=5", 5, 5), "5" to ("5", 5, 5),
    "201-250" to lower 201 and upper 250, "1001+" to lower 1001 with no
    upper bound and "abc" to ("abc", none, none); it returns a triple for
    every input, and whenever no lower bound could be parsed the upper
    bound is empty too and the display is the stripped input text (or
    nothing, for an absent or blank input). *)
Theorem normalize_literal_cases :
  _normalize_qs_ranking (VStr "=5") = (Some "=5", Some 5, Some 5) /\
  _normalize_qs_ranking (VStr "5") = (Some "5", Some 5, Some 5) /\
  _normalize_qs_ranking (VStr "201-250") = (Some "201-250", Some 201, Some 250) /\
  _normalize_qs_ranking (VStr "1001+") = (Some "1001+", Some 1001, None) /\
  _normalize_qs_ranking (VStr "abc") = (Some "abc", None, None) /\
  (forall v : pyval, exists d lo hi,
      _normalize_qs_ranking v = (d, lo, hi) /\
      (lo = None ->
       hi = None /\ (d = None \/ d = Some (strip (py_str v))))).
Proof.
  do 5 (split; [vm_compute; reflexivity|]).
  intros v. destruct (is_none v) eqn:Hv.
  { destruct v; try discriminate Hv.
    exists None, None, None. split; [reflexivity | auto]. }
  rewrite (normalize_text v Hv), normalize_stripped. cbv zeta.
  rewrite strip_idem. set (s := strip (py_str v)).
  destruct (is_empty_str s).
  { exists None, None, None. split; [reflexivity | auto]. }
  destruct (startswith_char "=" s).
  { destruct (py_int (strip (drop_first s))); eexists _, _, _;
      (split; [reflexivity|]); [discriminate | auto]. }
  destruct (endswith_char "+" s).
  { destruct (py_int (strip (drop_last s))); eexists _, _, _;
      (split; [reflexivity|]); [discriminate | auto]. }
  destruct (has_char "-" s).
  { destruct (py_int (strip (fst (split_first "-" s))));
      [destruct (py_int (strip (snd (split_first "-" s))))|];
      eexists _, _, _; (split; [reflexivity|]); try discriminate; auto. }
  destruct (py_int s); eexists _, _, _;
    (split; [reflexivity|]); [discriminate | auto].
Qed.

(** C3: on the band "250-201" the normaliser returns lower 250 and upper
    201, both present, with the lower bound above the upper one. *)
Theorem normalize_reversed_band :
  _normalize_qs_ranking (VStr "250-201") = (Some "250-201", Some 250, Some 201) /\
  ~ (250 <= 201).
Proof.
  split; [vm_compute; reflexivity | lia].
Qed.

(** The normaliser is idempotent on its own display: for every input [v],
    if it returns (d, lo, hi) with the display [d] present, then
    normalising [d] again returns exactly (d, lo, hi); and normalising a
    non-negative integer lower bound [n] gives the lower bound [n] back. *)
Lemma normalize_display_idempotent :
  (forall (v : pyval) (d : string) (lo hi : option Z),
      _normalize_qs_ranking v = (Some d, lo, hi) ->
      _normalize_qs_ranking (VStr d) = (Some d, lo, hi)) /\
  (forall n : Z, 0 <= n -> written_rank (VInt n) = Some n).
Proof.
  split.
  - intros v d lo hi H. destruct (is_none v) eqn:Hv.
    { destruct v; try discriminate Hv. discriminate H. }
    rewrite (normalize_text v Hv) in H.
    apply (normalize_display_fixed (strip (py_str v))); [|exact H].
    apply strip_by_idem.
  - intros n Hn. unfold written_rank.
    rewrite (normalize_text (VInt n) eq_refl). cbn [py_str py_repr].
    rewrite (strip_signed _ (Z_to_string_signed n)), (canonical_plain n Hn).
    reflexivity.
Qed.

Lemma normalize_display_idempotent_witness :
  _normalize_qs_ranking (VStr " 0201 - 250 ") = (Some "201-250", Some 201, Some 250) /\
  _normalize_qs_ranking (VStr "201-250") = (Some "201-250", Some 201, Some 250) /\
  0 <= 201 /\ written_rank (VInt 201) = Some 201.
Proof.
  split; [vm_compute; reflexivity|]. split.
  - apply (proj1 normalize_display_idempotent (VStr " 0201 - 250 ")).
    vm_compute; reflexivity.
  - split; [lia|]. apply (proj2 normalize_display_idempotent 201). lia.
Defined.

(** C10: the patch path changes the bounds that were staged.  A row
    without a rank is enriched with the band "201-250".  The normaliser
    gives ("201-250", 201, 250), and this is what the entry point stages
    in [raw_data] and what the insert path stores for the same candidate.
    [patch_unreviewed_school] then normalises the staged integer 201, not
    the display, once more and writes that result over the staged one: the
    row ends with display "201" and the bounds (201, 201). *)
Theorem patch_path_changes_bounds :
  let data := [("name", VStr "Example University");
               ("qs_ranking", VStr "201-250")] in
  let row := [("id", VInt 1); ("name", VStr "Example University")] in
  let staged := [("qs_ranking_display", VStr "201-250");
                 ("qs_rank_min", VInt 201); ("qs_rank_max", VInt 250)] in
  _normalize_qs_ranking (VStr "201-250") = (Some "201-250", Some 201, Some 250) /\
  staged_patch true row data (_normalize_qs_ranking (VStr "201-250")) (VDict staged)
  = [("qs_ranking", VInt 201); ("raw_data", VDict staged)] /\
  map (fun r => dget r "raw_data")
      (rows (snd (fst (enrich_or_insert_unreviewed_school data true
                         (mkWorld [] 1 [] refusing)))))
  = [VDict staged] /\
  rows (snd (fst (enrich_or_insert_unreviewed_school data true
                    (mkWorld [row] 2 [] refusing))))
  = [[("id", VInt 1); ("name", VStr "Example University");
      ("qs_ranking", VInt 201);
      ("raw_data", VDict [("qs_ranking_display", VStr "201");
                          ("qs_rank_min", VInt 201);
                          ("qs_rank_max", VInt 201)])]].
Proof.
  cbv zeta. split; [vm_compute; reflexivity|]. split; [vm_compute; reflexivity|].
  split; vm_compute; reflexivity.
Qed.

(** ** The two rank conventions *)

Lemma remove_char_absent (x : ascii) (s : string) :
  has_char x s = false -> remove_char x s = s.
Proof.
  induction s as [|c r IH]; simpl; [reflexivity|].
  intros H. apply orb_false_iff in H as [Hc Hr]. now rewrite Hc, (IH Hr).
Qed.

Lemma all_chars_has (p : ascii -> bool) (x : ascii) (s : string) :
  p x = false -> has_char x s = true -> all_chars p s = false.
Proof.
  intros Hx. induction s as [|c r IH]; simpl; [discriminate|].
  intros H. destruct (Ascii.eqb_spec c x) as [->|_].
  - now rewrite Hx.
  - simpl in H. rewrite (IH H). apply andb_false_r.
Qed.

Lemma digits_isdigit (s : string) : is_digits s = true -> isdigit s = true.
Proof.
  intros H. apply is_digits_parts in H as [Hne Hall]. unfold isdigit.
  rewrite Hne. simpl. revert Hall. apply all_chars_impl, decimal_isdigit_char.
Qed.

Lemma strip_digits (s : string) : is_digits s = true -> strip s = s.
Proof. intros H. apply strip_signed, digits_signed, H. Qed.

Lemma parse_bounds_text (v : pyval) :
  is_none v = false ->
  _parse_rank_bounds v = _parse_rank_bounds (VStr (strip (py_str v))).
Proof.
  intros Hv. unfold _parse_rank_bounds.
  destruct v; try discriminate Hv; cbn [py_str]; rewrite strip_idem; reflexivity.
Qed.

Lemma parse_bounds_stripped (s : string) :
  _parse_rank_bounds (VStr s) =
  let s := remove_char "=" (strip s) in
  if is_empty_str s then Ret (None, None)
  else if isdigit s then n <- py_int s ;; Ret (Some n, Some n)
  else if has_char "-" s then
    let a := strip (fst (split_first "-" s)) in
    let b := strip (snd (split_first "-" s)) in
    if isdigit a && isdigit b then
      lo <- py_int a ;; hi <- py_int b ;; Ret (Some lo, Some hi)
    else Ret (None, None)
  else Ret (None, None).
Proof.
  unfold _parse_rank_bounds. cbn [py_str]. cbv zeta.
  destruct (split_first "-" (remove_char "=" (strip s))). reflexivity.
Qed.

Lemma band_text (lo hi : string) :
  is_digits lo = true -> is_digits hi = true ->
  let s := lo ++ String "-" hi in
  strip s = s /\ is_empty_str s = false /\
  has_char "=" s = false /\ has_char "+" s = false /\
  has_char "-" s = true /\ split_first "-" s = (lo, hi).
Proof.
  intros Hlo Hhi s.
  assert (Hall : all_chars is_signed_char s = true).
  { unfold s. rewrite all_chars_app. simpl.
    now rewrite (digits_signed _ Hlo), (digits_signed _ Hhi). }
  split; [apply strip_signed, Hall|].
  split; [unfold s; destruct lo; [discriminate | reflexivity]|].
  split; [apply (has_char_none is_signed_char); [reflexivity | exact Hall]|].
  split; [apply (has_char_none is_signed_char); [reflexivity | exact Hall]|].
  split.
  - unfold s. rewrite has_char_app. simpl. apply orb_true_r.
  - apply split_first_app, digits_no_char; [reflexivity | exact Hlo].
Qed.

Lemma plain_ranks_agree (n : string) :
  is_digits n = true ->
  written_rank (VStr n) = Some (dec_fold n 0) /\
  _normalize_rank_to_int (VStr n) = Ret (Some (dec_fold n 0)).
Proof.
  intros Hn. split.
  - unfold written_rank. rewrite normalize_stripped. cbv zeta.
    rewrite (strip_digits _ Hn).
    destruct (is_digits_parts _ Hn) as [-> _].
    rewrite (startswith_has _ _ (digits_no_char "=" _ eq_refl Hn)).
    rewrite (endswith_has _ _ (digits_no_char "+" _ eq_refl Hn)).
    rewrite (digits_no_char "-" _ eq_refl Hn), (py_int_digits _ Hn).
    reflexivity.
  - unfold _normalize_rank_to_int. rewrite parse_bounds_stripped. cbv zeta.
    rewrite (strip_digits _ Hn).
    rewrite (remove_char_absent _ _ (digits_no_char "=" _ eq_refl Hn)).
    destruct (is_digits_parts _ Hn) as [-> _].
    rewrite (digits_isdigit _ Hn), (py_int_digits _ Hn). reflexivity.
Qed.

Lemma negative_ranks_agree (u : string) :
  is_digits u = true ->
  written_rank (VStr (String "-" u)) = None /\
  _normalize_rank_to_int (VStr (String "-" u)) = Ret None.
Proof.
  intros Hu.
  assert (Hall : all_chars is_signed_char (String "-" u) = true).
  { simpl. apply (digits_signed _ Hu). }
  pose proof (has_char_none is_signed_char "=" _ eq_refl Hall) as Heq.
  pose proof (has_char_none is_signed_char "+" _ eq_refl Hall) as Hplus.
  split.
  - unfold written_rank. rewrite normalize_stripped. cbv zeta.
    rewrite (strip_signed _ Hall). cbn [is_empty_str].
    rewrite (startswith_has _ _ Heq), (endswith_has _ _ Hplus).
    reflexivity.
  - unfold _normalize_rank_to_int. rewrite parse_bounds_stripped. cbv zeta.
    rewrite (strip_signed _ Hall), (remove_char_absent _ _ Heq).
    reflexivity.
Qed.

(** C4: for a band "lo-hi" of two runs of decimal digits with lo < hi the
    reconciliation engine writes lo to the scalar rank column and the
    Top-N script's normaliser produces hi, so the two differ; on a plain
    run of digits n, on "=n" and on every integer the two agree. *)
Theorem rank_conventions :
  (forall lo hi : string,
      is_digits lo = true -> is_digits hi = true ->
      dec_fold lo 0 < dec_fold hi 0 ->
      written_rank (VStr (lo ++ "-" ++ hi)) = Some (dec_fold lo 0) /\
      _normalize_rank_to_int (VStr (lo ++ "-" ++ hi)) = Ret (Some (dec_fold hi 0)) /\
      Ret (written_rank (VStr (lo ++ "-" ++ hi)))
        <> _normalize_rank_to_int (VStr (lo ++ "-" ++ hi))) /\
  (forall n : string,
      is_digits n = true ->
      py_int n = Ret (dec_fold n 0) /\
      written_rank (VStr n) = Some (dec_fold n 0) /\
      _normalize_rank_to_int (VStr n) = Ret (Some (dec_fold n 0)) /\
      written_rank (VStr (String "=" n)) = Some (dec_fold n 0) /\
      _normalize_rank_to_int (VStr (String "=" n)) = Ret (Some (dec_fold n 0))) /\
  (forall k : Z,
      _normalize_rank_to_int (VInt k) = Ret (written_rank (VInt k))).
Proof.
  split; [|split].
  - intros lo hi Hlo Hhi Hlt.
    destruct (band_text lo hi Hlo Hhi) as (Hs & Hne & Heq & Hplus & Hm & Hsplit).
    change (lo ++ "-" ++ hi) with (lo ++ String "-" hi).
    assert (Hw : written_rank (VStr (lo ++ String "-" hi)) = Some (dec_fold lo 0)).
    { unfold written_rank. rewrite normalize_stripped. cbv zeta.
      rewrite Hs, Hne, (startswith_has _ _ Heq), (endswith_has _ _ Hplus), Hm, Hsplit.
      cbn [fst snd].
      rewrite (strip_digits _ Hlo), (strip_digits _ Hhi),
        (py_int_digits _ Hlo), (py_int_digits _ Hhi).
      reflexivity. }
    assert (Ht : _normalize_rank_to_int (VStr (lo ++ String "-" hi))
                 = Ret (Some (dec_fold hi 0))).
    { unfold _normalize_rank_to_int. rewrite parse_bounds_stripped. cbv zeta.
      rewrite Hs, (remove_char_absent _ _ Heq), Hne.
      assert (isdigit (lo ++ String "-" hi) = false) as ->.
      { unfold isdigit. rewrite (all_chars_has isdigit_char "-" _ eq_refl Hm).
        apply andb_false_r. }
      rewrite Hm, Hsplit. cbn [fst snd].
      rewrite (strip_digits _ Hlo), (strip_digits _ Hhi),
        (digits_isdigit _ Hlo), (digits_isdigit _ Hhi),
        (py_int_digits _ Hlo), (py_int_digits _ Hhi).
      reflexivity. }
    rewrite Hw, Ht. repeat split. intros [= E]. lia.
  - intros n Hn. destruct (plain_ranks_agree n Hn) as [Hw Ht].
    split; [apply py_int_digits, Hn|].
    split; [exact Hw|]. split; [exact Ht|].
    assert (Hs : strip (String "=" n) = String "=" n).
    { apply strip_by_clean. unfold clean. simpl.
      apply signed_clean, digits_signed, Hn. }
    split.
    + unfold written_rank. rewrite normalize_stripped. cbv zeta.
      rewrite Hs. cbn [is_empty_str startswith_char drop_first].
      rewrite Ascii.eqb_refl, (strip_digits _ Hn), (py_int_digits _ Hn).
      reflexivity.
    + unfold _normalize_rank_to_int. rewrite parse_bounds_stripped. cbv zeta.
      rewrite Hs. cbn [remove_char]. rewrite Ascii.eqb_refl.
      rewrite (remove_char_absent _ _ (digits_no_char "=" _ eq_refl Hn)).
      destruct (is_digits_parts _ Hn) as [-> _].
      rewrite (digits_isdigit _ Hn), (py_int_digits _ Hn). reflexivity.
  - intros k. unfold written_rank, _normalize_rank_to_int.
    rewrite (normalize_text (VInt k) eq_refl), (parse_bounds_text (VInt k) eq_refl).
    cbn [py_str py_repr].
    rewrite (strip_signed _ (Z_to_string_signed k)).
    destruct k as [|p|p].
    + reflexivity.
    + destruct (Z_to_string_nonneg (Zpos p)) as [Hd _]; [lia|].
      destruct (plain_ranks_agree _ Hd) as [Hw Ht].
      unfold written_rank, _normalize_rank_to_int in Hw, Ht.
      now rewrite Hw, Ht.
    + destruct (Z_to_string_nonneg (Zpos p)) as [Hd _]; [lia|].
      destruct (negative_ranks_agree _ Hd) as [Hw Ht].
      unfold written_rank, _normalize_rank_to_int in Hw, Ht.
      cbn [Z_to_string] in *. now rewrite Hw, Ht.
Qed.

Lemma rank_conventions_witness :
  is_digits "201" = true /\ is_digits "250" = true /\
  dec_fold "201" 0 < dec_fold "250" 0 /\
  written_rank (VStr "201-250") = Some 201 /\
  _normalize_rank_to_int (VStr "201-250") = Ret (Some 250) /\
  _normalize_rank_to_int (VStr "=9") = Ret (Some 9).
Proof.
  split; [reflexivity|]. split; [reflexivity|]. split; [reflexivity|].
  split; [|split].
  - apply (proj1 rank_conventions "201" "250"); reflexivity.
  - apply (proj1 rank_conventions "201" "250"); reflexivity.
  - apply (proj1 (proj2 rank_conventions) "9"); reflexivity.
Defined.

(** ** Backoff of [get_page] *)

Lemma throttled_status (r : fetch_result) :
  throttled r = true ->
  exists code, r = Status code /\ (code =? 200) = false /\ (code =? 404) = false
               /\ (code =? 429) || (code =? 503) = true.
Proof.
  destruct r as [code| | |]; try discriminate. simpl. intros H.
  exists code. split; [reflexivity|].
  apply orb_true_iff in H as [H|H]; apply Z.eqb_eq in H; subst; auto.
Qed.

Lemma get_page_throttled (env : Z -> fetch_result) (retries : Z) (m : nat) :
  forall todo attempt log,
    (forall k, attempt <= k < attempt + Z.of_nat m -> throttled (env k) = true) ->
    get_page_from env retries (m + todo) attempt log
    = get_page_from env retries todo (attempt + Z.of_nat m)
        (log ++ throttled_run m attempt)%list.
Proof.
  induction m as [|m IH]; intros todo attempt log H.
  - simpl. now rewrite Z.add_0_r, app_nil_r.
  - cbn [Nat.add get_page_from].
    destruct (throttled_status (env attempt)) as (code & -> & -> & -> & ->);
      [apply H; lia|].
    rewrite IH by (intros k Hk; apply H; lia).
    unfold throttled_run. cbn [attempts_from flat_map].
    rewrite <- !app_assoc. cbn [app].
    f_equal. lia.
Qed.

Lemma backoff_waits_app (l l' : list event) :
  backoff_waits (l ++ l') = (backoff_waits l ++ backoff_waits l')%list.
Proof. apply flat_map_app. Qed.

Lemma backoff_waits_run (m : nat) :
  forall attempt,
    backoff_waits (throttled_run m attempt)
    = map (fun k => 2 ^ k * 5) (attempts_from m attempt).
Proof.
  induction m as [|m IH]; intros attempt; [reflexivity|].
  unfold throttled_run in *. cbn [attempts_from flat_map map].
  rewrite backoff_waits_app, IH. reflexivity.
Qed.

Lemma requests_sent_app (l l' : list event) :
  requests_sent (l ++ l') = (requests_sent l + requests_sent l')%nat.
Proof. unfold requests_sent. now rewrite filter_app, length_app. Qed.

Lemma requests_sent_run (m : nat) :
  forall attempt, requests_sent (throttled_run m attempt) = m.
Proof.
  induction m as [|m IH]; intros attempt; [reflexivity|].
  unfold throttled_run in *. cbn [attempts_from flat_map].
  rewrite requests_sent_app, IH. reflexivity.
Qed.

Lemma get_page_log (env : Z -> fetch_result) (retries : Z) (todo : nat) :
  forall attempt log,
    exists l, snd (get_page_from env retries todo attempt log) = (log ++ l)%list
              /\ (requests_sent l <= todo)%nat.
Proof.
  induction todo as [|todo IH]; intros attempt log.
  - exists []. simpl. now rewrite app_nil_r.
  - cbn [get_page_from].
    assert (Hstep : forall e,
               requests_sent [e] = 0%nat ->
               exists l, snd (get_page_from env retries todo (attempt + 1)
                                ((log ++ [RateLimit; Request attempt]) ++ [e]))
                         = (log ++ l)%list /\ (requests_sent l <= S todo)%nat).
    { intros e He. destruct (IH (attempt + 1)
                            ((log ++ [RateLimit; Request attempt]) ++ [e])%list)
        as (l & Hl & Hn).
      exists ([RateLimit; Request attempt] ++ [e] ++ l)%list.
      rewrite Hl, <- !app_assoc. split; [reflexivity|].
      rewrite !requests_sent_app, He.
      change (requests_sent [RateLimit; Request attempt]) with 1%nat.
      lia. }
    assert (Hstop : forall r : page_result,
               exists l, snd (r, (log ++ [RateLimit; Request attempt])%list)
                         = (log ++ l)%list /\ (requests_sent l <= S todo)%nat).
    { intros r. exists [RateLimit; Request attempt]. split; [reflexivity|].
      cbn. lia. }
    destruct (env attempt) as [code| | |].
    + destruct (code =? 200); [apply Hstop|].
      destruct (code =? 404); [apply Hstop|].
      destruct ((code =? 429) || (code =? 503)); [now apply Hstep|].
      destruct (attempt <? retries); [now apply Hstep | apply Hstop].
    + destruct (attempt <? retries); [now apply Hstep | apply Hstop].
    + destruct (attempt <? retries); [now apply Hstep | apply Hstop].
    + destruct (attempt <? retries); [now apply Hstep | apply Hstop].
Qed.

Lemma attempts_shift (m : nat) :
  forall attempt,
    map (fun k => 2 ^ k * 5) (attempts_from m attempt)
    = map (fun k => 5 * 2 ^ (k - 1)) (attempts_from m (attempt + 1)).
Proof.
  induction m as [|m IH]; intros attempt; [reflexivity|].
  cbn [attempts_from map]. rewrite IH.
  replace (attempt + 1 - 1) with attempt by lia.
  now rewrite Z.mul_comm.
Qed.

Lemma doubling_from (m : nat) :
  forall attempt i w w',
    0 <= attempt ->
    nth_error (map (fun k => 2 ^ k * 5) (attempts_from m attempt)) i = Some w ->
    nth_error (map (fun k => 2 ^ k * 5) (attempts_from m attempt)) (S i) = Some w' ->
    w' = 2 * w /\ w <= w'.
Proof.
  induction m as [|m IH]; intros attempt i w w' Ha Hw Hw'.
  - destruct i; discriminate.
  - destruct i as [|i].
    + destruct m as [|m]; [discriminate|].
      cbn in Hw, Hw'. injection Hw as <-. injection Hw' as <-.
      rewrite Z.pow_add_r by lia. change (2 ^ 1) with 2.
      assert (0 < 2 ^ attempt) by (apply Z.pow_pos_nonneg; lia). lia.
    + cbn [attempts_from map nth_error] in Hw, Hw'.
      apply (IH (attempt + 1) i); [lia | exact Hw | exact Hw'].
Qed.

(** C7: when every answer is a 429 or a 503, [get_page] computes before
    attempt k (the loop index, from 0) the wait 5 * 2^(k-1): the waits
    double from one attempt to the next, hence never decrease; the call
    sends retries + 1 requests and returns no page.  Whatever the answers
    are, it sends at most retries + 1 requests; and after three throttled
    answers in a row the first three waits are 5, 10 and 20 seconds. *)
Theorem backoff_growth :
  (forall env retries,
      0 <= retries ->
      (forall k, throttled (env k) = true) ->
      let r := get_page env (Some retries) in
      let waits := backoff_waits (snd r) in
      fst r = NoPage /\
      waits = map (fun k => 5 * 2 ^ (k - 1))
                  (attempts_from (Z.to_nat (retries + 1)) 1) /\
      (forall i w w',
          nth_error waits i = Some w -> nth_error waits (S i) = Some w' ->
          w <= w' /\ 2 * w <= w') /\
      requests_sent (snd r) = Z.to_nat (retries + 1)) /\
  (forall env retries,
      0 <= retries ->
      (requests_sent (snd (get_page env (Some retries))) <= Z.to_nat (retries + 1))%nat) /\
  (forall env retries,
      2 <= retries ->
      throttled (env 0) = true -> throttled (env 1) = true ->
      throttled (env 2) = true ->
      firstn 3 (backoff_waits (snd (get_page env (Some retries)))) = [5; 10; 20]).
Proof.
  split; [|split].
  - intros env retries Hr Henv r waits.
    assert (E : r = (NoPage, throttled_run (Z.to_nat (retries + 1)) 0)).
    { unfold r, get_page.
      rewrite <- (Nat.add_0_r (Z.to_nat (retries + 1))).
      rewrite get_page_throttled by (intros; apply Henv).
      rewrite Nat.add_0_r. reflexivity. }
    assert (Ew : waits = map (fun k => 2 ^ k * 5)
                             (attempts_from (Z.to_nat (retries + 1)) 0)).
    { unfold waits. rewrite E. apply backoff_waits_run. }
    split; [now rewrite E|].
    split; [rewrite Ew; apply attempts_shift|].
    split.
    + intros i w w' Hw Hw'. rewrite Ew in Hw, Hw'.
      destruct (doubling_from _ 0 i w w' ltac:(lia) Hw Hw') as [-> Hle].
      split; [exact Hle | lia].
    + rewrite E. apply requests_sent_run.
  - intros env retries Hr. unfold get_page.
    destruct (get_page_log env retries (Z.to_nat (retries + 1)) 0 [])
      as (l & -> & Hl).
    exact Hl.
  - intros env retries Hr H0 H1 H2. unfold get_page.
    replace (Z.to_nat (retries + 1)) with (3 + Z.to_nat (retries - 2))%nat by lia.
    rewrite (get_page_throttled env retries 3).
    + destruct (get_page_log env retries (Z.to_nat (retries - 2)) (0 + Z.of_nat 3)
                  ([] ++ throttled_run 3 0)%list) as (l & -> & _).
      rewrite backoff_waits_app, backoff_waits_app. reflexivity.
    + intros k Hk.
      assert (k = 0 \/ k = 1 \/ k = 2) as [->|[->| ->]] by lia; assumption.
Qed.

Lemma backoff_growth_witness :
  0 <= 3 /\
  backoff_waits (snd (get_page (fun _ => Status 429) (Some 3))) = [5; 10; 20; 40] /\
  fst (get_page (fun _ => Status 429) (Some 3)) = NoPage.
Proof.
  split; [lia|].
  destruct (proj1 backoff_growth (fun _ => Status 429) 3 ltac:(lia)
              ltac:(intros; reflexivity)) as (Hpage & Hwaits & _).
  split; [exact Hwaits | exact Hpage].
Defined.

(** ** Dictionaries *)

Lemma dict_get_set_same (k : string) (v : pyval) (d : pydict) :
  dict_get k (dict_set k v d) = Some v.
Proof.
  induction d as [|[k' v'] r IH]; simpl.
  - now rewrite String.eqb_refl.
  - destruct (String.eqb k' k) eqn:E; simpl; now rewrite E.
Qed.

Lemma dict_get_set_other (k k' : string) (v : pyval) (d : pydict) :
  k <> k' -> dict_get k (dict_set k' v d) = dict_get k d.
Proof.
  intros Hk. induction d as [|[k0 v0] r IH]; simpl.
  - destruct (String.eqb_spec k' k); [congruence | reflexivity].
  - destruct (String.eqb_spec k0 k') as [->|Hne]; simpl.
    + destruct (String.eqb_spec k' k); [congruence | reflexivity].
    + now rewrite IH.
Qed.

Lemma dict_set_same (k : string) (v : pyval) (d : pydict) :
  dict_get k d = Some v -> dict_set k v d = d.
Proof.
  induction d as [|[k' v'] r IH]; simpl; [discriminate|].
  destruct (String.eqb k' k); [now intros [= ->] | intros H; now rewrite IH].
Qed.

Lemma dict_mem_set (k k' : string) (v : pyval) (d : pydict) :
  dict_mem k (dict_set k' v d) = String.eqb k' k || dict_mem k d.
Proof.
  unfold dict_mem. destruct (String.eqb_spec k' k) as [->|Hne].
  - now rewrite dict_get_set_same.
  - rewrite dict_get_set_other by congruence. reflexivity.
Qed.

Lemma dict_mem_remove (k k' : string) (d : pydict) :
  dict_mem k d = false -> dict_mem k (dict_remove k' d) = false.
Proof.
  unfold dict_mem. induction d as [|[k0 v0] r IH]; simpl; [reflexivity|].
  destruct (String.eqb k0 k) eqn:E; [discriminate|]. intros H.
  destruct (String.eqb k0 k'); [exact H|]. simpl. rewrite E. now apply IH.
Qed.

Lemma dict_mem_drop_none (k : string) (d : pydict) :
  dict_mem k d = false -> dict_mem k (drop_none d) = false.
Proof.
  unfold dict_mem, drop_none. induction d as [|[k0 v0] r IH]; simpl; [reflexivity|].
  destruct (String.eqb k0 k) eqn:E; [discriminate|]. intros H.
  destruct (negb (is_none v0)); simpl; [rewrite E|]; now apply IH.
Qed.

Lemma dget_merge_absent (f : string) (new : pydict) :
  forall old, dict_mem f new = false -> dget (dict_merge old new) f = dget old f.
Proof.
  unfold dict_merge, dict_mem, dget.
  induction new as [|[k v] r IH]; intros old H; simpl in *; [reflexivity|].
  destruct (String.eqb_spec k f) as [->|Hne]; [discriminate|].
  rewrite (IH _ H), dict_get_set_other by congruence. reflexivity.
Qed.

(** ** Staging under fill-only-empty *)

Lemma stage_fields_mem (existing data : pydict) (f : string) :
  dict_mem f (stage_fields true existing data) = true ->
  _is_empty_value (dget existing f) = true.
Proof.
  unfold stage_fields.
  assert (G : forall l acc,
             dict_mem f
               (fold_left
                  (fun patch f0 =>
                     if _is_empty_value (dget existing f0)
                        && negb (_is_empty_value (dget data f0))
                     then dict_set f0 (dget data f0) patch else patch) l acc) = true ->
             dict_mem f acc = true \/ _is_empty_value (dget existing f) = true).
  { induction l as [|f0 l IH]; intros acc H; simpl in H; [now left|].
    apply IH in H as [H|H]; [|now right].
    destruct (_is_empty_value (dget existing f0)) eqn:E; simpl in H; [|now left].
    destruct (negb (_is_empty_value (dget data f0))); [|now left].
    rewrite dict_mem_set in H. apply orb_true_iff in H as [H|H]; [|now left].
    apply String.eqb_eq in H. subst f0. now right. }
  intros H. apply G in H as [H|H]; [discriminate H | exact H].
Qed.

Lemma staged_patch_mem (existing data : pydict) (t : rank_triple) (raw : pyval)
    (f : string) :
  f <> "raw_data" ->
  dict_mem f (staged_patch true existing data t raw) = true ->
  _is_empty_value (dget existing f) = true.
Proof.
  intros Hf. unfold staged_patch. cbv zeta.
  assert (G : dict_mem f (stage_rank true existing (snd (fst t))
                            (stage_fields true existing data)) = true ->
              _is_empty_value (dget existing f) = true).
  { unfold stage_rank. destruct (snd (fst t)) as [n|]; [|apply stage_fields_mem].
    destruct (_is_empty_value (dget existing "qs_ranking")) eqn:E; simpl;
      [|apply stage_fields_mem].
    rewrite dict_mem_set. intros H. apply orb_true_iff in H as [H|H].
    - apply String.eqb_eq in H. now subst f.
    - now apply stage_fields_mem in H. }
  destruct (truthy raw); [|exact G].
  rewrite dict_mem_set. intros H. apply orb_true_iff in H as [H|H]; [|now apply G].
  apply String.eqb_eq in H. congruence.
Qed.

Lemma patch_payload_mem (current updates payload : pydict) (f : string) :
  patch_payload current updates = Ret payload ->
  f <> "raw_data" ->
  dict_mem f updates = false -> dict_mem f payload = false.
Proof.
  intros H Hf Hm. unfold patch_payload in H.
  pose proof (dict_mem_drop_none f updates Hm) as Hd.
  destruct (dict_mem "qs_ranking" (drop_none updates)) eqn:Eq.
  - assert (Hq : f <> "qs_ranking") by (intros ->; congruence).
    destruct (_normalize_qs_ranking (dget (drop_none updates) "qs_ranking"))
      as [[disp rmin] rmax].
    destruct (as_mapping (py_or (dget current "raw_data") (VDict []))) as [o|];
      [|discriminate].
    destruct (as_mapping (py_or (dget updates "raw_data") (VDict []))) as [n|];
      [|discriminate].
    cbn [bind] in H.
    destruct (annotate_rank (VDict (dict_merge o n)) (disp, rmin, rmax)) as [m|];
      [|discriminate].
    cbn [bind] in H. injection H as <-.
    rewrite dict_mem_set.
    destruct (String.eqb_spec "raw_data" f) as [E|_]; [congruence|]. simpl.
    destruct rmin.
    + rewrite dict_mem_set.
      destruct (String.eqb_spec "qs_ranking" f) as [E|_]; [congruence | exact Hd].
    + now apply dict_mem_remove.
  - assert (G : forall v, dict_mem f (dict_set "raw_data" v (drop_none updates)) = false).
    { intros v. rewrite dict_mem_set.
      destruct (String.eqb_spec "raw_data" f) as [E|_]; [congruence | exact Hd]. }
    destruct (dict_mem "raw_data" updates); [|now injection H as <-].
    destruct (py_or (dget current "raw_data") (VDict []));
      destruct (py_or (dget updates "raw_data") (VDict []));
      injection H as <-; solve [exact Hd | apply G].
Qed.

(** ** The store *)

Lemma next_reply_rows (w w' : world) (r : reply) :
  next_reply w = (r, w') -> rows w' = rows w /\ next_id w' = next_id w.
Proof.
  unfold next_reply. destruct (replies w); intros [= <- <-]; now split.
Qed.

Lemma next_reply_misread (w w' : world) (r : reply) :
  next_reply w = (r, w') -> misread w' = misread w.
Proof.
  unfold next_reply. destruct (replies w); now intros [= <- <-].
Qed.

Lemma served_filter_ok (w : world) (q : query) :
  wire_ok q = true -> served_filter w q = Some (row_matches q).
Proof.
  destruct q as [i|x|x]; cbn [wire_ok served_filter]; [reflexivity| |];
    now intros ->.
Qed.

Lemma first_row_sound (q : query) (w w' : world) (r : exc (option pydict)) :
  first_row q w = (r, w') ->
  rows w' = rows w /\ next_id w' = next_id w /\
  forall row, r = Ret (Some row) ->
              In row (rows w) /\ (wire_ok q = true -> row_matches q row = true).
Proof.
  unfold first_row, mbind, http_get, mret.
  destruct (next_reply w) as [rep w1] eqn:E.
  apply next_reply_rows in E as [Hr Hn].
  destruct rep.
  - destruct (served_filter w1 q) as [p|] eqn:Ef; intros [= <- <-];
      (split; [exact Hr | split; [exact Hn|]]); [|discriminate].
    cbn [status_code body]. rewrite Hr.
    destruct (find p (rows w)) eqn:F; cbn; intros row [= <-].
    apply find_some in F as [Hin Hp]. split; [exact Hin|].
    intros Hok. rewrite (served_filter_ok w1 q Hok) in Ef.
    injection Ef as <-. exact Hp.
  - intros [= <- <-]. split; [exact Hr | split; [exact Hn | discriminate]].
  - intros [= <- <-]. split; [exact Hr | split; [exact Hn | discriminate]].
Qed.

Lemma lookup_sound (i site name : pyval) (w w' : world) (r : exc (option pydict)) :
  get_unreviewed_school_by_match i site name w = (r, w') ->
  rows w' = rows w /\ next_id w' = next_id w /\
  exists o, r = Ret o /\ forall row, o = Some row -> In row (rows w).
Proof.
  unfold get_unreviewed_school_by_match, mtry, mbind, mret.
  assert (Step : forall (c : bool) q w0 r0 w1,
             (if c then first_row q else (fun s => (Ret None, s))) w0 = (r0, w1) ->
             rows w1 = rows w0 /\ next_id w1 = next_id w0 /\
             forall row, r0 = Ret (Some row) -> In row (rows w0)).
  { intros [|] q w0 r0 w1 H.
    - apply first_row_sound in H as (H1 & H2 & H3).
      split; [exact H1 | split; [exact H2|]]. intros row Hrow. now apply H3.
    - injection H as <- <-. repeat split. discriminate. }
  destruct ((if truthy i then first_row (ById i) else (fun s => (Ret None, s))) w)
    as [r1 w1] eqn:E1.
  apply Step in E1 as (R1 & N1 & I1).
  destruct r1 as [[row1|]|e1].
  - intros [= <- <-]. split; [exact R1 | split; [exact N1|]].
    exists (Some row1). split; [reflexivity|]. intros row [= <-]. now apply I1.
  - destruct ((if truthy site then first_row (ByWebsite (py_str site))
               else (fun s => (Ret None, s))) w1) as [r2 w2] eqn:E2.
    apply Step in E2 as (R2 & N2 & I2).
    destruct r2 as [[row2|]|e2].
    + intros [= <- <-]. split; [congruence | split; [congruence|]].
      exists (Some row2). split; [reflexivity|]. intros row [= <-].
      rewrite <- R1. now apply I2.
    + destruct ((if truthy name then first_row (ByName (py_str name))
                 else (fun s => (Ret None, s))) w2) as [r3 w3] eqn:E3.
      apply Step in E3 as (R3 & N3 & I3).
      destruct r3 as [[row3|]|e3]; intros [= <- <-];
        (split; [congruence | split; [congruence|]]).
      * exists (Some row3). split; [reflexivity|]. intros row [= <-].
        rewrite <- R1, <- R2. now apply I3.
      * exists None. split; [reflexivity | discriminate].
      * exists None. split; [reflexivity | discriminate].
    + intros [= <- <-]. split; [congruence | split; [congruence|]].
      exists None. split; [reflexivity | discriminate].
  - intros [= <- <-]. split; [exact R1 | split; [exact N1|]].
    exists None. split; [reflexivity | discriminate].
Qed.

Lemma patch_school_sound (i : pyval) (updates : pydict) (w w' : world)
    (r : exc bool) :
  patch_unreviewed_school i updates w = (r, w') ->
  next_id w' = next_id w /\
  exists ok, r = Ret ok /\
    (rows w' = rows w \/
     exists current payload,
       patch_payload current updates = Ret payload /\
       rows w' = map (update_row i payload) (rows w)).
Proof.
  unfold patch_unreviewed_school, mtry.
  destruct updates as [|u us].
  { intros [= <- <-]. split; [reflexivity|]. exists true. auto. }
  set (updates := u :: us). unfold mbind.
  destruct (get_unreviewed_school_by_match i VNone VNone w) as [r1 w1] eqn:E1.
  apply lookup_sound in E1 as (R1 & N1 & o & -> & _).
  destruct o as [cur|].
  2:{ intros [= <- <-]. split; [exact N1|]. exists false. auto. }
  unfold lift. destruct (patch_payload cur updates) as [payload|e] eqn:Ep.
  2:{ intros [= <- <-]. split; [exact N1|]. exists false. auto. }
  unfold http_patch. destruct (next_reply w1) as [rep w2] eqn:E2.
  apply next_reply_rows in E2 as [R2 N2].
  destruct rep; intros [= <- <-]; cbn [next_id rows].
  - split; [congruence|]. eexists. split; [reflexivity|]. right.
    exists cur, payload. split; [exact Ep|]. congruence.
  - split; [congruence|]. eexists. split; [reflexivity|]. left. congruence.
  - split; [congruence|]. exists false. split; [reflexivity|]. left. congruence.
Qed.

(** ** The entry point *)

Lemma scalar_not_raw (f : string) : In f scalar_fields -> f <> "raw_data".
Proof.
  unfold scalar_fields, candidate_fields. simpl.
  intros H; repeat (destruct H as [<-|H]; [discriminate|]); contradiction.
Qed.

Lemma fold_raw_world (held : pyval) (t : rank_triple) (s s' : session)
    (r : exc pyval) :
  fold_rank_into_raw held t s = (r, s') -> fst s' = fst s.
Proof.
  unfold fold_rank_into_raw.
  destruct (annotate_rank (py_or held (VDict [])) t); now intros [= <- <-].
Qed.

Lemma enrich_existing_action (fill : bool) (existing data : pydict)
    (t : rank_triple) (s s' : session) (o : outcome) :
  enrich_existing fill existing data t s = (Ret o, s') ->
  snd o = "enriched" \/ snd o = "skipped".
Proof.
  unfold enrich_existing, mbind, lift, mret, on_store.
  destruct (fold_rank_into_raw (dget data "raw_data") t s) as [[raw|e] s1];
    [|discriminate].
  destruct (staged_patch fill existing data t raw) as [|u us].
  - destruct (getitem existing "id"); [|discriminate].
    intros [= <- <-]. now right.
  - destruct (getitem existing "id") as [i|]; [|discriminate].
    destruct (patch_unreviewed_school i (u :: us) (fst s1)) as [[ok|e] w2];
      [|discriminate].
    intros [= <- <-]. destruct ok; [now left | now right].
Qed.

Lemma insert_new_action (data : pydict) (name site source : string)
    (t : rank_triple) (s s' : session) (o : outcome) :
  insert_new data name site source t s = (Ret o, s') ->
  snd o = "inserted" \/ snd o = "skipped".
Proof.
  unfold insert_new, mbind, mret, on_store. cbv zeta.
  destruct (fold_rank_into_raw _ t s) as [[raw|e] s1]; [|discriminate].
  destruct (http_post _ (fst s1)) as [[resp|e] w2]; [|discriminate].
  destruct ((status_code resp =? 200) || (status_code resp =? 201));
    intros [= <- <-]; [now left | now right].
Qed.

Lemma enrich_existing_rows (existing data : pydict) (t : rank_triple)
    (s s' : session) (r : exc outcome) :
  enrich_existing true existing data t s = (r, s') ->
  rows (fst s') = rows (fst s) \/
  exists i payload,
    dict_get "id" existing = Some i /\
    rows (fst s') = map (update_row i payload) (rows (fst s)) /\
    forall f, In f scalar_fields ->
              _is_empty_value (dget existing f) = false ->
              dict_mem f payload = false.
Proof.
  unfold enrich_existing, mbind, lift, mret, on_store.
  destruct (fold_rank_into_raw (dget data "raw_data") t s) as [[raw|e] s1] eqn:E1;
    apply fold_raw_world in E1;
    [|intros [= <- <-]; left; now rewrite E1].
  destruct (staged_patch true existing data t raw) as [|u us] eqn:Ep.
  - destruct (getitem existing "id"); intros [= <- <-]; left; now rewrite E1.
  - unfold getitem. destruct (dict_get "id" existing) as [i|] eqn:Ei;
      [|intros [= <- <-]; left; now rewrite E1].
    destruct (patch_unreviewed_school i (u :: us) (fst s1)) as [r2 w2] eqn:E2.
    apply patch_school_sound in E2 as (_ & ok & -> & Hrows).
    intros [= <- <-]. cbn [fst].
    destruct Hrows as [Hrows|(cur & payload & Hp & Hrows)];
      [left; congruence|].
    right. exists i, payload. split; [reflexivity|].
    split; [congruence|].
    intros f Hf Hne.
    apply (patch_payload_mem _ _ _ f Hp (scalar_not_raw f Hf)).
    destruct (dict_mem f (u :: us)) eqn:Em; [|reflexivity].
    rewrite <- Ep in Em.
    apply staged_patch_mem in Em; [congruence | exact (scalar_not_raw f Hf)].
Qed.

Lemma insert_new_rows (data : pydict) (name site source : string)
    (t : rank_triple) (s s' : session) (r : exc outcome) :
  insert_new data name site source t s = (r, s') ->
  rows (fst s') = rows (fst s) \/
  exists new, rows (fst s') = (rows (fst s) ++ [new])%list.
Proof.
  unfold insert_new, mbind, mret, on_store. cbv zeta.
  destruct (fold_rank_into_raw _ t s) as [[raw|e] s1] eqn:E1;
    apply fold_raw_world in E1;
    [|intros [= <- <-]; left; now rewrite E1].
  unfold http_post.
  destruct (next_reply (fst s1)) as [rep w2] eqn:E2.
  apply next_reply_rows in E2 as [R2 _].
  destruct rep; cbn [status_code body].
  - intros [= <- <-]. right. eexists. cbn [fst rows]. rewrite R2, E1. reflexivity.
  - intros [= <- <-]. left. cbn [fst]. congruence.
  - intros [= <- <-]. left. cbn [fst]. congruence.
Qed.

Lemma enrich_body_rows (data : pydict) (w : world) (r : exc outcome)
    (s' : session) :
  enrich_body true (w, data) = (r, s') ->
  rows (fst s') = rows w \/
  (exists new, rows (fst s') = (rows w ++ [new])%list) \/
  exists existing i payload,
    In existing (rows w) /\ dict_get "id" existing = Some i /\
    rows (fst s') = map (update_row i payload) (rows w) /\
    forall f, In f scalar_fields ->
              _is_empty_value (dget existing f) = false ->
              dict_mem f payload = false.
Proof.
  unfold enrich_body, mbind, the_data, lift, on_store. cbn [fst snd].
  destruct (py_strip _) as [name|e]; [|intros [= <- <-]; now left].
  destruct (py_strip _) as [site|e]; [|intros [= <- <-]; now left].
  destruct (py_strip _) as [source|e]; [|intros [= <- <-]; now left].
  destruct (get_unreviewed_school_by_match VNone (or_none site) (or_none name) w)
    as [r1 w1] eqn:E1.
  apply lookup_sound in E1 as (R1 & _ & o & -> & Hin).
  assert (Hins : forall t,
             insert_new data name site source t (w1, data) = (r, s') ->
             rows (fst s') = rows w \/
             (exists new, rows (fst s') = (rows w ++ [new])%list) \/
             exists existing i payload,
               In existing (rows w) /\ dict_get "id" existing = Some i /\
               rows (fst s') = map (update_row i payload) (rows w) /\
               forall f, In f scalar_fields ->
                         _is_empty_value (dget existing f) = false ->
                         dict_mem f payload = false).
  { intros t H. apply insert_new_rows in H. cbn [fst] in H. rewrite R1 in H.
    destruct H as [H|H]; [now left | right; now left]. }
  destruct o as [row|]; [|apply Hins].
  destruct (truthy (VDict row)); [|apply Hins].
  intros H. apply enrich_existing_rows in H. cbn [fst] in H. rewrite R1 in H.
  destruct H as [H|(i & payload & Hi & Hrows & Hf)]; [now left|].
  right; right. exists row, i, payload. auto.
Qed.

Lemma enrich_body_action (fill : bool) (data : pydict) (w : world)
    (o : outcome) (s' : session) :
  enrich_body fill (w, data) = (Ret o, s') ->
  snd o = "inserted" \/ snd o = "enriched" \/ snd o = "skipped".
Proof.
  unfold enrich_body, mbind, the_data, lift, on_store. cbn [fst snd].
  destruct (py_strip _) as [name|e]; [|discriminate].
  destruct (py_strip _) as [site|e]; [|discriminate].
  destruct (py_strip _) as [source|e]; [|discriminate].
  destruct (get_unreviewed_school_by_match VNone (or_none site) (or_none name) w)
    as [[existing|e] w1]; [|discriminate].
  assert (Hins : forall t,
             insert_new data name site source t (w1, data) = (Ret o, s') ->
             snd o = "inserted" \/ snd o = "enriched" \/ snd o = "skipped").
  { intros t H. apply insert_new_action in H as [H|H]; auto. }
  destruct existing as [row|]; [|apply Hins].
  destruct (truthy (VDict row)); [|apply Hins].
  intros H. apply enrich_existing_action in H as [H|H]; auto.
Qed.

Lemma unique_row {A B : Type} (g : A -> B) (l : list A) (a b : A) :
  NoDup (map g l) -> In a l -> In b l -> g a = g b -> a = b.
Proof.
  induction l as [|x l IH]; simpl; [contradiction|].
  intros Hnd Ha Hb Hg. inversion Hnd as [|? ? Hx Hl]; subst.
  destruct Ha as [->|Ha], Hb as [->|Hb]; [reflexivity | | |now apply IH].
  - exfalso. apply Hx. rewrite Hg. now apply in_map.
  - exfalso. apply Hx. rewrite <- Hg. now apply in_map.
Qed.

Lemma fill_only_empty_keeps (data : pydict) (w : world) (f : string)
    (n : nat) (row : pydict) :
  ids_unique w ->
  In f scalar_fields ->
  nth_error (rows w) n = Some row ->
  _is_empty_value (dget row f) = false ->
  exists row',
    nth_error (rows (snd (fst (enrich_or_insert_unreviewed_school data true w)))) n
    = Some row' /\ dget row' f = dget row f.
Proof.
  intros Hu Hf Hn Hne. unfold enrich_or_insert_unreviewed_school.
  destruct (enrich_body true (w, data)) as [r [w' d']] eqn:E. cbn [fst snd].
  apply enrich_body_rows in E. cbn [fst] in E.
  destruct E as [E|[(new & E)|(existing & i & payload & Hin & Hi & E & Hkeep)]];
    rewrite E.
  - now exists row.
  - exists row. split; [|reflexivity].
    rewrite nth_error_app1; [exact Hn|]. apply nth_error_Some. congruence.
  - exists (update_row i payload row). split.
    + rewrite nth_error_map, Hn. reflexivity.
    + unfold update_row. destruct (row_matches (ById i) row) eqn:Em; [|reflexivity].
      apply dget_merge_absent, Hkeep; [exact Hf|].
      assert (row = existing) as <-; [|exact Hne].
      apply (unique_row _ _ _ _ Hu (nth_error_In _ _ Hn) Hin).
      unfold row_matches in Em. unfold dget. rewrite Hi.
      destruct (dict_get "id" row) as [j|]; [|discriminate].
      now apply String.eqb_eq in Em.
Qed.

(** C2: with [fill_only_empty] on and identities unique in the store, a
    scalar field (country, location, year_founded, website_url, initial,
    type, confidence_score, source_url or qs_ranking) that holds a
    non-empty value in a stored row holds the same value after any
    candidate was reconciled: only a field that was empty can change. *)
Theorem fill_only_empty_invariant (data : pydict) (w : world) (f : string)
    (n : nat) (row : pydict) :
  ids_unique w ->
  In f scalar_fields ->
  nth_error (rows w) n = Some row ->
  _is_empty_value (dget row f) = false ->
  exists row',
    nth_error (rows (snd (fst (enrich_or_insert_unreviewed_school data true w)))) n
    = Some row' /\ dget row' f = dget row f.
Proof.
  intros Hu Hf Hn Hne. unfold enrich_or_insert_unreviewed_school.
  destruct (enrich_body true (w, data)) as [r [w' d']] eqn:E. cbn [fst snd].
  apply enrich_body_rows in E. cbn [fst] in E.
  destruct E as [E|[(new & E)|(existing & i & payload & Hin & Hi & E & Hkeep)]];
    rewrite E.
  - (* nothing was written *)
    now exists row.
  - (* a row was inserted after the stored ones *)
    exists row. split; [|reflexivity].
    rewrite nth_error_app1; [exact Hn|]. apply nth_error_Some. congruence.
  - (* the matched row was patched: [f] is not in the payload *)
    exists (update_row i payload row). split.
    + rewrite nth_error_map, Hn. reflexivity.
    + unfold update_row. destruct (row_matches (ById i) row) eqn:Em; [|reflexivity].
      apply dget_merge_absent, Hkeep; [exact Hf|].
      assert (row = existing) as <-; [|exact Hne].
      apply (unique_row _ _ _ _ Hu (nth_error_In _ _ Hn) Hin).
      unfold row_matches in Em. unfold dget. rewrite Hi.
      destruct (dict_get "id" row) as [j|]; [|discriminate].
      now apply String.eqb_eq in Em.
Qed.

Lemma fill_only_empty_invariant_witness :
  let row := [("id", VInt 1); ("name", VStr "Example University");
              ("country", VStr "Freedonia")] in
  let w := mkWorld [row] 2 [] refusing in
  let data := [("name", VStr "Example University");
               ("country", VStr "Sylvania"); ("location", VStr "City X")] in
  ids_unique w /\ In "country" scalar_fields /\
  nth_error (rows w) 0 = Some row /\
  _is_empty_value (dget row "country") = false /\
  exists row',
    nth_error (rows (snd (fst (enrich_or_insert_unreviewed_school data true w)))) 0
    = Some row' /\ dget row' "country" = VStr "Freedonia".
Proof.
  intros row w data.
  assert (Hu : ids_unique w).
  { unfold ids_unique. simpl. constructor; [intros [] | constructor]. }
  assert (Hf : In "country" scalar_fields) by (simpl; auto).
  split; [exact Hu|]. split; [exact Hf|]. split; [reflexivity|].
  split; [reflexivity|].
  apply (fill_only_empty_invariant data w "country" 0 row Hu Hf);
    reflexivity.
Defined.

Lemma empty_iff_blank (v : pyval) :
  _is_empty_value v = true <->
  v = VNone \/ exists s, v = VStr s /\ all_chars isspace s = true.
Proof.
  split.
  - destruct v; simpl; try discriminate; [now left|].
    intros H. right. exists s. split; [reflexivity|].
    apply (strip_by_empty isspace). unfold strip in H.
    destruct (strip_by isspace s); [reflexivity | discriminate].
  - intros [->|(s & -> & H)]; [reflexivity|]. simpl.
    apply (strip_by_empty isspace) in H. unfold strip. now rewrite H.
Qed.

(** C8: the emptiness test of the fill policy holds exactly for [None] and
    for a string of blanks only (the empty string included); the integer
    0, the float 0.0, [False] and the empty list and dict are not empty,
    so a stored 0 or 0.0 in a scalar field stays as it is when a candidate
    is reconciled with [fill_only_empty] on. *)
Theorem empty_value_meaning :
  (forall v : pyval,
      _is_empty_value v = true <->
      v = VNone \/ exists s, v = VStr s /\ all_chars isspace s = true) /\
  _is_empty_value (VInt 0) = false /\
  _is_empty_value (VFloat "0.0") = false /\
  _is_empty_value (VBool false) = false /\
  _is_empty_value (VList []) = false /\
  _is_empty_value (VDict []) = false /\
  (forall (data : pydict) (w : world) (f : string) (n : nat) (row : pydict),
      ids_unique w ->
      In f scalar_fields ->
      nth_error (rows w) n = Some row ->
      dget row f = VInt 0 \/ dget row f = VFloat "0.0" ->
      exists row',
        nth_error (rows (snd (fst (enrich_or_insert_unreviewed_school data true w)))) n
        = Some row' /\ dget row' f = dget row f).
Proof.
  split; [exact empty_iff_blank|].
  do 5 (split; [reflexivity|]).
  intros data w f n row Hu Hf Hn Hz.
  apply fill_only_empty_keeps; try assumption.
  destruct Hz as [-> | ->]; reflexivity.
Qed.

Lemma empty_value_meaning_witness :
  let row := [("id", VInt 1); ("name", VStr "Example University");
              ("confidence_score", VFloat "0.0")] in
  let w := mkWorld [row] 2 [] refusing in
  let data := [("name", VStr "Example University");
               ("confidence_score", VFloat "0.95")] in
  ids_unique w /\ In "confidence_score" scalar_fields /\
  nth_error (rows w) 0 = Some row /\
  exists row',
    nth_error (rows (snd (fst (enrich_or_insert_unreviewed_school data true w)))) 0
    = Some row' /\ dget row' "confidence_score" = VFloat "0.0".
Proof.
  intros row w data.
  assert (Hu : ids_unique w).
  { unfold ids_unique. simpl. constructor; [intros [] | constructor]. }
  assert (Hf : In "confidence_score" scalar_fields) by (simpl; auto 10).
  split; [exact Hu|]. split; [exact Hf|]. split; [reflexivity|].
  apply (proj2 (proj2 (proj2 (proj2 (proj2 (proj2 empty_value_meaning)))))
           data w "confidence_score" 0%nat row Hu Hf); [reflexivity|].
  right. reflexivity.
Defined.

(** ** Reconciling the same candidate twice *)

Lemma dict_mem_get (k : string) (d : pydict) :
  dict_mem k d = false -> dict_get k d = None.
Proof. unfold dict_mem. now destruct (dict_get k d). Qed.

Lemma dget_drop_none (k : string) (d : pydict) :
  nodup_keys d = true -> dget (drop_none d) k = dget d k.
Proof.
  unfold dget, drop_none. induction d as [|[k0 v0] r IH]; simpl; [reflexivity|].
  intros H. apply andb_true_iff in H as [Hk Hr]. apply negb_true_iff in Hk.
  specialize (IH Hr).
  destruct (String.eqb_spec k0 k) as [->|Hne].
  - destruct (is_none v0) eqn:E; simpl.
    + rewrite IH, (dict_mem_get _ _ Hk). now destruct v0.
    + now rewrite String.eqb_refl.
  - destruct (is_none v0); simpl; [exact IH|].
    destruct (String.eqb_spec k0 k); [contradiction | exact IH].
Qed.

Lemma dict_get_drop_none (k : string) (v : pyval) (d : pydict) :
  nodup_keys d = true -> dict_get k d = Some v -> is_none v = false ->
  dict_get k (drop_none d) = Some v.
Proof.
  intros Hd Hg Hv. pose proof (dget_drop_none k d Hd) as H.
  unfold dget in H. rewrite Hg in H.
  destruct (dict_get k (drop_none d)) as [v'|]; [now subst|].
  subst v. discriminate.
Qed.

Lemma nodup_keys_set (k : string) (v : pyval) (d : pydict) :
  nodup_keys d = true -> nodup_keys (dict_set k v d) = true.
Proof.
  induction d as [|[k0 v0] r IH]; simpl; [reflexivity|].
  intros H. apply andb_true_iff in H as [Hk Hr].
  destruct (String.eqb_spec k0 k) as [->|Hne]; simpl.
  - now rewrite Hk, Hr.
  - rewrite (IH Hr), dict_mem_set.
    destruct (String.eqb_spec k k0); [congruence|].
    simpl. now rewrite Hk.
Qed.

Lemma dict_merge_self (d : pydict) : nodup_keys d = true -> dict_merge d d = d.
Proof.
  intros Hd. unfold dict_merge.
  assert (G : forall l acc,
             (forall k v, In (k, v) l -> dict_get k acc = Some v) ->
             fold_left (fun a kv => dict_set (fst kv) (snd kv) a) l acc = acc).
  { induction l as [|[k v] l IH]; intros acc H; simpl; [reflexivity|].
    rewrite (dict_set_same k v acc) by (apply H; now left).
    apply IH. intros k' v' Hin. apply H. now right. }
  apply G. clear G. induction d as [|[k0 v0] r IH]; [contradiction|].
  simpl in Hd. apply andb_true_iff in Hd as [Hk Hr]. apply negb_true_iff in Hk.
  intros k v [[= -> ->]|Hin]; simpl.
  - now rewrite String.eqb_refl.
  - destruct (String.eqb_spec k0 k) as [->|Hne]; [|now apply IH].
    specialize (IH Hr k v Hin). rewrite (dict_mem_get _ _ Hk) in IH. discriminate.
Qed.

Lemma prefix_refl (x : string) : String.prefix x x = true.
Proof.
  induction x as [|c r IH]; simpl; [reflexivity|].
  destruct (ascii_dec c c); [exact IH | congruence].
Qed.

Lemma contains_refl (x : string) : contains x x = true.
Proof.
  destruct x as [|c r]; [reflexivity|].
  change (contains (String c r) (String c r))
    with (String.prefix (String c r) (String c r) || contains (String c r) r).
  now rewrite prefix_refl.
Qed.

Lemma annotate_rank_dict (t : rank_triple) (d : pydict) :
  annotate_rank (VDict d) t = Ret (VDict (with_rank t d)).
Proof.
  destruct t as [[[disp|] [rmin|]] [rmax|]]; reflexivity.
Qed.

Lemma nodup_keys_with_rank (t : rank_triple) (d : pydict) :
  nodup_keys d = true -> nodup_keys (with_rank t d) = true.
Proof.
  intros H. destruct t as [[[disp|] [rmin|]] [rmax|]]; simpl;
    repeat apply nodup_keys_set; exact H.
Qed.

Lemma with_rank_idem (t : rank_triple) (d : pydict) :
  with_rank t (with_rank t d) = with_rank t d.
Proof.
  destruct t as [[[disp|] [rmin|]] [rmax|]]; simpl;
    repeat (rewrite dict_set_same;
            [|rewrite ?dict_get_set_other by discriminate;
              apply dict_get_set_same]);
    reflexivity.
Qed.

Lemma normalize_no_display (v : pyval) :
  fst (fst (_normalize_qs_ranking v)) = None ->
  _normalize_qs_ranking v = (None, None, None).
Proof.
  destruct (is_none v) eqn:Hv.
  { destruct v; try discriminate Hv. reflexivity. }
  rewrite (normalize_text v Hv), normalize_stripped. cbv zeta.
  rewrite strip_idem. set (s := strip (py_str v)).
  destruct (is_empty_str s); [reflexivity|].
  destruct (startswith_char "=" s).
  { destruct (py_int (strip (drop_first s))); discriminate. }
  destruct (endswith_char "+" s).
  { destruct (py_int (strip (drop_last s))); discriminate. }
  destruct (has_char "-" s).
  { destruct (py_int (strip (fst (split_first "-" s))));
      [destruct (py_int (strip (snd (split_first "-" s))))|]; discriminate. }
  destruct (py_int s); discriminate.
Qed.

Lemma truthy_set (k : string) (v : pyval) (d : pydict) :
  truthy (VDict (dict_set k v d)) = true.
Proof.
  destruct d as [|[k0 v0] r]; simpl; [reflexivity|].
  destruct (String.eqb k0 k); reflexivity.
Qed.

Lemma truthy_with_rank (data : pydict) (d : pydict) :
  payload_base data = VDict d ->
  truthy (VDict (with_rank (_normalize_qs_ranking (dget data "qs_ranking")) d))
  = carries_payload data.
Proof.
  intros Hb. unfold carries_payload.
  destruct (_normalize_qs_ranking (dget data "qs_ranking")) as [[disp rmin] rmax] eqn:E.
  destruct disp as [x|]; cbn [fst].
  - unfold with_rank. destruct rmax, rmin; cbn [set_opt option_map];
      apply truthy_set.
  - pose proof (normalize_no_display (dget data "qs_ranking")) as H.
    rewrite E in H. specialize (H eq_refl). injection H as -> ->.
    cbn [with_rank set_opt option_map]. unfold payload_base, py_or in Hb.
    destruct (truthy (dget data "raw_data")) eqn:Et.
    + now rewrite Hb in Et.
    + now injection Hb as <-.
Qed.

Lemma first_row_served (q : query) (w : world) :
  wire_ok q = true ->
  replies w = [] ->
  first_row q w = (Ret (find (row_matches q) (rows w)), w).
Proof.
  intros Hq H. unfold first_row, mbind, http_get, next_reply, mret.
  rewrite H, (served_filter_ok w q Hq).
  cbn [status_code body]. destruct (find (row_matches q) (rows w)); reflexivity.
Qed.

Lemma lookup_served (i site name : pyval) (w : world) :
  wire_safe (py_str site) = true ->
  wire_safe (py_str name) = true ->
  replies w = [] ->
  get_unreviewed_school_by_match i site name w
  = (Ret match (if truthy i then find (row_matches (ById i)) (rows w) else None) with
         | Some row => Some row
         | None =>
             match (if truthy site
                    then find (row_matches (ByWebsite (py_str site))) (rows w)
                    else None) with
             | Some row => Some row
             | None =>
                 if truthy name
                 then find (row_matches (ByName (py_str name))) (rows w)
                 else None
             end
         end, w).
Proof.
  intros Hs Hn H. unfold get_unreviewed_school_by_match, mtry, mbind, mret.
  destruct (truthy i); [rewrite (first_row_served (ById i) _ eq_refl H)|].
  - destruct (find (row_matches (ById i)) (rows w)); [reflexivity|].
    destruct (truthy site); [rewrite (first_row_served (ByWebsite _) _ Hs H)|].
    + destruct (find (row_matches (ByWebsite (py_str site))) (rows w)); [reflexivity|].
      destruct (truthy name); [rewrite (first_row_served (ByName _) _ Hn H)|reflexivity].
      destruct (find (row_matches (ByName (py_str name))) (rows w)); reflexivity.
    + destruct (truthy name); [rewrite (first_row_served (ByName _) _ Hn H)|reflexivity].
      destruct (find (row_matches (ByName (py_str name))) (rows w)); reflexivity.
  - destruct (truthy site); [rewrite (first_row_served (ByWebsite _) _ Hs H)|].
    + destruct (find (row_matches (ByWebsite (py_str site))) (rows w)); [reflexivity|].
      destruct (truthy name); [rewrite (first_row_served (ByName _) _ Hn H)|reflexivity].
      destruct (find (row_matches (ByName (py_str name))) (rows w)); reflexivity.
    + destruct (truthy name); [rewrite (first_row_served (ByName _) _ Hn H)|reflexivity].
      destruct (find (row_matches (ByName (py_str name))) (rows w)); reflexivity.
Qed.

Lemma py_strip_text (v : pyval) :
  text_or_none v = true ->
  py_strip (py_or v (VStr EmptyString))
  = Ret (strip (py_str (py_or v (VStr EmptyString)))).
Proof.
  destruct v; try discriminate; intros _; [reflexivity|].
  destruct s; reflexivity.
Qed.

Lemma text_or_none_or (a b : pyval) :
  text_or_none a = true -> text_or_none b = true -> text_or_none (py_or a b) = true.
Proof. unfold py_or. now destruct (truthy a). Qed.

Lemma well_formed_parts (data : pydict) :
  well_formed_candidate data = true ->
  text_or_none (dget data "name") = true /\
  text_or_none (dget data "website_url") = true /\
  text_or_none (dget data "website") = true /\
  text_or_none (dget data "source_url") = true /\
  payload_ok (dget data "raw_data") = true.
Proof.
  unfold well_formed_candidate. intros H.
  repeat (apply andb_true_iff in H as [H ?]). auto.
Qed.

Lemma truthy_or_none (s : string) : truthy (or_none s) = negb (is_empty_str s).
Proof. destruct s; reflexivity. Qed.

Lemma py_str_or_none (s : string) : is_empty_str s = false -> py_str (or_none s) = s.
Proof. destruct s; [discriminate | reflexivity]. Qed.

Lemma held_base (data : pydict) :
  py_or (dget_default data "raw_data" (VDict [])) (VDict []) = payload_base data /\
  truthy (dget_default data "raw_data" (VDict [])) && dict_mem "raw_data" data
  = truthy (dget data "raw_data").
Proof.
  unfold payload_base, dget_default, dget, dict_mem, py_or.
  destruct (dict_get "raw_data" data) as [v|]; simpl; [|split; reflexivity].
  split; [reflexivity | apply andb_true_r].
Qed.

Lemma payload_base_dict (data : pydict) :
  payload_ok (dget data "raw_data") = true ->
  exists d, payload_base data = VDict d /\ nodup_keys d = true.
Proof.
  unfold payload_base, py_or.
  destruct (dget data "raw_data") as [| | | | |l|d]; try discriminate; simpl.
  - exists []. split; reflexivity.
  - intros H. destruct d; [exists [] | eexists]; split; try reflexivity; exact H.
Qed.

Lemma wire_safe_or_none (x : string) :
  wire_safe x = true -> wire_safe (py_str (or_none x)) = true.
Proof. destruct x; [reflexivity | now intros H]. Qed.

Lemma wire_plain_parts (data : pydict) :
  wire_plain data = true ->
  wire_safe (py_str (or_none (candidate_site data))) = true /\
  wire_safe (py_str (or_none (candidate_name data))) = true.
Proof.
  unfold wire_plain. intros H. apply andb_true_iff in H as [Hn Hs].
  split; now apply wire_safe_or_none.
Qed.

Lemma lookup_nothing (data : pydict) (w : world) :
  wire_plain data = true ->
  matches_nothing data w = true ->
  replies w = [] ->
  get_unreviewed_school_by_match VNone (or_none (candidate_site data))
    (or_none (candidate_name data)) w = (Ret None, w).
Proof.
  intros Hw Hm Hr. destruct (wire_plain_parts data Hw) as [Hws Hwn].
  rewrite (lookup_served _ _ _ _ Hws Hwn Hr). cbn [truthy].
  rewrite !truthy_or_none. unfold matches_nothing in Hm.
  assert (G : forall q (c : bool),
             (forall row, In row (rows w) -> c && row_matches q row = false) ->
             (if c then find (row_matches q) (rows w) else None) = None).
  { intros q [|] H; [|reflexivity].
    destruct (find (row_matches q) (rows w)) as [row|] eqn:F; [|reflexivity].
    apply find_some in F as [Hin Hrow]. specialize (H row Hin).
    simpl in H. congruence. }
  rewrite (G (ByWebsite (py_str (or_none (candidate_site data))))).
  - rewrite (G (ByName (py_str (or_none (candidate_name data))))); [reflexivity|].
    intros row Hin. rewrite forallb_forall in Hm. specialize (Hm row Hin).
    apply negb_true_iff in Hm. unfold row_hit in Hm.
    apply orb_false_iff in Hm as [_ Hm].
    destruct (is_empty_str (candidate_name data)) eqn:E; [reflexivity|].
    now rewrite (py_str_or_none _ E).
  - intros row Hin. rewrite forallb_forall in Hm. specialize (Hm row Hin).
    apply negb_true_iff in Hm. unfold row_hit in Hm.
    apply orb_false_iff in Hm as [Hm _].
    destruct (is_empty_str (candidate_site data)) eqn:E; [reflexivity|].
    now rewrite (py_str_or_none _ E).
Qed.

Lemma fold_raw_first (data : pydict) (w : world) :
  payload_ok (dget data "raw_data") = true ->
  fold_rank_into_raw (dget_default data "raw_data" (VDict []))
    (_normalize_qs_ranking (dget data "qs_ranking")) (w, data)
  = (Ret (noted_payload data), (w, candidate_after data)).
Proof.
  intros Hp. destruct (payload_base_dict data Hp) as (d & Hb & _).
  destruct (held_base data) as [H1 H2].
  unfold fold_rank_into_raw. cbn [fst snd].
  rewrite H1, H2, Hb, annotate_rank_dict.
  unfold candidate_after, noted_payload. now rewrite Hb.
Qed.

Lemma insert_new_served (data : pydict) (w : world) :
  payload_ok (dget data "raw_data") = true ->
  replies w = [] ->
  insert_new data (candidate_name data) (candidate_site data)
    (candidate_source data) (_normalize_qs_ranking (dget data "qs_ranking"))
    (w, data)
  = (Ret (VInt (next_id w), "inserted"),
     (mkWorld (rows w ++ [created_row data (next_id w)]) (next_id w + 1) []
             (misread w),
      candidate_after data)).
Proof.
  intros Hp Hr. unfold insert_new. cbv zeta. unfold mbind.
  change (dget (build_insert_payload data (candidate_name data)
                  (candidate_site data) (candidate_source data)
                  (snd (fst (_normalize_qs_ranking (dget data "qs_ranking")))))
               "raw_data")
    with (dget_default data "raw_data" (VDict [])).
  rewrite (fold_raw_first data w Hp).
  unfold on_store, http_post, next_reply. cbn [fst snd]. rewrite Hr.
  cbn [status_code body hd rows next_id replies]. rewrite Hr.
  reflexivity.
Qed.

Lemma first_call (data : pydict) (w : world) :
  well_formed_candidate data = true ->
  wire_plain data = true ->
  matches_nothing data w = true ->
  replies w = [] ->
  enrich_or_insert_unreviewed_school data true w
  = ((VInt (next_id w), "inserted"),
     mkWorld (rows w ++ [created_row data (next_id w)]) (next_id w + 1) []
             (misread w),
     candidate_after data).
Proof.
  intros Hwf Hpl Hm Hr.
  destruct (well_formed_parts data Hwf) as (Hn & Hu & Hw & Hs & Hp).
  unfold enrich_or_insert_unreviewed_school, enrich_body, mbind, the_data,
    lift, on_store.
  cbn [fst snd].
  rewrite (py_strip_text _ Hn), (py_strip_text _ (text_or_none_or _ _ Hu Hw)),
    (py_strip_text _ Hs).
  fold (candidate_name data) (candidate_site data) (candidate_source data).
  rewrite (lookup_nothing data w Hpl Hm Hr).
  rewrite (insert_new_served data w Hp Hr). reflexivity.
Qed.

Lemma dget_after_other (data : pydict) (k : string) :
  k <> "raw_data" -> dget (candidate_after data) k = dget data k.
Proof.
  intros Hk. unfold candidate_after.
  destruct (truthy (dget data "raw_data")); [|reflexivity].
  unfold dget. now rewrite dict_get_set_other.
Qed.

Lemma noted_is_dict (data : pydict) :
  payload_ok (dget data "raw_data") = true ->
  exists r, noted_payload data = VDict r /\ nodup_keys r = true
            /\ truthy (VDict r) = carries_payload data.
Proof.
  intros Hp. destruct (payload_base_dict data Hp) as (d & Hb & Hd).
  exists (with_rank (_normalize_qs_ranking (dget data "qs_ranking")) d).
  unfold noted_payload. rewrite Hb.
  split; [reflexivity|]. split; [now apply nodup_keys_with_rank|].
  now apply truthy_with_rank.
Qed.

Lemma truthy_with_rank_kept (t : rank_triple) (d : pydict) :
  truthy (VDict d) = true -> truthy (VDict (with_rank t d)) = true.
Proof.
  intros H. destruct t as [[[disp|] [rmin|]] [rmax|]]; simpl;
    try apply truthy_set; exact H.
Qed.

Lemma fold_raw_second (data : pydict) (w : world) :
  payload_ok (dget data "raw_data") = true ->
  exists data',
    fold_rank_into_raw (dget (candidate_after data) "raw_data")
      (_normalize_qs_ranking (dget data "qs_ranking")) (w, candidate_after data)
    = (Ret (noted_payload data), (w, data')).
Proof.
  intros Hp. destruct (payload_base_dict data Hp) as (d & Hb & Hd).
  unfold fold_rank_into_raw. cbn [fst snd].
  assert (E : py_or (dget (candidate_after data) "raw_data") (VDict [])
              = noted_payload data
              \/ py_or (dget (candidate_after data) "raw_data") (VDict [])
                 = payload_base data).
  { unfold candidate_after.
    destruct (truthy (dget data "raw_data")) eqn:Et; [left | now right].
    unfold dget at 1. rewrite dict_get_set_same.
    unfold noted_payload. rewrite Hb. unfold py_or.
    rewrite truthy_with_rank_kept; [reflexivity|].
    unfold payload_base, py_or in Hb. rewrite Et in Hb. now rewrite <- Hb. }
  destruct E as [E|E]; rewrite E.
  - unfold noted_payload. rewrite Hb, annotate_rank_dict, with_rank_idem.
    eexists. reflexivity.
  - unfold noted_payload. rewrite Hb, annotate_rank_dict.
    eexists. reflexivity.
Qed.

Lemma created_field (data : pydict) (n : Z) (f : string) :
  String.eqb "id" f = false ->
  dget (created_row data n) f
  = dget (dict_set "raw_data" (noted_payload data)
            (build_insert_payload data (candidate_name data) (candidate_site data)
               (candidate_source data)
               (snd (fst (_normalize_qs_ranking (dget data "qs_ranking")))))) f.
Proof.
  intros Hf. unfold created_row, dget at 1. cbn [dict_get]. rewrite Hf.
  change (match dict_get f (drop_none ?L) with Some v => v | None => VNone end)
    with (dget (drop_none L) f).
  apply dget_drop_none. reflexivity.
Qed.

Lemma created_raw (data : pydict) (n : Z) (r : pydict) :
  noted_payload data = VDict r ->
  dict_get "raw_data" (created_row data n) = Some (VDict r).
Proof.
  intros Hr. unfold created_row. cbn [dict_get String.eqb Ascii.eqb Bool.eqb].
  apply dict_get_drop_none; [reflexivity | | reflexivity].
  rewrite Hr. apply dict_get_set_same.
Qed.

Lemma find_app_none {A : Type} (p : A -> bool) (l : list A) (x : A) :
  (forall y, In y l -> p y = false) ->
  find p (l ++ [x]) = if p x then Some x else None.
Proof.
  induction l as [|y l IH]; intros H; simpl; [reflexivity|].
  rewrite (H y) by now left. apply IH. intros z Hz. apply H. now right.
Qed.

Lemma site_kept (data : pydict) :
  text_or_none (dget data "website_url") = true ->
  _is_empty_value (py_or (VStr (candidate_site data)) (dget data "website"))
  && negb (_is_empty_value (dget data "website_url")) = false.
Proof.
  intros Ht. unfold candidate_site.
  destruct (dget data "website_url") as [| | | |s| |] eqn:E; try discriminate Ht.
  - apply andb_false_r.
  - cbn [_is_empty_value]. destruct (is_empty_str (strip s)) eqn:Es;
      [apply andb_false_r|].
    assert (Hs : truthy (VStr s) = true) by (destruct s; [discriminate Es | reflexivity]).
    unfold py_or at 3. rewrite Hs. unfold py_or at 2. rewrite Hs.
    cbn [py_str]. unfold py_or. cbn [truthy]. rewrite Es.
    cbn [negb _is_empty_value]. now rewrite strip_idem, Es.
Qed.

Lemma source_kept (data : pydict) :
  text_or_none (dget data "source_url") = true ->
  _is_empty_value (VStr (candidate_source data))
  && negb (_is_empty_value (dget data "source_url")) = false.
Proof.
  intros Ht. unfold candidate_source.
  destruct (dget data "source_url") as [| | | |s| |] eqn:E; try discriminate Ht.
  - apply andb_false_r.
  - cbn [_is_empty_value]. destruct (is_empty_str (strip s)) eqn:Es;
      [apply andb_false_r|].
    assert (Hs : truthy (VStr s) = true) by (destruct s; [discriminate Es | reflexivity]).
    unfold py_or. rewrite Hs. cbn [py_str]. now rewrite strip_idem, Es.
Qed.

Lemma stage_fields_nil (existing data : pydict) :
  (forall f, In f candidate_fields ->
             _is_empty_value (dget existing f)
             && negb (_is_empty_value (dget data f)) = false) ->
  stage_fields true existing data = [].
Proof.
  unfold stage_fields. generalize candidate_fields.
  induction l as [|f l IH]; intros H; simpl; [reflexivity|].
  rewrite (H f) by now left. apply IH. intros g Hg. apply H. now right.
Qed.

Lemma stage_fields_second (data : pydict) (n : Z) :
  well_formed_candidate data = true ->
  stage_fields true (created_row data n) (candidate_after data) = [].
Proof.
  intros Hwf. destruct (well_formed_parts data Hwf) as (_ & Hu & _ & Hs & _).
  apply stage_fields_nil. intros f Hf.
  rewrite dget_after_other by (apply scalar_not_raw, in_or_app; now left).
  unfold candidate_fields in Hf. simpl in Hf.
  repeat (destruct Hf as [<-|Hf]);
    try contradiction;
    rewrite created_field by reflexivity;
    cbn [dict_set build_insert_payload String.eqb Ascii.eqb Bool.eqb dget dict_get];
    try apply andb_negb_r.
  - now apply site_kept.
  - unfold dget_default, dget.
    destruct (dict_get "confidence_score" data); [apply andb_negb_r | reflexivity].
  - now apply source_kept.
Qed.

Lemma stage_rank_second (data : pydict) (n : Z) :
  stage_rank true (created_row data n)
    (snd (fst (_normalize_qs_ranking (dget data "qs_ranking")))) [] = [].
Proof.
  unfold stage_rank.
  destruct (snd (fst (_normalize_qs_ranking (dget data "qs_ranking")))) as [m|] eqn:E;
    [|reflexivity].
  rewrite created_field by reflexivity.
  cbn [dict_set build_insert_payload String.eqb Ascii.eqb Bool.eqb dget dict_get].
  rewrite E. reflexivity.
Qed.

Lemma serving_fresh_parts (w : world) :
  serving_fresh w = true ->
  replies w = [] /\ (next_id w =? 0) = false /\
  forall row, In row (rows w) ->
              row_matches (ById (VInt (next_id w))) row = false.
Proof.
  unfold serving_fresh. intros H.
  apply andb_true_iff in H as [H H3]. apply andb_true_iff in H as [H1 H2].
  split; [now destruct (replies w)|].
  split; [now apply negb_true_iff in H2|].
  intros row Hin. rewrite forallb_forall in H3.
  now apply negb_true_iff, H3.
Qed.

Lemma lookup_created (data : pydict) (w : world) (m : Z) :
  wire_plain data = true ->
  identifiable data = true ->
  matches_nothing data w = true ->
  get_unreviewed_school_by_match VNone (or_none (candidate_site data))
    (or_none (candidate_name data))
    (mkWorld (rows w ++ [created_row data (next_id w)]) m [] (misread w))
  = (Ret (Some (created_row data (next_id w))),
     mkWorld (rows w ++ [created_row data (next_id w)]) m [] (misread w)).
Proof.
  intros Hpl Hi Hm. destruct (wire_plain_parts data Hpl) as [Hws Hwn].
  rewrite (lookup_served _ _ _
             (mkWorld (rows w ++ [created_row data (next_id w)]) m [] (misread w))
             Hws Hwn eq_refl).
  cbn [truthy rows]. rewrite !truthy_or_none.
  unfold matches_nothing in Hm. rewrite forallb_forall in Hm.
  assert (Hname : is_empty_str (candidate_name data) = false ->
                  find (row_matches (ByName (py_str (or_none (candidate_name data)))))
                    (rows w ++ [created_row data (next_id w)])
                  = Some (created_row data (next_id w))).
  { intros E. rewrite (py_str_or_none _ E), find_app_none.
    - unfold row_matches. rewrite created_field by reflexivity.
      cbn [dict_set build_insert_payload String.eqb Ascii.eqb Bool.eqb dget dict_get
           ilike_sub].
      now rewrite contains_refl.
    - intros row Hin. specialize (Hm row Hin). apply negb_true_iff in Hm.
      unfold row_hit in Hm. apply orb_false_iff in Hm as [_ Hm].
      now rewrite E in Hm. }
  destruct (is_empty_str (candidate_site data)) eqn:Es; cbn [negb].
  - unfold identifiable in Hi. rewrite Es, orb_false_r in Hi.
    apply negb_true_iff in Hi. rewrite Hi. cbn [negb]. now rewrite (Hname Hi).
  - rewrite (py_str_or_none _ Es), find_app_none.
    + unfold row_matches. rewrite created_field by reflexivity.
      cbn [dict_set build_insert_payload String.eqb Ascii.eqb Bool.eqb dget dict_get].
      assert (py_or (VStr (candidate_site data)) (dget data "website")
              = VStr (candidate_site data)) as ->.
      { unfold py_or. cbn [truthy]. now rewrite Es. }
      cbn [ilike_sub]. now rewrite contains_refl.
    + intros row Hin. specialize (Hm row Hin). apply negb_true_iff in Hm.
      unfold row_hit in Hm. apply orb_false_iff in Hm as [Hm _].
      now rewrite Es in Hm.
Qed.

Lemma patch_payload_same (row r : pydict) :
  dict_get "raw_data" row = Some (VDict r) ->
  truthy (VDict r) = true ->
  nodup_keys r = true ->
  patch_payload row [("raw_data", VDict r)] = Ret [("raw_data", VDict r)].
Proof.
  intros Hg Ht Hn. unfold patch_payload.
  cbn [drop_none filter snd is_none negb dict_mem dict_get String.eqb Ascii.eqb
       Bool.eqb dget].
  unfold dget. rewrite Hg. unfold py_or. rewrite Ht.
  cbn [dict_set String.eqb Ascii.eqb Bool.eqb]. now rewrite dict_merge_self.
Qed.

Lemma patch_same (data : pydict) (w : world) (r : pydict) :
  serving_fresh w = true ->
  noted_payload data = VDict r ->
  truthy (VDict r) = true ->
  nodup_keys r = true ->
  let w1 := mkWorld (rows w ++ [created_row data (next_id w)]) (next_id w + 1) []
             (misread w) in
  patch_unreviewed_school (VInt (next_id w)) [("raw_data", VDict r)] w1
  = (Ret true, w1).
Proof.
  intros Hf Hr Ht Hn w1.
  destruct (serving_fresh_parts w Hf) as (_ & Hz & Hfresh).
  pose proof (created_raw data (next_id w) r Hr) as Hraw.
  assert (Hid : row_matches (ById (VInt (next_id w))) (created_row data (next_id w))
                = true).
  { unfold created_row, row_matches.
    cbn [dict_get String.eqb Ascii.eqb Bool.eqb]. apply String.eqb_refl. }
  unfold patch_unreviewed_school, mtry, mbind.
  rewrite lookup_served by reflexivity.
  cbn [truthy]. rewrite Hz. cbn [negb]. unfold w1 at 1. cbn [rows].
  rewrite (find_app_none _ _ _ Hfresh), Hid.
  unfold lift. rewrite (patch_payload_same _ _ Hraw Ht Hn).
  unfold http_patch, next_reply, w1. cbn [replies rows next_id status_code mret].
  rewrite map_app. cbn [map].
  assert (map (update_row (VInt (next_id w)) [("raw_data", VDict r)]) (rows w)
          = rows w) as ->.
  { rewrite <- (map_id (rows w)) at 2. apply map_ext_in.
    intros row Hin. unfold update_row. now rewrite (Hfresh row Hin). }
  unfold update_row. rewrite Hid.
  unfold dict_merge. cbn [fold_left fst snd].
  rewrite (dict_set_same _ _ _ Hraw). reflexivity.
Qed.

Lemma second_call (data : pydict) (w : world) :
  well_formed_candidate data = true ->
  wire_plain data = true ->
  identifiable data = true ->
  matches_nothing data w = true ->
  serving_fresh w = true ->
  let w1 := mkWorld (rows w ++ [created_row data (next_id w)]) (next_id w + 1) []
             (misread w) in
  exists data',
    enrich_or_insert_unreviewed_school (candidate_after data) true w1
    = ((VInt (next_id w),
        if carries_payload data then "enriched" else "skipped"), w1, data').
Proof.
  intros Hwf Hpl Hi Hm Hf w1.
  destruct (well_formed_parts data Hwf) as (Hn & Hu & Hw & Hs & Hp).
  destruct (noted_is_dict data Hp) as (r & Hr & Hnd & Hc).
  destruct (fold_raw_second data w1 Hp) as (data' & Hfold).
  exists data'.
  unfold enrich_or_insert_unreviewed_school, enrich_body, mbind, the_data,
    lift, on_store.
  cbn [fst snd].
  rewrite !dget_after_other by discriminate.
  rewrite (py_strip_text _ Hn), (py_strip_text _ (text_or_none_or _ _ Hu Hw)),
    (py_strip_text _ Hs).
  fold (candidate_name data) (candidate_site data) (candidate_source data).
  unfold w1 at 1. rewrite (lookup_created data w _ Hpl Hi Hm). fold w1.
  assert (truthy (VDict (created_row data (next_id w))) = true) as -> by reflexivity.
  unfold enrich_existing, mbind. rewrite Hfold.
  unfold staged_patch. cbv zeta.
  rewrite (stage_fields_second data _ Hwf), stage_rank_second.
  rewrite Hr, Hc. unfold lift, getitem.
  assert (dict_get "id" (created_row data (next_id w)) = Some (VInt (next_id w)))
    as -> by reflexivity.
  destruct (carries_payload data) eqn:Ec.
  - cbn [dict_set on_store fst snd].
    pose proof (patch_same data w r Hf Hr Hc Hnd) as Hpatch.
    fold w1 in Hpatch. cbv zeta in Hpatch.
    unfold on_store. cbn [fst snd]. rewrite Hpatch. reflexivity.
  - reflexivity.
Qed.

(** C1 (amended): a well-formed candidate that can be found by name or
    website, both written in characters that the query string carries as
    they are, is reconciled, fill-only-empty, against a serving store in
    which it matches nothing, and then once more, as the first call left
    it, against the resulting store.  The first call inserts; the second
    never inserts: it matches the created row and returns "skipped" when
    the candidate carries neither a rank text nor a payload, "enriched"
    when it does (the payload is staged and merged again); the rows of
    the store are the same after both calls. *)
Theorem reconcile_twice (data : pydict) (w : world) :
  well_formed_candidate data = true ->
  wire_plain data = true ->
  identifiable data = true ->
  matches_nothing data w = true ->
  serving_fresh w = true ->
  let first := enrich_or_insert_unreviewed_school data true w in
  let second :=
    enrich_or_insert_unreviewed_school (snd first) true (snd (fst first)) in
  fst (fst first) = (VInt (next_id w), "inserted") /\
  fst (fst second)
  = (VInt (next_id w), if carries_payload data then "enriched" else "skipped") /\
  rows (snd (fst first)) = (rows w ++ [created_row data (next_id w)])%list /\
  rows (snd (fst second)) = rows (snd (fst first)).
Proof.
  intros Hwf Hpl Hi Hm Hf first second.
  destruct (serving_fresh_parts w Hf) as (Hr & _ & _).
  assert (E1 : first = ((VInt (next_id w), "inserted"),
                        mkWorld (rows w ++ [created_row data (next_id w)])
                                (next_id w + 1) [] (misread w),
                        candidate_after data))
    by (apply first_call; assumption).
  destruct (second_call data w Hwf Hpl Hi Hm Hf) as (data' & E2).
  cbv zeta in E2.
  assert (E2' : second = ((VInt (next_id w),
                           if carries_payload data then "enriched" else "skipped"),
                          mkWorld (rows w ++ [created_row data (next_id w)])
                                  (next_id w + 1) [] (misread w),
                          data')).
  { unfold second. rewrite E1. exact E2. }
  rewrite E1, E2'. repeat split.
Qed.

Lemma reconcile_twice_witness :
  let data := [("name", VStr "Example University");
               ("website", VStr "example.edu")] in
  let w := mkWorld [] 1 [] refusing in
  let first := enrich_or_insert_unreviewed_school data true w in
  let second :=
    enrich_or_insert_unreviewed_school (snd first) true (snd (fst first)) in
  well_formed_candidate data = true /\
  wire_plain data = true /\
  identifiable data = true /\
  matches_nothing data w = true /\
  serving_fresh w = true /\
  fst (fst first) = (VInt 1, "inserted") /\
  fst (fst second) = (VInt 1, "skipped") /\
  rows (snd (fst first)) = [created_row data 1] /\
  rows (snd (fst second)) = rows (snd (fst first)).
Proof.
  intros data w first second.
  split; [reflexivity|]. split; [reflexivity|]. split; [reflexivity|].
  split; [reflexivity|]. split; [reflexivity|].
  exact (reconcile_twice data w eq_refl eq_refl eq_refl eq_refl eq_refl).
Defined.

(** C1, counterexample to "inserted, then skipped": the candidate of the
    end-to-end scenario (name, website, rank "=5") matches nothing in the
    empty store; the first call inserts it, the second call with the same
    candidate against the resulting store returns "enriched". *)
Lemma second_call_enriches :
  let data := [("name", VStr "Example University");
               ("website", VStr "example.edu"); ("qs_ranking", VStr "=5")] in
  let w := mkWorld [] 1 [] refusing in
  let first := enrich_or_insert_unreviewed_school data true w in
  let second :=
    enrich_or_insert_unreviewed_school (snd first) true (snd (fst first)) in
  matches_nothing data w = true /\
  fst (fst first) = (VInt 1, "inserted") /\
  fst (fst second) = (VInt 1, "enriched") /\
  snd (fst (fst second)) <> "skipped".
Proof.
  cbv zeta. split; [reflexivity|]. split; [vm_compute; reflexivity|].
  split; [vm_compute; reflexivity|]. vm_compute. discriminate.
Qed.

(** The hypothesis on the characters is needed.  The name
    "Texas A&M University" is pasted into the query string as it is and
    the [&] ends the filter there; with a remote end that answers the
    query it then reads with an error status, the second call does not
    find the row the first one created and inserts the candidate again. *)
Lemma unsafe_name_inserted_twice :
  let data := [("name", VStr "Texas A&M University")] in
  let w := mkWorld [] 1 [] refusing in
  let first := enrich_or_insert_unreviewed_school data true w in
  let second :=
    enrich_or_insert_unreviewed_school (snd first) true (snd (fst first)) in
  well_formed_candidate data = true /\
  identifiable data = true /\
  matches_nothing data w = true /\
  serving_fresh w = true /\
  wire_plain data = false /\
  fst (fst first) = (VInt 1, "inserted") /\
  fst (fst second) = (VInt 2, "inserted") /\
  List.length (rows (snd (fst second))) = 2%nat.
Proof.
  cbv zeta. do 5 (split; [reflexivity|]).
  split; [vm_compute; reflexivity|]. split; vm_compute; reflexivity.
Qed.

(** C6 (amended): when the candidate matches an existing row and the
    staged patch is non-empty, the entry point returns the row's id with
    "enriched" if [patch_unreviewed_school] succeeds, and (None, "skipped")
    if it fails. *)
Theorem patch_outcome (data : pydict) (fill : bool) (w w1 w2 : world)
    (name site source : string) (existing : pydict) (raw i : pyval)
    (s1 : session) (ok : bool) :
  let t := _normalize_qs_ranking (dget data "qs_ranking") in
  py_strip (py_or (dget data "name") (VStr EmptyString)) = Ret name ->
  py_strip (py_or (py_or (dget data "website_url") (dget data "website"))
                  (VStr EmptyString)) = Ret site ->
  py_strip (py_or (dget data "source_url") (VStr EmptyString)) = Ret source ->
  get_unreviewed_school_by_match VNone (or_none site) (or_none name) w
  = (Ret (Some existing), w1) ->
  truthy (VDict existing) = true ->
  fold_rank_into_raw (dget data "raw_data") t (w1, data) = (Ret raw, s1) ->
  staged_patch fill existing data t raw <> [] ->
  getitem existing "id" = Ret i ->
  patch_unreviewed_school i (staged_patch fill existing data t raw) (fst s1)
  = (Ret ok, w2) ->
  enrich_or_insert_unreviewed_school data fill w
  = ((if ok then i else VNone, if ok then "enriched" else "skipped"),
     w2, snd s1).
Proof.
  intros t Hname Hsite Hsource Hlook Htruthy Hfold Hstaged Hid Hpatch.
  unfold enrich_or_insert_unreviewed_school, enrich_body, mbind, the_data,
    lift, on_store.
  cbn [fst snd]. rewrite Hname, Hsite, Hsource, Hlook, Htruthy.
  unfold enrich_existing, mbind. fold t. rewrite Hfold.
  destruct (staged_patch fill existing data t raw) as [|u us] eqn:Ep;
    [contradiction|].
  unfold lift, on_store. rewrite Hid, Hpatch.
  destruct s1 as [w1' d1]. reflexivity.
Qed.

Lemma patch_outcome_witness :
  enrich_or_insert_unreviewed_school
    [("name", VStr "Example University"); ("location", VStr "City X")]
    true
    (mkWorld [[("id", VInt 1); ("name", VStr "Example University")]] 2
             [Served; Served; Refused] refusing)
  = ((VNone, "skipped"),
     mkWorld [[("id", VInt 1); ("name", VStr "Example University")]] 2 []
                   refusing,
     [("name", VStr "Example University"); ("location", VStr "City X")]).
Proof.
  apply (patch_outcome
           [("name", VStr "Example University"); ("location", VStr "City X")]
           true
           (mkWorld [[("id", VInt 1); ("name", VStr "Example University")]] 2
                    [Served; Served; Refused] refusing)
           (mkWorld [[("id", VInt 1); ("name", VStr "Example University")]] 2
                    [Served; Refused] refusing)
           (mkWorld [[("id", VInt 1); ("name", VStr "Example University")]] 2 []
                   refusing)
           "Example University" EmptyString EmptyString
           [("id", VInt 1); ("name", VStr "Example University")]
           (VDict []) (VInt 1)
           (mkWorld [[("id", VInt 1); ("name", VStr "Example University")]] 2
                    [Served; Refused] refusing,
            [("name", VStr "Example University"); ("location", VStr "City X")])
           false);
    try reflexivity.
  vm_compute. discriminate.
Defined.

(** C6, counterexample to "skipped with the matched id": the candidate
    matches row 1 by name and stages the location; the store refuses the
    PATCH, and the entry point returns (None, "skipped"), not
    (1, "skipped"). *)
Lemma write_failure_drops_id :
  let data := [("name", VStr "Example University"); ("location", VStr "City X")] in
  let w := mkWorld [[("id", VInt 1); ("name", VStr "Example University")]] 2
                   [Served; Served; Refused] refusing in
  find (row_matches (ByName "Example University")) (rows w)
  = Some [("id", VInt 1); ("name", VStr "Example University")] /\
  staged_patch true [("id", VInt 1); ("name", VStr "Example University")] data
    (_normalize_qs_ranking (dget data "qs_ranking")) (VDict [])
  = [("location", VStr "City X")] /\
  fst (fst (enrich_or_insert_unreviewed_school data true w)) = (VNone, "skipped") /\
  fst (fst (enrich_or_insert_unreviewed_school data true w)) <> (VInt 1, "skipped").
Proof.
  cbv zeta. split; [reflexivity|]. split; [reflexivity|].
  split; [vm_compute; reflexivity|]. vm_compute. discriminate.
Qed.

(** * Further properties *)

(** ** What one reconciliation does to the table *)

Lemma patch_school_cases (i : pyval) (updates : pydict) (w w' : world)
    (r : exc bool) :
  patch_unreviewed_school i updates w = (r, w') ->
  (same_table w w' /\ (r = Ret false \/ (r = Ret true /\ updates = []))) \/
  (r = Ret true /\ next_id w' = next_id w /\
   exists current payload,
     In current (rows w) /\
     patch_payload current updates = Ret payload /\
     rows w' = map (update_row i payload) (rows w)).
Proof.
  unfold patch_unreviewed_school, mtry, same_table.
  destruct updates as [|u us].
  { intros [= <- <-]. left. auto. }
  set (updates := u :: us). unfold mbind.
  destruct (get_unreviewed_school_by_match i VNone VNone w) as [r1 w1] eqn:E1.
  apply lookup_sound in E1 as (R1 & N1 & o & -> & Hin).
  destruct o as [cur|].
  2:{ intros [= <- <-]. left. auto. }
  unfold lift. destruct (patch_payload cur updates) as [payload|e] eqn:Ep.
  2:{ intros [= <- <-]. left. auto. }
  unfold http_patch. destruct (next_reply w1) as [rep w2] eqn:E2.
  apply next_reply_rows in E2 as [R2 N2].
  destruct rep; intros [= <- <-]; cbn [next_id rows].
  - right. split; [reflexivity|]. split; [congruence|].
    exists cur, payload. split; [now apply Hin|]. split; [exact Ep|]. congruence.
  - left. split; [split; congruence | now left].
  - left. split; [split; congruence | now left].
Qed.

Lemma fold_raw_same (held : pyval) (t : rank_triple) (s s' : session)
    (r : exc pyval) :
  fold_rank_into_raw held t s = (r, s') -> same_table (fst s) (fst s').
Proof.
  intros H. apply fold_raw_world in H. rewrite H. split; reflexivity.
Qed.

Lemma same_table_trans (a b c : world) :
  same_table a b -> same_table b c -> same_table a c.
Proof. unfold same_table. intros [? ?] [? ?]. split; congruence. Qed.

Lemma enrich_existing_cases (fill : bool) (existing data : pydict)
    (t : rank_triple) (s s' : session) (r : exc outcome) :
  enrich_existing fill existing data t s = (r, s') ->
  (same_table (fst s) (fst s') /\
   forall o, r = Ret o ->
             snd o = "skipped" /\
             (fst o = VNone \/ dict_get "id" existing = Some (fst o))) \/
  (exists i raw current payload,
      r = Ret (i, "enriched") /\
      dict_get "id" existing = Some i /\
      In current (rows (fst s)) /\
      patch_payload current (staged_patch fill existing data t raw) = Ret payload /\
      rows (fst s') = map (update_row i payload) (rows (fst s)) /\
      next_id (fst s') = next_id (fst s)).
Proof.
  unfold enrich_existing, mbind, lift, mret, on_store.
  destruct (fold_rank_into_raw (dget data "raw_data") t s) as [[raw|e] s1] eqn:E1;
    pose proof (fold_raw_same _ _ _ _ _ E1) as Hs1; apply fold_raw_world in E1;
    [|intros [= <- <-]; left; split; [exact Hs1 | discriminate]].
  destruct (staged_patch fill existing data t raw) as [|u us] eqn:Ep.
  - unfold getitem. destruct (dict_get "id" existing) as [i|];
      intros [= <- <-]; left; (split; [exact Hs1|]); [|discriminate].
    intros o [= <-]. auto.
  - unfold getitem. destruct (dict_get "id" existing) as [i|] eqn:Ei;
      [|intros [= <- <-]; left; split; [exact Hs1 | discriminate]].
    destruct (patch_unreviewed_school i (u :: us) (fst s1)) as [r2 w2] eqn:E2.
    apply patch_school_cases in E2.
    destruct E2 as [[Hsame [->|[-> Hnil]]]|(-> & Hn & cur & payload & Hin & Hp & Hrows)];
      intros [= <- <-]; cbn [fst].
    + left. split; [exact (same_table_trans _ _ _ Hs1 Hsame)|].
      intros o [= <-]. auto.
    + discriminate Hnil.
    + right. exists i, raw, cur, payload. rewrite Ep, <- E1. auto 10.
Qed.

Lemma insert_new_cases (data : pydict) (name site source : string)
    (t : rank_triple) (s s' : session) (r : exc outcome) :
  insert_new data name site source t s = (r, s') ->
  (same_table (fst s) (fst s') /\
   forall o, r = Ret o -> o = (VNone, "skipped")) \/
  (exists raw,
      r = Ret (VInt (next_id (fst s)), "inserted") /\
      rows (fst s')
      = (rows (fst s)
         ++ [inserted_row data name site source raw (snd (fst t))
               (next_id (fst s))])%list /\
      next_id (fst s') = next_id (fst s) + 1).
Proof.
  unfold insert_new, mbind, mret, on_store. cbv zeta.
  destruct (fold_rank_into_raw _ t s) as [[raw|e] s1] eqn:E1;
    pose proof (fold_raw_same _ _ _ _ _ E1) as Hs1; apply fold_raw_world in E1;
    [|intros [= <- <-]; left; split; [exact Hs1 | discriminate]].
  unfold http_post.
  destruct (next_reply (fst s1)) as [rep w2] eqn:E2.
  apply next_reply_rows in E2 as [R2 N2].
  destruct rep; cbn [status_code body]; intros [= <- <-]; cbn [fst rows next_id].
  - right. exists raw. rewrite R2, N2, E1. auto.
  - left. split; [split; congruence|]. now intros o [= <-].
  - left. split; [split; congruence | discriminate].
Qed.

Lemma enrich_cases (data : pydict) (fill : bool) (w : world) :
  let result := enrich_or_insert_unreviewed_school data fill w in
  let o := fst (fst result) in
  let w' := snd (fst result) in
  (same_table w w' /\ snd o = "skipped" /\
   (fst o = VNone \/ exists row, In row (rows w) /\ dict_get "id" row = Some (fst o)))
  \/
  (exists name site source raw,
      o = (VInt (next_id w), "inserted") /\
      rows w'
      = (rows w
         ++ [inserted_row data name site source raw
               (snd (fst (_normalize_qs_ranking (dget data "qs_ranking"))))
               (next_id w)])%list /\
      next_id w' = next_id w + 1)
  \/
  (exists existing raw current payload,
      o = (fst o, "enriched") /\
      In existing (rows w) /\
      dict_get "id" existing = Some (fst o) /\
      In current (rows w) /\
      patch_payload current
        (staged_patch fill existing data
           (_normalize_qs_ranking (dget data "qs_ranking")) raw) = Ret payload /\
      rows w' = map (update_row (fst o) payload) (rows w) /\
      next_id w' = next_id w).
Proof.
  cbv zeta. unfold enrich_or_insert_unreviewed_school.
  destruct (enrich_body fill (w, data)) as [r [w' d']] eqn:E. cbn [fst snd].
  assert (Hskip : same_table w w ) by (split; reflexivity).
  revert E. unfold enrich_body, mbind, the_data, lift, on_store. cbn [fst snd].
  destruct (py_strip _) as [name|e];
    [|intros [= <- <- <-]; left; cbn; auto].
  destruct (py_strip _) as [site|e];
    [|intros [= <- <- <-]; left; cbn; auto].
  destruct (py_strip _) as [source|e];
    [|intros [= <- <- <-]; left; cbn; auto].
  destruct (get_unreviewed_school_by_match VNone (or_none site) (or_none name) w)
    as [r1 w1] eqn:E1.
  apply lookup_sound in E1 as (R1 & N1 & o & -> & Hin).
  assert (Hins : insert_new data name site source
                   (_normalize_qs_ranking (dget data "qs_ranking")) (w1, data)
                 = (r, (w', d')) ->
                 (same_table w w' /\
                  snd (try_except r (fun _ => (VNone, "skipped"))) = "skipped" /\
                  (fst (try_except r (fun _ => (VNone, "skipped"))) = VNone \/
                   exists row, In row (rows w) /\
                     dict_get "id" row
                     = Some (fst (try_except r (fun _ => (VNone, "skipped")))))) \/
                 (exists name site source raw,
                     try_except r (fun _ => (VNone, "skipped"))
                     = (VInt (next_id w), "inserted") /\
                     rows w'
                     = (rows w
                        ++ [inserted_row data name site source raw
                              (snd (fst (_normalize_qs_ranking (dget data "qs_ranking"))))
                              (next_id w)])%list /\
                     next_id w' = next_id w + 1) \/
                 (exists existing raw current payload,
                     try_except r (fun _ => (VNone, "skipped"))
                     = (fst (try_except r (fun _ => (VNone, "skipped"))), "enriched") /\
                     In existing (rows w) /\
                     dict_get "id" existing
                     = Some (fst (try_except r (fun _ => (VNone, "skipped")))) /\
                     In current (rows w) /\
                     patch_payload current
                       (staged_patch fill existing data
                          (_normalize_qs_ranking (dget data "qs_ranking")) raw)
                     = Ret payload /\
                     rows w' = map (update_row
                                      (fst (try_except r (fun _ => (VNone, "skipped"))))
                                      payload) (rows w) /\
                     next_id w' = next_id w)).
  { intros H. apply insert_new_cases in H. cbn [fst] in H.
    destruct H as [[[Hr Hn] Ho]|(raw & -> & Hrows & Hn)].
    - left. split; [split; congruence|].
      destruct r as [o0|e]; cbn [try_except]; [rewrite (Ho o0 eq_refl)|]; cbn; auto.
    - right; left. exists name, site, source, raw. cbn [try_except].
      rewrite Hrows, Hn, R1, N1. auto. }
  destruct o as [row|]; [|exact Hins].
  destruct (truthy (VDict row)); [|exact Hins].
  intros H. apply enrich_existing_cases in H. cbn [fst] in H.
  destruct H as [[[Hr Hn] Ho]|(i & raw & cur & payload & -> & Hi & Hcur & Hp & Hrows & Hn)].
  - left. split; [split; congruence|].
    destruct r as [o0|e]; cbn [try_except]; [|cbn; auto].
    destruct (Ho o0 eq_refl) as [Hs [Hnone|Hid]]; split; auto.
    right. exists row. split; [now apply Hin | exact Hid].
  - right; right. exists row, raw, cur, payload. cbn [try_except fst].
    rewrite R1 in Hcur, Hrows. split; [reflexivity|].
    split; [now apply Hin|]. split; [exact Hi|]. split; [exact Hcur|].
    split; [exact Hp|]. split; [exact Hrows | congruence].
Qed.

Lemma dict_get_merge_absent (f : string) (new : pydict) :
  forall old, dict_mem f new = false ->
              dict_get f (dict_merge old new) = dict_get f old.
Proof.
  unfold dict_merge, dict_mem.
  induction new as [|[k v] r IH]; intros old H; simpl in *; [reflexivity|].
  destruct (String.eqb_spec k f) as [->|Hne]; [discriminate|].
  rewrite (IH _ H), dict_get_set_other by congruence. reflexivity.
Qed.

Lemma dict_get_merge (k : string) (new : pydict) :
  nodup_keys new = true ->
  forall old,
    dict_get k (dict_merge old new)
    = match dict_get k new with
      | Some v => Some v
      | None => dict_get k old
      end.
Proof.
  unfold dict_merge.
  induction new as [|[k0 v0] r IH]; intros Hn old; simpl in *; [reflexivity|].
  apply andb_true_iff in Hn as [Hk Hr]. apply negb_true_iff in Hk.
  rewrite (IH Hr).
  destruct (String.eqb_spec k0 k) as [->|Hne].
  - now rewrite (dict_mem_get _ _ Hk), dict_get_set_same.
  - rewrite dict_get_set_other by congruence. reflexivity.
Qed.

Lemma nodup_keys_drop_none (d : pydict) :
  nodup_keys d = true -> nodup_keys (drop_none d) = true.
Proof.
  induction d as [|[k v] r IH]; simpl; [reflexivity|].
  intros H. apply andb_true_iff in H as [Hk Hr]. apply negb_true_iff in Hk.
  destruct (negb (is_none v)); simpl; [|now apply IH].
  now rewrite (dict_mem_drop_none _ _ Hk), (IH Hr).
Qed.

Lemma nodup_keys_remove (k : string) (d : pydict) :
  nodup_keys d = true ->
  nodup_keys (dict_remove k d) = true /\ dict_get k (dict_remove k d) = None.
Proof.
  induction d as [|[k0 v0] r IH]; simpl; [auto|].
  intros H. apply andb_true_iff in H as [Hk Hr]. apply negb_true_iff in Hk.
  destruct (String.eqb_spec k0 k) as [->|Hne].
  - split; [exact Hr | now apply dict_mem_get].
  - destruct (IH Hr) as [IH1 IH2]. simpl.
    rewrite (dict_mem_remove _ _ _ Hk), IH1.
    destruct (String.eqb_spec k0 k); [contradiction | auto].
Qed.

Lemma stage_fields_keys (fill : bool) (existing data : pydict) :
  nodup_keys (stage_fields fill existing data) = true /\
  forall f, dict_mem f (stage_fields fill existing data) = true ->
            In f candidate_fields.
Proof.
  unfold stage_fields.
  set (step := fun (patch : pydict) (f : string) =>
                 if fill
                 then (if _is_empty_value (dget existing f)
                          && negb (_is_empty_value (dget data f))
                       then dict_set f (dget data f) patch else patch)
                 else (if negb (is_none (dget data f))
                       then dict_set f (dget data f) patch else patch)).
  assert (Hstep : forall patch f,
             nodup_keys patch = true ->
             nodup_keys (step patch f) = true /\
             forall g, dict_mem g (step patch f) = true ->
                       g = f \/ dict_mem g patch = true).
  { intros patch f Hp. unfold step.
    assert (Hset : nodup_keys (dict_set f (dget data f) patch) = true /\
                   forall g, dict_mem g (dict_set f (dget data f) patch) = true ->
                             g = f \/ dict_mem g patch = true).
    { split; [now apply nodup_keys_set|]. intros g. rewrite dict_mem_set.
      intros H. apply orb_true_iff in H as [H|H]; [|now right].
      apply String.eqb_eq in H. now left. }
    destruct fill;
      [destruct (_is_empty_value (dget existing f)
                 && negb (_is_empty_value (dget data f)))
      |destruct (negb (is_none (dget data f)))];
      auto. }
  assert (G : forall l acc,
             nodup_keys acc = true ->
             nodup_keys (fold_left step l acc) = true /\
             forall g, dict_mem g (fold_left step l acc) = true ->
                       In g l \/ dict_mem g acc = true).
  { induction l as [|f l IH]; intros acc Hacc; simpl; [auto|].
    destruct (Hstep acc f Hacc) as [H1 H2].
    destruct (IH _ H1) as [H3 H4]. split; [exact H3|].
    intros g Hg. apply H4 in Hg as [Hg|Hg]; [auto|].
    apply H2 in Hg as [->|Hg]; auto. }
  destruct (G candidate_fields [] eq_refl) as [H1 H2].
  split; [exact H1|]. intros f Hf. apply H2 in Hf as [Hf|Hf]; [exact Hf | discriminate].
Qed.

Lemma staged_patch_keys (fill : bool) (existing data : pydict)
    (t : rank_triple) (raw : pyval) :
  nodup_keys (staged_patch fill existing data t raw) = true /\
  forall f, dict_mem f (staged_patch fill existing data t raw) = true ->
            In f scalar_fields \/ f = "raw_data".
Proof.
  destruct (stage_fields_keys fill existing data) as [H1 H2].
  unfold staged_patch. cbv zeta.
  assert (G : nodup_keys (stage_rank fill existing (snd (fst t))
                            (stage_fields fill existing data)) = true /\
              forall f, dict_mem f (stage_rank fill existing (snd (fst t))
                                      (stage_fields fill existing data)) = true ->
                        In f scalar_fields).
  { unfold stage_rank, scalar_fields.
    destruct (snd (fst t)) as [n|].
    - destruct ((fill && _is_empty_value (dget existing "qs_ranking")) || negb fill).
      + split; [now apply nodup_keys_set|]. intros f. rewrite dict_mem_set.
        intros H. apply in_or_app. apply orb_true_iff in H as [H|H].
        * apply String.eqb_eq in H. right. now left.
        * left. now apply H2.
      + split; [exact H1|]. intros f H. apply in_or_app. left. now apply H2.
    - split; [exact H1|]. intros f H. apply in_or_app. left. now apply H2. }
  destruct G as [G1 G2]. destruct (truthy raw).
  - split; [now apply nodup_keys_set|]. intros f. rewrite dict_mem_set.
    intros H. apply orb_true_iff in H as [H|H]; [|left; now apply G2].
    apply String.eqb_eq in H. now right.
  - split; [exact G1|]. intros f H. left. now apply G2.
Qed.

Lemma patch_payload_keys (current updates payload : pydict) :
  nodup_keys updates = true ->
  patch_payload current updates = Ret payload ->
  nodup_keys payload = true /\
  (dict_get "qs_ranking" payload = None \/
   exists n, dict_get "qs_ranking" payload = Some (VInt n)).
Proof.
  intros Hn H. unfold patch_payload in H.
  pose proof (nodup_keys_drop_none _ Hn) as Hd.
  destruct (dict_mem "qs_ranking" (drop_none updates)) eqn:Eq.
  - destruct (_normalize_qs_ranking (dget (drop_none updates) "qs_ranking"))
      as [[disp rmin] rmax].
    destruct (as_mapping (py_or (dget current "raw_data") (VDict []))) as [o|];
      [|discriminate].
    destruct (as_mapping (py_or (dget updates "raw_data") (VDict []))) as [n|];
      [|discriminate].
    cbn [bind] in H.
    destruct (annotate_rank (VDict (dict_merge o n)) (disp, rmin, rmax)) as [m|];
      [|discriminate].
    cbn [bind] in H. injection H as <-.
    rewrite dict_get_set_other by discriminate.
    destruct rmin as [k|].
    + split; [now repeat apply nodup_keys_set|].
      right. exists k. apply dict_get_set_same.
    + destruct (nodup_keys_remove "qs_ranking" _ Hd) as [R1 R2].
      split; [now apply nodup_keys_set | now left].
  - assert (G : dict_get "qs_ranking" (drop_none updates) = None)
      by now apply dict_mem_get.
    assert (G' : forall v, nodup_keys (dict_set "raw_data" v (drop_none updates)) = true /\
                           (dict_get "qs_ranking" (dict_set "raw_data" v (drop_none updates))
                            = None \/
                            exists n, dict_get "qs_ranking"
                                        (dict_set "raw_data" v (drop_none updates))
                                      = Some (VInt n))).
    { intros v. split; [now apply nodup_keys_set|]. left.
      rewrite dict_get_set_other by discriminate. exact G. }
    destruct (dict_mem "raw_data" updates); [|injection H as <-; auto].
    destruct (py_or (dget current "raw_data") (VDict []));
      destruct (py_or (dget updates "raw_data") (VDict []));
      injection H as <-; solve [auto | apply G'].
Qed.

Lemma staged_payload_id (fill : bool) (existing data current payload : pydict)
    (t : rank_triple) (raw : pyval) :
  patch_payload current (staged_patch fill existing data t raw) = Ret payload ->
  dict_mem "id" payload = false.
Proof.
  intros H. apply (patch_payload_mem _ _ _ "id" H); [discriminate|].
  destruct (dict_mem "id" (staged_patch fill existing data t raw)) eqn:E;
    [|reflexivity].
  apply staged_patch_keys in E as [E|E]; [|discriminate].
  unfold scalar_fields, candidate_fields in E. simpl in E.
  repeat (destruct E as [E|E]; [discriminate|]). contradiction.
Qed.

Lemma update_row_id (i : pyval) (payload row : pydict) :
  dict_mem "id" payload = false ->
  dict_get "id" (update_row i payload row) = dict_get "id" row.
Proof.
  intros H. unfold update_row.
  destruct (row_matches (ById i) row); [|reflexivity].
  now apply dict_get_merge_absent.
Qed.

Lemma inserted_field (data : pydict) (name site source : string) (raw : pyval)
    (rmin : option Z) (n : Z) (f : string) :
  String.eqb "id" f = false ->
  dget (inserted_row data name site source raw rmin n) f
  = dget (dict_set "raw_data" raw (build_insert_payload data name site source rmin)) f.
Proof.
  intros Hf. unfold inserted_row, dget at 1. cbn [dict_get]. rewrite Hf.
  change (match dict_get f (drop_none ?L) with Some v => v | None => VNone end)
    with (dget (drop_none L) f).
  apply dget_drop_none. reflexivity.
Qed.

Lemma Z_to_string_inj (a b : Z) : Z_to_string a = Z_to_string b -> a = b.
Proof.
  intros H. apply (f_equal py_int) in H.
  rewrite !py_int_Z_to_string in H. now injection H.
Qed.

(** ** Failures inside the entry point *)

Lemma lookup_dropped (site name : pyval) (w : world) (rest : list reply) :
  replies w = Dropped :: rest ->
  truthy site || truthy name = true ->
  get_unreviewed_school_by_match VNone site name w
  = (Ret None, mkWorld (rows w) (next_id w) rest (misread w)).
Proof.
  intros Hr Hany.
  assert (D : forall q, first_row q w
                        = (Raise NetworkError,
                           mkWorld (rows w) (next_id w) rest (misread w))).
  { intros q. unfold first_row, mbind, http_get, next_reply. now rewrite Hr. }
  unfold get_unreviewed_school_by_match, mtry, mbind, mret. cbn [truthy].
  destruct (truthy site).
  { now rewrite D. }
  destruct (truthy name); [|discriminate]. now rewrite D.
Qed.

(** C9 (amended): for every candidate, flag and store the entry point
    returns a pair whose action is "inserted", "enriched" or "skipped".
    When its body raises (a name, website or source that is not a text, a
    rank folded into a payload that is not a mapping, a matched row without
    an id, an insert request that raises) the value returned is
    (None, "skipped") and the table is as it was.  A lookup request that
    raises is not reported so: it is caught inside the lookup and read as
    no match, and the call goes on to insert.  When the first lookup
    request raises and the insert is served, a well-formed candidate with a
    name or a website is "inserted" under the next identity, whatever rows
    the table holds. *)
Theorem reconcile_failures (data : pydict) (fill : bool) (w : world) :
  let result := enrich_or_insert_unreviewed_school data fill w in
  let o := fst (fst result) in
  let w' := snd (fst result) in
  (snd o = "inserted" \/ snd o = "enriched" \/ snd o = "skipped") /\
  (forall e, fst (enrich_body fill (w, data)) = Raise e ->
             o = (VNone, "skipped") /\ same_table w w') /\
  (well_formed_candidate data = true ->
   identifiable data = true ->
   replies w = [Dropped] ->
   o = (VInt (next_id w), "inserted") /\
   rows w' = (rows w ++ [created_row data (next_id w)])%list).
Proof.
  cbv zeta. split; [|split].
  - unfold enrich_or_insert_unreviewed_school.
    destruct (enrich_body fill (w, data)) as [r [w' d']] eqn:E. cbn [fst snd].
    destruct r as [o|e]; cbn [try_except].
    + now apply enrich_body_action in E.
    + right; right; reflexivity.
  - intros e He.
    assert (Ho : fst (fst (enrich_or_insert_unreviewed_school data fill w))
                 = (VNone, "skipped")).
    { unfold enrich_or_insert_unreviewed_school.
      destruct (enrich_body fill (w, data)) as [r [w' d']]. cbn [fst] in He.
      subst r. reflexivity. }
    split; [exact Ho|].
    pose proof (enrich_cases data fill w) as H. cbv zeta in H.
    rewrite Ho in H. cbn [fst snd] in H.
    destruct H as [(Hsame & _)
                  |[(nm & site & source & raw & Hins & _)
                   |(existing & raw & cur & payload & Henr & _)]];
      [exact Hsame | discriminate Hins | discriminate Henr].
  - intros Hwf Hi Hr.
    destruct (well_formed_parts data Hwf) as (Hn & Hu & Hw & Hs & Hp).
    unfold enrich_or_insert_unreviewed_school, enrich_body, mbind, the_data,
      lift, on_store.
    cbn [fst snd].
    rewrite (py_strip_text _ Hn), (py_strip_text _ (text_or_none_or _ _ Hu Hw)),
      (py_strip_text _ Hs).
    fold (candidate_name data) (candidate_site data) (candidate_source data).
    rewrite (lookup_dropped _ _ w [] Hr).
    2:{ rewrite !truthy_or_none. unfold identifiable in Hi.
        now rewrite orb_comm. }
    rewrite (insert_new_served data (mkWorld (rows w) (next_id w) [] (misread w))
               Hp eq_refl).
    cbn [fst snd rows next_id].
    split; reflexivity.
Qed.

Lemma reconcile_failures_witness :
  let row := [("id", VInt 1); ("name", VStr "Example University")] in
  let w := mkWorld [row] 2 [Dropped] refusing in
  let data := [("name", VStr "Example University")] in
  well_formed_candidate data = true /\
  identifiable data = true /\
  replies w = [Dropped] /\
  fst (fst (enrich_or_insert_unreviewed_school data true w)) = (VInt 2, "inserted").
Proof.
  intros row w data.
  split; [reflexivity|]. split; [reflexivity|]. split; [reflexivity|].
  exact (proj1 (proj2 (proj2 (reconcile_failures data true w))
                  eq_refl eq_refl eq_refl)).
Defined.

(** C9, counterexample to "every internal failure is reported as
    (None, skipped)": the table holds a row named as the candidate, the
    request of the lookup by name raises, and the entry point returns
    (2, "inserted") and leaves two rows of that name. *)
Lemma lookup_failure_inserts :
  let row := [("id", VInt 1); ("name", VStr "Example University")] in
  let w := mkWorld [row] 2 [Dropped] refusing in
  let data := [("name", VStr "Example University")] in
  let result := enrich_or_insert_unreviewed_school data true w in
  fst (first_row (ByName "Example University") w) = Raise NetworkError /\
  find (row_matches (ByName "Example University")) (rows w) = Some row /\
  fst (fst result) = (VInt 2, "inserted") /\
  fst (fst result) <> (VNone, "skipped") /\
  map (fun r => dget r "name") (rows (snd (fst result)))
  = [VStr "Example University"; VStr "Example University"].
Proof.
  cbv zeta. split; [reflexivity|]. split; [reflexivity|].
  split; [vm_compute; reflexivity|]. split; [vm_compute; discriminate|].
  vm_compute. reflexivity.
Qed.

(** X1: what an outcome of [enrich_or_insert_unreviewed_school] says about
    the table, for every candidate, mode and behaviour of the store.
    "skipped" leaves the table as it was; "inserted" appends exactly one
    row, whose id is the one returned; "enriched" adds and removes no row
    and leaves every row alone whose id is not the one returned; and an id
    that is returned is the id of a row of the resulting table. *)
Theorem reconcile_effects (data : pydict) (fill : bool) (w : world) :
  let result := enrich_or_insert_unreviewed_school data fill w in
  let o := fst (fst result) in
  let w' := snd (fst result) in
  (snd o = "skipped" -> same_table w w') /\
  (snd o = "inserted" ->
   fst o = VInt (next_id w) /\ next_id w' = next_id w + 1 /\
   exists new, rows w' = (rows w ++ [new])%list /\ dict_get "id" new = Some (fst o)) /\
  (snd o = "enriched" ->
   next_id w' = next_id w /\ List.length (rows w') = List.length (rows w) /\
   forall n row, nth_error (rows w) n = Some row ->
                 row_matches (ById (fst o)) row = false ->
                 nth_error (rows w') n = Some row) /\
  (fst o = VNone \/
   exists row, In row (rows w') /\ dict_get "id" row = Some (fst o)).
Proof.
  intros result o w'. pose proof (enrich_cases data fill w) as H.
  cbv zeta in H. fold result in H. fold o w' in H.
  destruct H as [(Hsame & Hact & Hid)
                |[(name & site & source & raw & Ho & Hrows & Hn)
                 |(existing & raw & cur & payload & Ho & Hin & Hi & Hcur & Hp & Hrows & Hn)]].
  - split; [auto|]. split; [rewrite Hact; discriminate|].
    split; [rewrite Hact; discriminate|].
    destruct Hid as [Hid|(row & Hrow & Hid)]; [now left|].
    right. exists row. destruct Hsame as [Hr _]. rewrite Hr. auto.
  - rewrite Ho. cbn [fst snd]. split; [discriminate|].
    split; [|split; [discriminate|]].
    + intros _. split; [reflexivity|]. split; [exact Hn|].
      eexists. split; [exact Hrows | reflexivity].
    + right. eexists. split; [rewrite Hrows; apply in_or_app; right; now left|].
      reflexivity.
  - pose proof (staged_payload_id _ _ _ _ _ _ _ Hp) as Hpid.
    rewrite Ho. cbn [fst snd]. split; [discriminate|]. split; [discriminate|].
    split.
    + intros _. split; [exact Hn|]. split; [now rewrite Hrows, length_map|].
      intros n row Hrow Hm. rewrite Hrows, nth_error_map, Hrow. cbn.
      unfold update_row. now rewrite Hm.
    + right. exists (update_row (fst o) payload existing).
      split; [rewrite Hrows; now apply in_map|].
      now rewrite update_row_id.
Qed.

Lemma reconcile_effects_witness :
  let data := [("name", VStr "Example University"); ("qs_ranking", VStr "=5")] in
  let w := mkWorld [] 1 [] refusing in
  let result := enrich_or_insert_unreviewed_school data true w in
  snd (fst (fst result)) = "inserted" /\
  fst (fst (fst result)) = VInt 1 /\ next_id (snd (fst result)) = 2.
Proof.
  intros data w result.
  assert (H : snd (fst (fst result)) = "inserted") by reflexivity.
  split; [exact H|].
  destruct (proj1 (proj2 (reconcile_effects data true w)) H) as (H1 & H2 & _).
  split; [exact H1 | exact H2].
Defined.

Lemma ids_of_update (i : pyval) (payload : pydict) (l : list pydict) :
  dict_mem "id" payload = false ->
  map (fun row => py_str (dget row "id")) (map (update_row i payload) l)
  = map (fun row => py_str (dget row "id")) l.
Proof.
  intros H. rewrite map_map. apply map_ext. intros row.
  unfold dget. now rewrite update_row_id.
Qed.

Lemma store_ok_step (data : pydict) (fill : bool) (w : world) :
  store_ok w ->
  let w' := snd (fst (enrich_or_insert_unreviewed_school data fill w)) in
  store_ok w' /\ next_id w <= next_id w'.
Proof.
  intros (Hu & Hpos & Hids) w'. pose proof (enrich_cases data fill w) as H.
  cbv zeta in H. fold w' in H. unfold store_ok, ids_unique in *.
  destruct H as [([Hr Hn] & _)
                |[(name & site & source & raw & _ & Hrows & Hn)
                 |(existing & raw & cur & payload & _ & _ & _ & _ & Hp & Hrows & Hn)]].
  - rewrite Hr, Hn. repeat split; try assumption. lia.
  - rewrite Hrows, Hn. split; [|lia].
    split; [|split; [lia|]].
    + rewrite map_app. cbn [map]. apply NoDup_app; repeat split.
      * exact Hu.
      * constructor; [intros [] | constructor].
      * intros s Hs [Hnew|[]]. apply in_map_iff in Hs as (row & Hrow & Hin).
        destruct (Hids row Hin) as (k & Hk & Hlt).
        unfold dget in Hrow, Hnew. rewrite Hk in Hrow.
        cbn [inserted_row dict_get String.eqb Ascii.eqb Bool.eqb] in Hnew.
        cbn [py_str py_repr] in Hrow, Hnew. rewrite <- Hrow in Hnew.
        apply Z_to_string_inj in Hnew. lia.
    + intros row Hin. apply in_app_or in Hin as [Hin|[<-|[]]].
      * destruct (Hids row Hin) as (k & Hk & Hlt). exists k. split; [exact Hk | lia].
      * exists (next_id w). split; [reflexivity | lia].
  - pose proof (staged_payload_id _ _ _ _ _ _ _ Hp) as Hpid.
    rewrite Hrows, Hn. split; [|lia].
    split; [now rewrite ids_of_update|]. split; [exact Hpos|].
    intros row Hin. apply in_map_iff in Hin as (row0 & <- & Hin).
    rewrite (update_row_id _ _ _ Hpid). now apply Hids.
Qed.

(** X2: the identities of the table stay distinct positive integers below
    the next identity through every reconciliation, and the next identity
    never goes down. *)
Theorem store_ok_preserved (data : pydict) (fill : bool) (w : world) :
  store_ok w ->
  let w' := snd (fst (enrich_or_insert_unreviewed_school data fill w)) in
  store_ok w' /\ next_id w <= next_id w'.
Proof.
  intros Hok. exact (store_ok_step data fill w Hok).
Qed.

Lemma store_ok_preserved_witness :
  let w := mkWorld [[("id", VInt 1); ("name", VStr "Example University")]] 2 []
                   refusing in
  let data := [("name", VStr "Other College")] in
  store_ok w /\
  store_ok (snd (fst (enrich_or_insert_unreviewed_school data true w))).
Proof.
  intros w data.
  assert (H : store_ok w).
  { split; [|split]; [|reflexivity|].
    - unfold ids_unique. simpl. constructor; [intros [] | constructor].
    - intros row [<-|[]]. exists 1. split; [reflexivity | simpl; lia]. }
  split; [exact H|]. exact (proj1 (store_ok_preserved data true w H)).
Defined.

(** X3: the scalar rank column only ever holds an integer: if every row
    has an integer or nothing in [qs_ranking], the same is true after any
    reconciliation, whatever rank text the candidate carries and whether
    fields are only filled or overwritten. *)
Theorem rank_column_preserved (data : pydict) (fill : bool) (w : world) :
  rank_column_ok w ->
  rank_column_ok (snd (fst (enrich_or_insert_unreviewed_school data fill w))).
Proof.
  intros Hok. pose proof (enrich_cases data fill w) as H. cbv zeta in H.
  unfold rank_column_ok in *.
  destruct H as [([Hr Hn] & _)
                |[(name & site & source & raw & _ & Hrows & Hn)
                 |(existing & raw & cur & payload & _ & _ & _ & _ & Hp & Hrows & Hn)]];
    rewrite ?Hr, ?Hrows.
  - exact Hok.
  - intros row Hin. apply in_app_or in Hin as [Hin|[<-|[]]]; [now apply Hok|].
    rewrite inserted_field by reflexivity.
    cbn [dict_set build_insert_payload String.eqb Ascii.eqb Bool.eqb dget dict_get].
    now destruct (snd (fst (_normalize_qs_ranking (dget data "qs_ranking")))).
  - destruct (patch_payload_keys _ _ _
                (proj1 (staged_patch_keys fill existing data _ raw)) Hp)
      as [Hnd Hrank].
    intros row Hin. apply in_map_iff in Hin as (row0 & <- & Hin).
    specialize (Hok row0 Hin). unfold update_row.
    destruct (row_matches (ById _) row0); [|exact Hok].
    unfold dget in *. rewrite (dict_get_merge _ _ Hnd).
    destruct Hrank as [->|(n & ->)]; [exact Hok | reflexivity].
Qed.

Lemma rank_column_preserved_witness :
  let w := mkWorld [[("id", VInt 1); ("name", VStr "Example University")]] 2 []
                   refusing in
  let data := [("name", VStr "Example University"); ("qs_ranking", VStr "1001+")] in
  rank_column_ok w /\
  rank_column_ok (snd (fst (enrich_or_insert_unreviewed_school data false w))).
Proof.
  intros w data.
  assert (H : rank_column_ok w) by (intros row [<-|[]]; reflexivity).
  split; [exact H|]. exact (rank_column_preserved data false w H).
Defined.

(** ** Staging, lookups and patches *)

Lemma stage_fields_get (fill : bool) (existing data : pydict) (f : string) :
  dict_get f (stage_fields fill existing data)
  = if is_candidate_field f && field_staged fill existing data f
    then Some (dget data f) else None.
Proof.
  unfold stage_fields, is_candidate_field, field_staged.
  set (step := fun (patch : pydict) (f0 : string) =>
                 if fill
                 then (if _is_empty_value (dget existing f0)
                          && negb (_is_empty_value (dget data f0))
                       then dict_set f0 (dget data f0) patch else patch)
                 else (if negb (is_none (dget data f0))
                       then dict_set f0 (dget data f0) patch else patch)).
  set (cond := fun f0 : string =>
                 if fill
                 then _is_empty_value (dget existing f0)
                      && negb (_is_empty_value (dget data f0))
                 else negb (is_none (dget data f0))).
  change (dict_get f (fold_left step candidate_fields [])
          = if existsb (String.eqb f) candidate_fields && cond f
            then Some (dget data f) else None).
  assert (Hstep : forall patch f0,
             step patch f0 = if cond f0 then dict_set f0 (dget data f0) patch else patch).
  { intros patch f0. unfold step, cond. now destruct fill. }
  assert (G : forall l acc,
             dict_get f (fold_left step l acc)
             = if existsb (String.eqb f) l && cond f
               then Some (dget data f) else dict_get f acc).
  { induction l as [|f0 l IH]; intros acc; simpl; [reflexivity|].
    rewrite IH, Hstep.
    destruct (String.eqb_spec f f0) as [<-|Hne]; simpl.
    - destruct (cond f) eqn:Ec.
      + rewrite dict_get_set_same. now destruct (existsb (String.eqb f) l).
      + now rewrite andb_false_r.
    - destruct (existsb (String.eqb f) l && cond f); [reflexivity|].
      destruct (cond f0); [|reflexivity].
      now rewrite dict_get_set_other. }
  now rewrite G.
Qed.

(** X4: which fields a matched candidate stages.  A candidate field is
    staged with the candidate's value exactly when, in fill-only-empty
    mode, the stored value is empty and the incoming one is not, and in
    override mode, when the incoming value is not [None] (a blank string
    is staged too); the rank is staged as the integer lower bound when
    there is one and the stored rank is empty or the mode is override;
    [raw_data] is staged when the annotated payload is non-empty; nothing
    else is ever staged. *)
Theorem staged_patch_contents (fill : bool) (existing data : pydict)
    (t : rank_triple) (raw : pyval) (f : string) :
  dict_get f (staged_patch fill existing data t raw)
  = if String.eqb f "raw_data" then (if truthy raw then Some raw else None)
    else if String.eqb f "qs_ranking" then
      match snd (fst t) with
      | Some n =>
          if (fill && _is_empty_value (dget existing "qs_ranking")) || negb fill
          then Some (VInt n) else None
      | None => None
      end
    else if is_candidate_field f && field_staged fill existing data f
         then Some (dget data f) else None.
Proof.
  unfold staged_patch. cbv zeta.
  assert (Hrank : dict_get f (stage_rank fill existing (snd (fst t))
                                (stage_fields fill existing data))
                  = if String.eqb f "qs_ranking" then
                      match snd (fst t) with
                      | Some n =>
                          if (fill && _is_empty_value (dget existing "qs_ranking"))
                             || negb fill
                          then Some (VInt n) else None
                      | None => None
                      end
                    else if is_candidate_field f && field_staged fill existing data f
                         then Some (dget data f) else None).
  { unfold stage_rank.
    destruct (String.eqb_spec f "qs_ranking") as [->|Hne].
    - destruct (snd (fst t)) as [n|]; [|now rewrite stage_fields_get].
      destruct ((fill && _is_empty_value (dget existing "qs_ranking")) || negb fill).
      + apply dict_get_set_same.
      + now rewrite stage_fields_get.
    - destruct (snd (fst t)) as [n|]; [|apply stage_fields_get].
      destruct ((fill && _is_empty_value (dget existing "qs_ranking")) || negb fill);
        [rewrite dict_get_set_other by exact Hne|]; apply stage_fields_get. }
  destruct (String.eqb_spec f "raw_data") as [->|Hne].
  - destruct (truthy raw); [apply dict_get_set_same|].
    rewrite Hrank. reflexivity.
  - destruct (truthy raw); [rewrite dict_get_set_other by exact Hne|]; exact Hrank.
Qed.

Lemma lookup_answers (school_id website_url name : pyval) (w : world) :
  wire_safe (py_str website_url) = true ->
  wire_safe (py_str name) = true ->
  exists o,
    fst (get_unreviewed_school_by_match school_id website_url name w) = Ret o /\
    forall row, o = Some row ->
                In row (rows w) /\
                answers school_id website_url name row = true.
Proof.
  intros Hws Hwn.
  unfold get_unreviewed_school_by_match, mtry, mbind, mret, answers.
  assert (Step : forall (c : bool) q w0 r0 w1 row,
             wire_ok q = true ->
             (if c then first_row q else (fun s => (Ret None, s))) w0 = (r0, w1) ->
             r0 = Ret (Some row) ->
             rows w1 = rows w0 /\ In row (rows w0) /\ c && row_matches q row = true).
  { intros [|] q w0 r0 w1 row Hq H Hr.
    - apply first_row_sound in H as (H1 & _ & H3).
      destruct (H3 row Hr) as [Hin Hm]. split; [exact H1|].
      split; [exact Hin | exact (Hm Hq)].
    - injection H as <- <-. discriminate. }
  assert (Keep : forall (c : bool) q w0 r0 w1,
             (if c then first_row q else (fun s => (Ret None, s))) w0 = (r0, w1) ->
             rows w1 = rows w0).
  { intros [|] q w0 r0 w1 H.
    - now apply first_row_sound in H as (H1 & _).
    - now injection H as <- <-. }
  destruct ((if truthy school_id then first_row (ById school_id)
             else (fun s => (Ret None, s))) w) as [r1 w1] eqn:E1.
  pose proof (Keep _ _ _ _ _ E1) as K1.
  destruct r1 as [[row1|]|e1]; cbn [fst].
  + eexists. split; [reflexivity|]. intros row [= <-].
    destruct (Step _ (ById school_id) _ _ _ _ eq_refl E1 eq_refl) as (_ & Hin & Hm).
    split; [exact Hin|]. now rewrite Hm.
  + destruct ((if truthy website_url then first_row (ByWebsite (py_str website_url))
               else (fun s => (Ret None, s))) w1) as [r2 w2] eqn:E2.
    pose proof (Keep _ _ _ _ _ E2) as K2.
    destruct r2 as [[row2|]|e2]; cbn [fst].
    * eexists. split; [reflexivity|]. intros row [= <-].
      destruct (Step _ (ByWebsite (py_str website_url)) _ _ _ _ Hws E2 eq_refl)
        as (_ & Hin & Hm).
      split; [now rewrite <- K1|]. rewrite Hm. apply orb_true_iff. left.
      apply orb_true_r.
    * destruct ((if truthy name then first_row (ByName (py_str name))
                 else (fun s => (Ret None, s))) w2) as [r3 w3] eqn:E3.
      destruct r3 as [[row3|]|e3]; cbn [fst];
        (eexists; split; [reflexivity|]); try discriminate.
      intros row [= <-].
      destruct (Step _ (ByName (py_str name)) _ _ _ _ Hwn E3 eq_refl)
        as (_ & Hin & Hm).
      split; [now rewrite <- K1, <- K2|]. rewrite Hm. apply orb_true_r.
    * eexists. split; [reflexivity | discriminate].
  + eexists. split; [reflexivity | discriminate].
Qed.

Lemma first_row_dropped (q : query) (w : world) (rest : list reply) :
  replies w = Dropped :: rest ->
  fst (first_row q w) = Raise NetworkError.
Proof.
  intros H. unfold first_row, mbind, http_get, next_reply. now rewrite H.
Qed.

(** X5: the lookup never raises, never changes the table, and returns
    nothing or a row of the table.  Its three filters are tried in the
    order id, website, name, a falsy one being skipped, and the first
    that finds a row decides: for a website and a name written in
    characters that the query string carries as they are, and a store that
    serves the requests, the result is the first row with the id, else the
    first row whose website holds the text, else the first row whose name
    does, so that a row returned answers one of the filters given.  The
    three requests share one [try]: when the first request made raises, the
    lookup ends with nothing, whatever a later filter would have found.
    With no filter given it returns nothing without a request. *)
Theorem lookup_contract (school_id website_url name : pyval) (w : world) :
  let result := get_unreviewed_school_by_match school_id website_url name w in
  same_table w (snd result) /\
  (exists o, fst result = Ret o /\
             forall row, o = Some row -> In row (rows w)) /\
  (wire_safe (py_str website_url) = true ->
   wire_safe (py_str name) = true ->
   (forall row, fst result = Ret (Some row) ->
                answers school_id website_url name row = true) /\
   (replies w = [] ->
    result
    = (Ret match (if truthy school_id
                  then find (row_matches (ById school_id)) (rows w) else None) with
           | Some row => Some row
           | None =>
               match (if truthy website_url
                      then find (row_matches (ByWebsite (py_str website_url)))
                                (rows w)
                      else None) with
               | Some row => Some row
               | None =>
                   if truthy name
                   then find (row_matches (ByName (py_str name))) (rows w)
                   else None
               end
           end, w))) /\
  (forall rest,
      replies w = Dropped :: rest ->
      truthy school_id || truthy website_url || truthy name = true ->
      fst result = Ret None) /\
  (truthy school_id = false -> truthy website_url = false -> truthy name = false ->
   result = (Ret None, w)).
Proof.
  cbv zeta. split; [|split; [|split; [|split]]].
  - destruct (get_unreviewed_school_by_match school_id website_url name w)
      as [r w'] eqn:E.
    apply lookup_sound in E as (H1 & H2 & _). now split.
  - destruct (get_unreviewed_school_by_match school_id website_url name w)
      as [r w'] eqn:E.
    apply lookup_sound in E as (_ & _ & o & -> & Ho). now exists o.
  - intros Hws Hwn. split.
    + destruct (lookup_answers school_id website_url name w Hws Hwn)
        as (o & Ho & Hrow).
      intros row Hr. rewrite Ho in Hr. injection Hr as ->.
      now apply Hrow.
    + intros Hr. now apply lookup_served.
  - intros rest Hr Hany.
    unfold get_unreviewed_school_by_match, mtry, mbind, mret.
    assert (D : forall q, exists w', first_row q w = (Raise NetworkError, w')).
    { intros q. pose proof (first_row_dropped q w rest Hr) as H.
      destruct (first_row q w) as [r w']. cbn [fst] in H. subst r. now exists w'. }
    destruct (truthy school_id).
    { destruct (D (ById school_id)) as (w' & ->). reflexivity. }
    destruct (truthy website_url).
    { destruct (D (ByWebsite (py_str website_url))) as (w' & ->). reflexivity. }
    destruct (truthy name); [|discriminate].
    destruct (D (ByName (py_str name))) as (w' & ->). reflexivity.
  - intros H1 H2 H3.
    unfold get_unreviewed_school_by_match, mtry, mbind, mret.
    now rewrite H1, H2, H3.
Qed.

Lemma lookup_contract_witness :
  let row := [("id", VInt 1); ("name", VStr "Example University")] in
  let w := mkWorld [row] 2 [Dropped] refusing in
  replies w = [Dropped] /\
  truthy VNone || truthy VNone || truthy (VStr "Example") = true /\
  find (row_matches (ByName "Example")) (rows w) = Some row /\
  fst (get_unreviewed_school_by_match VNone VNone (VStr "Example") w) = Ret None.
Proof.
  intros row w. split; [reflexivity|]. split; [reflexivity|].
  split; [reflexivity|].
  exact (proj1 (proj2 (proj2 (proj2
           (lookup_contract VNone VNone (VStr "Example") w)))) [] eq_refl eq_refl).
Defined.

Lemma dict_get_remove_other (k k' : string) (d : pydict) :
  k <> k' -> dict_get k (dict_remove k' d) = dict_get k d.
Proof.
  intros Hk. induction d as [|[k0 v0] r IH]; simpl; [reflexivity|].
  destruct (String.eqb_spec k0 k') as [->|Hne].
  - destruct (String.eqb_spec k' k); [congruence | reflexivity].
  - simpl. now rewrite IH.
Qed.

Lemma dict_get_drop_none_gen (k : string) (d : pydict) :
  nodup_keys d = true ->
  dict_get k (drop_none d)
  = match dict_get k d with
    | Some v => if is_none v then None else Some v
    | None => None
    end.
Proof.
  unfold drop_none. induction d as [|[k0 v0] r IH]; simpl; [reflexivity|].
  intros H. apply andb_true_iff in H as [Hk Hr]. apply negb_true_iff in Hk.
  specialize (IH Hr).
  destruct (String.eqb_spec k0 k) as [->|Hne].
  - destruct (is_none v0) eqn:E; simpl.
    + now rewrite IH, (dict_mem_get _ _ Hk).
    + now rewrite String.eqb_refl.
  - destruct (is_none v0); simpl; [exact IH|].
    destruct (String.eqb_spec k0 k); [contradiction | exact IH].
Qed.

Lemma patch_payload_other (current updates payload : pydict) (f : string) :
  patch_payload current updates = Ret payload ->
  f <> "raw_data" -> f <> "qs_ranking" ->
  dict_get f payload = dict_get f (drop_none updates).
Proof.
  intros H Hr Hq. unfold patch_payload in H.
  destruct (dict_mem "qs_ranking" (drop_none updates)).
  - destruct (_normalize_qs_ranking (dget (drop_none updates) "qs_ranking"))
      as [[disp rmin] rmax].
    destruct (as_mapping (py_or (dget current "raw_data") (VDict []))) as [o|];
      [|discriminate].
    destruct (as_mapping (py_or (dget updates "raw_data") (VDict []))) as [n|];
      [|discriminate].
    cbn [bind] in H.
    destruct (annotate_rank (VDict (dict_merge o n)) (disp, rmin, rmax)) as [m|];
      [|discriminate].
    cbn [bind] in H. injection H as <-.
    rewrite dict_get_set_other by exact Hr.
    destruct rmin; [now rewrite dict_get_set_other | now rewrite dict_get_remove_other].
  - destruct (dict_mem "raw_data" updates); [|now injection H as <-].
    destruct (py_or (dget current "raw_data") (VDict []));
      destruct (py_or (dget updates "raw_data") (VDict []));
      injection H as <-; try reflexivity.
    now rewrite dict_get_set_other.
Qed.

(** X6: [patch_unreviewed_school] never raises, and its answer [False]
    means that nothing was written.  An empty update answers [True]
    without any request; a falsy id, or an id no row of the table carries,
    answers [False] and leaves the table as it was. *)
Theorem patch_contract (school_id : pyval) (updates : pydict) (w : world) :
  let result := patch_unreviewed_school school_id updates w in
  (exists ok, fst result = Ret ok /\
              (ok = false -> same_table w (snd result))) /\
  (updates = [] -> result = (Ret true, w)) /\
  (updates <> [] -> truthy school_id = false -> result = (Ret false, w)) /\
  (updates <> [] ->
   (forall row, In row (rows w) -> row_matches (ById school_id) row = false) ->
   fst result = Ret false /\ same_table w (snd result)).
Proof.
  cbv zeta. split; [|split; [|split]].
  - destruct (patch_unreviewed_school school_id updates w) as [r w'] eqn:E.
    apply patch_school_cases in E. cbn [fst snd].
    destruct E as [[Hsame [->|[-> _]]]|(-> & _)].
    + exists false. auto.
    + exists true. split; [reflexivity | discriminate].
    + exists true. split; [reflexivity | discriminate].
  - intros ->. reflexivity.
  - intros Hne Hid. destruct updates as [|u us]; [contradiction|].
    unfold patch_unreviewed_school, mtry, mbind,
      get_unreviewed_school_by_match, mret.
    rewrite Hid. reflexivity.
  - intros Hne Hnone. destruct updates as [|u us]; [contradiction|].
    unfold patch_unreviewed_school, mtry, mbind.
    destruct (get_unreviewed_school_by_match school_id VNone VNone w)
      as [r1 w1] eqn:E1.
    pose proof (lookup_answers school_id VNone VNone w eq_refl eq_refl)
      as (o & Hl & Ho).
    rewrite E1 in Hl. cbn [fst] in Hl. subst r1.
    apply lookup_sound in E1 as (Hr1 & Hn1 & _).
    assert (Hsame : same_table w w1) by (split; assumption).
    destruct o as [row|]; [|split; [reflexivity | exact Hsame]].
    destruct (Ho row eq_refl) as [Hin Hans]. unfold answers in Hans.
    rewrite (Hnone row Hin) in Hans. cbn in Hans.
    rewrite andb_false_r in Hans. discriminate.
Qed.

Lemma patch_contract_witness :
  let w := mkWorld [[("id", VInt 1); ("name", VStr "Example University")]] 2 []
                   refusing in
  let updates := [("country", VStr "Freedonia")] in
  updates <> [] /\
  (forall row, In row (rows w) -> row_matches (ById (VInt 7)) row = false) /\
  fst (patch_unreviewed_school (VInt 7) updates w) = Ret false.
Proof.
  intros w updates.
  assert (H1 : updates <> []) by discriminate.
  assert (H2 : forall row, In row (rows w) -> row_matches (ById (VInt 7)) row = false)
    by (intros row [<-|[]]; reflexivity).
  split; [exact H1|]. split; [exact H2|].
  exact (proj1 (proj2 (proj2 (proj2 (patch_contract (VInt 7) updates w))) H1 H2)).
Defined.

Lemma patch_served (i : pyval) (updates current payload : pydict) (w : world) :
  replies w = [] ->
  updates <> [] ->
  truthy i = true ->
  find (row_matches (ById i)) (rows w) = Some current ->
  patch_payload current updates = Ret payload ->
  patch_unreviewed_school i updates w
  = (Ret true, mkWorld (map (update_row i payload) (rows w)) (next_id w) [] (misread w)).
Proof.
  intros Hr Hne Hi Hfind Hp. destruct updates as [|u us]; [contradiction|].
  unfold patch_unreviewed_school, mtry, mbind.
  rewrite (lookup_served i VNone VNone w eq_refl eq_refl Hr), Hi, Hfind.
  unfold lift. rewrite Hp.
  unfold http_patch, next_reply. rewrite Hr. cbn [status_code]. rewrite Hr.
  reflexivity.
Qed.

(** X7: a served patch is read back.  When the store serves the requests,
    the row with the given id is patched, and for every column other than
    [raw_data] and [qs_ranking] it then holds the update's value, unless
    that value is [None]: a [None] in an update never clears a column.
    Rows with another id are not touched. *)
Theorem patch_round_trip (i : pyval) (updates current payload : pydict)
    (w : world) :
  replies w = [] ->
  updates <> [] ->
  nodup_keys updates = true ->
  truthy i = true ->
  find (row_matches (ById i)) (rows w) = Some current ->
  patch_payload current updates = Ret payload ->
  let result := patch_unreviewed_school i updates w in
  fst result = Ret true /\
  rows (snd result) = map (update_row i payload) (rows w) /\
  (forall row, row_matches (ById i) row = false -> update_row i payload row = row) /\
  (forall row f,
      row_matches (ById i) row = true ->
      f <> "raw_data" -> f <> "qs_ranking" ->
      dget (update_row i payload row) f
      = if is_none (dget updates f) then dget row f else dget updates f).
Proof.
  intros Hr Hne Hnd Hi Hfind Hp result.
  unfold result. rewrite (patch_served _ _ _ _ _ Hr Hne Hi Hfind Hp).
  cbn [fst snd rows]. split; [reflexivity|]. split; [reflexivity|].
  split.
  - intros row Hm. unfold update_row. now rewrite Hm.
  - intros row f Hm Hf1 Hf2. unfold update_row. rewrite Hm.
    destruct (patch_payload_keys _ _ _ Hnd Hp) as [Hpn _].
    unfold dget. rewrite (dict_get_merge _ _ Hpn).
    rewrite (patch_payload_other _ _ _ f Hp Hf1 Hf2).
    rewrite (dict_get_drop_none_gen _ _ Hnd).
    destruct (dict_get f updates) as [v|]; [|reflexivity].
    now destruct (is_none v).
Qed.

Lemma patch_round_trip_witness :
  let row := [("id", VInt 1); ("name", VStr "Example University");
              ("country", VStr "Freedonia")] in
  let w := mkWorld [row] 2 [] refusing in
  let updates := [("country", VNone); ("location", VStr "City X")] in
  replies w = [] /\ updates <> [] /\ nodup_keys updates = true /\
  truthy (VInt 1) = true /\
  find (row_matches (ById (VInt 1))) (rows w) = Some row /\
  patch_payload row updates = Ret [("location", VStr "City X")] /\
  fst (patch_unreviewed_school (VInt 1) updates w) = Ret true /\
  rows (snd (patch_unreviewed_school (VInt 1) updates w))
  = [[("id", VInt 1); ("name", VStr "Example University");
      ("country", VStr "Freedonia"); ("location", VStr "City X")]].
Proof.
  intros row w updates.
  assert (Hne : updates <> []) by discriminate.
  split; [reflexivity|]. split; [exact Hne|]. split; [reflexivity|].
  split; [reflexivity|]. split; [reflexivity|]. split; [reflexivity|].
  destruct (patch_round_trip (VInt 1) updates row [("location", VStr "City X")] w
              eq_refl Hne eq_refl eq_refl eq_refl eq_refl) as (H1 & H2 & _).
  split; [exact H1 | exact H2].
Defined.

Lemma with_rank_other (t : rank_triple) (d : pydict) (k : string) :
  is_rank_key k = false -> dict_get k (with_rank t d) = dict_get k d.
Proof.
  unfold is_rank_key. intros H.
  apply orb_false_iff in H as [H H3]. apply orb_false_iff in H as [H1 H2].
  apply String.eqb_neq in H1, H2, H3.
  destruct t as [[[disp|] [rmin|]] [rmax|]]; cbn [with_rank set_opt option_map];
    rewrite ?dict_get_set_other by assumption; reflexivity.
Qed.

(** X8: the payload of a patch is the union of the stored and the incoming
    [raw_data], and the incoming value wins on a key both have.  This is
    so for every key other than the three the rank triple is recorded
    under, whether or not the update carries a rank. *)
Theorem patch_payload_union (current updates payload incoming : pydict)
    (k : string) :
  patch_payload current updates = Ret payload ->
  dget updates "raw_data" = VDict incoming ->
  incoming <> [] ->
  nodup_keys incoming = true ->
  mapping_or_none (dget current "raw_data") = true ->
  is_rank_key k = false ->
  exists merged,
    dict_get "raw_data" payload = Some (VDict merged) /\
    dict_get k merged
    = match dict_get k incoming with
      | Some v => Some v
      | None => dict_get k (mapping_of (dget current "raw_data"))
      end.
Proof.
  intros Hp Hin Hne Hnd Hold Hk. unfold patch_payload in Hp.
  assert (Hnew : py_or (dget updates "raw_data") (VDict []) = VDict incoming).
  { rewrite Hin. unfold py_or. destruct incoming; [contradiction | reflexivity]. }
  assert (Hold' : exists o, py_or (dget current "raw_data") (VDict []) = VDict o /\
                            forall k, dict_get k o
                                      = dict_get k (mapping_of (dget current "raw_data"))).
  { unfold py_or. destruct (dget current "raw_data") as [| | | | | |o];
      try discriminate Hold.
    - exists []. auto.
    - destruct o as [|x o]; [exists [] | exists (x :: o)]; auto. }
  destruct Hold' as (o & Hold1 & Hold2).
  rewrite Hnew, Hold1 in Hp.
  assert (Hmem : dict_mem "raw_data" updates = true).
  { unfold dict_mem. unfold dget in Hin.
    destruct (dict_get "raw_data" updates); [reflexivity | discriminate]. }
  destruct (dict_mem "qs_ranking" (drop_none updates)).
  - destruct (_normalize_qs_ranking (dget (drop_none updates) "qs_ranking")) as [[disp rmin] rmax].
    cbn [as_mapping bind] in Hp. rewrite annotate_rank_dict in Hp.
    cbn [bind] in Hp. injection Hp as <-.
    eexists. split; [apply dict_get_set_same|].
    change (dict_get k (with_rank (disp, rmin, rmax) (dict_merge o incoming)) = 
            match dict_get k incoming with
            | Some v => Some v
            | None => dict_get k (mapping_of (dget current "raw_data"))
            end).
    now rewrite (with_rank_other _ _ _ Hk), (dict_get_merge _ _ Hnd), Hold2.
  - rewrite Hmem in Hp. injection Hp as <-.
    eexists. split; [apply dict_get_set_same|].
    now rewrite (dict_get_merge _ _ Hnd), Hold2.
Qed.

Lemma patch_payload_union_witness :
  let current := [("id", VInt 1);
                  ("raw_data", VDict [("k2", VStr "old"); ("both", VStr "old")])] in
  let incoming := [("k1", VStr "new"); ("both", VStr "new")] in
  let updates := [("raw_data", VDict incoming)] in
  let payload := [("raw_data", VDict [("k2", VStr "old"); ("both", VStr "new");
                                      ("k1", VStr "new")])] in
  patch_payload current updates = Ret payload /\
  dget updates "raw_data" = VDict incoming /\
  incoming <> [] /\
  nodup_keys incoming = true /\
  mapping_or_none (dget current "raw_data") = true /\
  is_rank_key "both" = false /\
  exists merged,
    dict_get "raw_data" payload = Some (VDict merged) /\
    dict_get "both" merged = Some (VStr "new").
Proof.
  intros current incoming updates payload.
  assert (Hne : incoming <> []) by discriminate.
  split; [reflexivity|]. split; [reflexivity|]. split; [exact Hne|].
  split; [reflexivity|]. split; [reflexivity|]. split; [reflexivity|].
  exact (patch_payload_union current updates payload incoming "both"
           eq_refl eq_refl Hne eq_refl eq_refl eq_refl).
Defined.

(** ** Insertion only: [store_unreviewed_school] *)

Lemma stored_field (data : pydict) (raw : pyval) (q : option Z) (n : Z)
    (f : string) :
  String.eqb "id" f = false ->
  dget (("id", VInt n) :: drop_none (dict_set "raw_data" raw (store_insert_data data q))) f
  = dget (dict_set "raw_data" raw (store_insert_data data q)) f.
Proof.
  intros Hf. unfold dget at 1. cbn [dict_get]. rewrite Hf.
  change (match dict_get f (drop_none ?L) with Some v => v | None => VNone end)
    with (dget (drop_none L) f).
  apply dget_drop_none. reflexivity.
Qed.

(** X9: [store_unreviewed_school] has two outcomes.  Either it answers
    [None] and the table is as it was, or it answers the next identity and
    has appended exactly one row: the row carries that identity, the status
    pending, the lower bound of the normalised rank (or nothing) in the
    scalar rank column, and the candidate's own value in every column that
    is copied. *)
Theorem store_school_contract (school_data : pydict) (w : world) :
  let result := store_unreviewed_school school_data w in
  let school_id := fst (fst result) in
  let w' := snd (fst result) in
  (school_id = VNone /\ same_table w w') \/
  (school_id = VInt (next_id w) /\ next_id w' = next_id w + 1 /\
   exists new,
     rows w' = (rows w ++ [new])%list /\
     dict_get "id" new = Some school_id /\
     dget new "status" = VStr "pending" /\
     dget new "qs_ranking" = of_opt_int (written_rank (dget school_data "qs_ranking")) /\
     forall f, In f copied_columns -> dget new f = dget school_data f).
Proof.
  cbv zeta. unfold store_unreviewed_school, store_body, mbind, the_data, on_store.
  cbv zeta. cbn [fst snd].
  destruct (fold_rank_into_raw _ _ (w, school_data)) as [[raw|e] [w1 d1]] eqn:E1.
  2:{ left. apply fold_raw_same in E1. cbn [fst snd try_except]. split;
      [reflexivity | exact E1]. }
  pose proof (fold_raw_world _ _ _ _ _ E1) as Hw. cbn [fst] in Hw. subst w1.
  cbn [fst snd]. unfold http_post.
  destruct (next_reply w) as [rep w2] eqn:E2.
  destruct (next_reply_rows _ _ _ E2) as [Hr Hn].
  destruct rep.
  - right. cbn [status_code body hd fst snd try_except mret Z.eqb Pos.eqb orb
                rows next_id].
    rewrite Hn, Hr. split; [reflexivity|]. split; [reflexivity|].
    eexists. split; [reflexivity|].
    split; [reflexivity|].
    split; [now rewrite stored_field|].
    split; [now rewrite stored_field|].
    intros f Hf. unfold copied_columns in Hf. cbn [In] in Hf.
    repeat (destruct Hf as [<-|Hf]; [now rewrite stored_field|]).
    contradiction.
  - left. cbn [status_code fst snd try_except mret Z.eqb Pos.eqb orb].
    split; [reflexivity | split; assumption].
  - left. cbn [fst snd try_except]. split; [reflexivity | split; assumption].
Qed.

Lemma store_served (data : pydict) (w : world) :
  payload_ok (dget data "raw_data") = true ->
  replies w = [] ->
  store_unreviewed_school data w
  = (VInt (next_id w),
     mkWorld (rows w ++ [stored_row data (next_id w)]) (next_id w + 1) []
             (misread w),
     candidate_after data).
Proof.
  intros Hp Hr.
  unfold store_unreviewed_school, store_body, mbind, the_data, on_store.
  cbv zeta. cbn [fst snd].
  change (dget (store_insert_data data
                  (snd (fst (_normalize_qs_ranking (dget data "qs_ranking")))))
               "raw_data")
    with (dget_default data "raw_data" (VDict [])).
  rewrite (fold_raw_first data w Hp). cbn [fst snd].
  unfold http_post, next_reply. rewrite Hr.
  cbn [status_code body hd fst snd try_except mret Z.eqb Pos.eqb orb
       rows next_id replies].
  rewrite Hr. reflexivity.
Qed.

Lemma payload_ok_after (data : pydict) :
  payload_ok (dget data "raw_data") = true ->
  payload_ok (dget (candidate_after data) "raw_data") = true.
Proof.
  intros Hp. unfold candidate_after.
  destruct (truthy (dget data "raw_data")); [|exact Hp].
  destruct (noted_is_dict data Hp) as (r & Hr & Hd & _).
  unfold dget. rewrite dict_get_set_same, Hr. exact Hd.
Qed.

Lemma noted_after (data : pydict) :
  payload_ok (dget data "raw_data") = true ->
  noted_payload (candidate_after data) = noted_payload data.
Proof.
  intros Hp. destruct (payload_base_dict data Hp) as (d & Hb & Hd).
  unfold noted_payload at 1.
  rewrite (dget_after_other data "qs_ranking") by discriminate.
  unfold payload_base at 1, candidate_after.
  destruct (truthy (dget data "raw_data")) eqn:Et.
  - unfold dget at 1. rewrite dict_get_set_same.
    unfold noted_payload. rewrite Hb. unfold py_or.
    rewrite truthy_with_rank_kept.
    + now rewrite with_rank_idem.
    + unfold payload_base, py_or in Hb. rewrite Et in Hb. now rewrite <- Hb.
  - fold (payload_base data). unfold noted_payload. now rewrite Hb.
Qed.

Lemma dget_default_after_other (data : pydict) (k : string) (v : pyval) :
  k <> "raw_data" ->
  dget_default (candidate_after data) k v = dget_default data k v.
Proof.
  intros Hk. unfold candidate_after.
  destruct (truthy (dget data "raw_data")); [|reflexivity].
  unfold dget_default. now rewrite dict_get_set_other.
Qed.

Lemma stored_row_after (data : pydict) (n : Z) :
  payload_ok (dget data "raw_data") = true ->
  tl (stored_row (candidate_after data) n) = tl (stored_row data n).
Proof.
  intros Hp. unfold stored_row. cbn [tl].
  rewrite (noted_after data Hp). unfold store_insert_data.
  rewrite !(dget_after_other data) by discriminate.
  rewrite (dget_default_after_other data "confidence_score") by discriminate.
  reflexivity.
Qed.

(** X10: [store_unreviewed_school] does not look for an existing record.
    When the store serves the requests, storing the same candidate a second
    time appends a second row, under the next identity, with the same
    contents as the first. *)
Theorem store_twice (data : pydict) (w : world) :
  payload_ok (dget data "raw_data") = true ->
  replies w = [] ->
  let first := store_unreviewed_school data w in
  let second := store_unreviewed_school (snd first) (snd (fst first)) in
  fst (fst first) = VInt (next_id w) /\
  fst (fst second) = VInt (next_id w + 1) /\
  exists contents,
    rows (snd (fst second))
    = (rows w ++ [("id", VInt (next_id w)) :: contents;
                  ("id", VInt (next_id w + 1)) :: contents])%list.
Proof.
  intros Hp Hr. cbv zeta. rewrite (store_served data w Hp Hr). cbn [fst snd].
  rewrite (store_served (candidate_after data)
             (mkWorld (rows w ++ [stored_row data (next_id w)]) (next_id w + 1) []
             (misread w))
             (payload_ok_after data Hp) eq_refl).
  cbn [fst snd rows next_id]. split; [reflexivity|]. split; [reflexivity|].
  exists (tl (stored_row data (next_id w))).
  rewrite <- app_assoc. cbn [app]. f_equal.
  pose proof (stored_row_after data (next_id w + 1) Hp) as H.
  unfold stored_row in *. cbn [tl] in *. now rewrite H.
Qed.

Lemma store_twice_witness :
  let data := [("name", VStr "Example University"); ("qs_ranking", VStr "=5");
               ("raw_data", VDict [("from", VStr "qs_txt")])] in
  let w := mkWorld [] 1 [] refusing in
  payload_ok (dget data "raw_data") = true /\ replies w = [] /\
  fst (fst (store_unreviewed_school data w)) = VInt 1 /\
  fst (fst (store_unreviewed_school
              (snd (store_unreviewed_school data w))
              (snd (fst (store_unreviewed_school data w))))) = VInt 2.
Proof.
  intros data w. split; [reflexivity|]. split; [reflexivity|].
  destruct (store_twice data w eq_refl eq_refl) as (H1 & H2 & _).
  split; [exact H1 | exact H2].
Defined.

(** ** The loops of [get_page] and [post_data] *)

Lemma request_indices_app (l l' : list event) :
  request_indices (l ++ l') = (request_indices l ++ request_indices l')%list.
Proof. apply flat_map_app. Qed.

Lemma retry_delays_app (l l' : list event) :
  retry_delays (l ++ l') = (retry_delays l + retry_delays l')%nat.
Proof. unfold retry_delays. now rewrite filter_app, length_app. Qed.

Lemma total_app (l l' : list Z) : total (l ++ l') = total l + total l'.
Proof. induction l as [|x l IH]; simpl; [reflexivity | rewrite IH; lia]. Qed.

Lemma get_page_from_outcome (env : Z -> fetch_result) (retries : Z) (todo : nat) :
  forall attempt log,
    Z.of_nat todo = retries + 1 - attempt ->
    (forall k, attempt <= k <= retries ->
               terminal (env k) = true ->
               (forall j, attempt <= j < k -> terminal (env j) = false) ->
               fst (get_page_from env retries todo attempt log) = answer_of (env k) /\
               requests_sent (snd (get_page_from env retries todo attempt log))
               = (requests_sent log + Z.to_nat (k - attempt + 1))%nat) /\
    ((forall j, attempt <= j <= retries -> terminal (env j) = false) ->
     fst (get_page_from env retries todo attempt log) = NoPage /\
     requests_sent (snd (get_page_from env retries todo attempt log))
     = (requests_sent log + todo)%nat).
Proof.
  induction todo as [|todo IH]; intros attempt log Htodo.
  - split.
    + intros k Hk. lia.
    + intros _. simpl. split; [reflexivity | lia].
  - assert (Hle : attempt <= retries) by lia.
    assert (Hnext : Z.of_nat todo = retries + 1 - (attempt + 1)) by lia.
    assert (Hone : forall l, requests_sent ((log ++ [RateLimit; Request attempt]) ++ l)
                             = (requests_sent log + 1 + requests_sent l)%nat).
    { intros l. rewrite !requests_sent_app. reflexivity. }
    split.
    + intros k Hk Hterm Hbefore.
      destruct (Z.eq_dec k attempt) as [->|Hne].
      * cbn [get_page_from]. unfold terminal in Hterm.
        destruct (env attempt) as [code| | |]; try discriminate Hterm.
        cbn [answer_of].
        destruct (code =? 200) eqn:E200.
        { cbn [fst snd]. split; [reflexivity|].
          rewrite requests_sent_app. replace (attempt - attempt + 1) with 1 by lia.
          reflexivity. }
        cbn [orb] in Hterm. rewrite Hterm. cbn [fst snd]. split; [reflexivity|].
        rewrite requests_sent_app. replace (attempt - attempt + 1) with 1 by lia.
        reflexivity.
      * assert (Hcont : forall e,
                   requests_sent [e] = 0%nat ->
                   fst (get_page_from env retries todo (attempt + 1)
                          ((log ++ [RateLimit; Request attempt]) ++ [e]))
                   = answer_of (env k) /\
                   requests_sent
                     (snd (get_page_from env retries todo (attempt + 1)
                             ((log ++ [RateLimit; Request attempt]) ++ [e])))
                   = (requests_sent log + Z.to_nat (k - attempt + 1))%nat).
        { intros e He.
          destruct (proj1 (IH (attempt + 1)
                             ((log ++ [RateLimit; Request attempt]) ++ [e])%list
                             Hnext) k) as [H1 H2];
            [lia | exact Hterm | intros j Hj; apply Hbefore; lia|].
          rewrite H1, H2, Hone, He. split; [reflexivity | lia]. }
        pose proof (Hbefore attempt (ltac:(lia))) as Hnt.
        cbn [get_page_from]. unfold terminal in Hnt.
        assert (Hlt : (attempt <? retries) = true) by (apply Z.ltb_lt; lia).
        destruct (env attempt) as [code| | |]; rewrite ?Hlt;
          try (apply Hcont; reflexivity).
        apply orb_false_iff in Hnt as [-> ->].
        destruct ((code =? 429) || (code =? 503)); apply Hcont; reflexivity.
    + intros Hnone.
      assert (Hcont : forall e,
                 requests_sent [e] = 0%nat ->
                 fst (get_page_from env retries todo (attempt + 1)
                        ((log ++ [RateLimit; Request attempt]) ++ [e])) = NoPage /\
                 requests_sent
                   (snd (get_page_from env retries todo (attempt + 1)
                           ((log ++ [RateLimit; Request attempt]) ++ [e])))
                 = (requests_sent log + S todo)%nat).
      { intros e He.
        destruct (proj2 (IH (attempt + 1) ((log ++ [RateLimit; Request attempt]) ++ [e])%list
                           Hnext)) as [H1 H2];
          [intros j Hj; apply Hnone; lia|].
        rewrite H1, H2, Hone, He. split; [reflexivity | lia]. }
      assert (Hstop : (attempt <? retries) = false -> todo = 0%nat).
      { intros H. apply Z.ltb_ge in H. lia. }
      assert (Hend : (attempt <? retries) = false ->
                     fst (NoPage, (log ++ [RateLimit; Request attempt])%list) = NoPage /\
                     requests_sent (snd (NoPage, (log ++ [RateLimit; Request attempt])%list))
                     = (requests_sent log + S todo)%nat).
      { intros H. rewrite (Hstop H). cbn [fst snd]. split; [reflexivity|].
        rewrite requests_sent_app. reflexivity. }
      pose proof (Hnone attempt (ltac:(lia))) as Hnt.
      cbn [get_page_from]. unfold terminal in Hnt.
      destruct (env attempt) as [code| | |];
        try (destruct (attempt <? retries) eqn:Hlt;
             [apply Hcont; reflexivity | now apply Hend]).
      apply orb_false_iff in Hnt as [-> ->].
      destruct ((code =? 429) || (code =? 503)); [apply Hcont; reflexivity|].
      destruct (attempt <? retries) eqn:Hlt;
        [apply Hcont; reflexivity | now apply Hend].
Qed.

(** X11: what [get_page] returns and how many requests it sends.  The
    first attempt answered with HTTP 200 or 404 ends the loop: the page is
    returned on 200 and nothing on 404, and no further request is sent.
    When no attempt is answered so, nothing is returned after
    [retries + 1] requests.  With a negative [retries] no request is sent
    at all. *)
Theorem get_page_outcome (env : Z -> fetch_result) (retries : Z) :
  let r := get_page env (Some retries) in
  (forall k, 0 <= k <= retries ->
             terminal (env k) = true ->
             (forall j, 0 <= j < k -> terminal (env j) = false) ->
             fst r = answer_of (env k) /\
             requests_sent (snd r) = Z.to_nat (k + 1)) /\
  (0 <= retries ->
   (forall j, 0 <= j <= retries -> terminal (env j) = false) ->
   fst r = NoPage /\ requests_sent (snd r) = Z.to_nat (retries + 1)) /\
  (retries < 0 -> r = (NoPage, [])).
Proof.
  cbv zeta. unfold get_page. split; [|split].
  - intros k Hk Hterm Hbefore.
    destruct (proj1 (get_page_from_outcome env retries (Z.to_nat (retries + 1)) 0 []
                       ltac:(lia)) k Hk Hterm Hbefore) as [H1 H2].
    rewrite H1, H2. split; [reflexivity|]. simpl. f_equal. lia.
  - intros Hr Hnone.
    destruct (proj2 (get_page_from_outcome env retries (Z.to_nat (retries + 1)) 0 []
                       ltac:(lia)) Hnone) as [H1 H2].
    rewrite H1, H2. split; reflexivity.
  - intros Hr. replace (Z.to_nat (retries + 1)) with 0%nat by lia. reflexivity.
Qed.

Lemma get_page_outcome_witness :
  let env := fun k => if k =? 2 then Status 200 else TimeoutException in
  fst (get_page env (Some 3)) = Page 200 /\
  requests_sent (snd (get_page env (Some 3))) = 3%nat.
Proof.
  intros env.
  apply (proj1 (get_page_outcome env 3) 2); [lia | reflexivity|].
  intros j Hj. assert (E : j = 0 \/ j = 1) by lia.
  destruct E as [->| ->]; reflexivity.
Defined.

(** Whatever holds of the empty run, of a run that stops after one request
    and of a run continued after a sleep holds of what the loop of
    [get_page] adds to the log. *)
Lemma get_page_from_run (env : Z -> fetch_result) (retries : Z)
    (P : nat -> Z -> list event -> Prop) :
  (forall attempt, P O attempt []) ->
  (forall todo attempt, P (S todo) attempt [RateLimit; Request attempt]) ->
  (forall todo attempt l,
      P todo (attempt + 1) l ->
      P (S todo) attempt
        (RateLimit :: Request attempt :: SleepBackoff (2 ^ attempt * 5) :: l)) ->
  (forall todo attempt l,
      attempt < retries ->
      P todo (attempt + 1) l ->
      P (S todo) attempt (RateLimit :: Request attempt :: SleepRetryDelay :: l)) ->
  forall todo attempt log,
    exists l, snd (get_page_from env retries todo attempt log) = (log ++ l)%list /\
              P todo attempt l.
Proof.
  intros H0 Hstop Hback Hdelay.
  induction todo as [|todo IH]; intros attempt log.
  - exists []. simpl. rewrite app_nil_r. auto.
  - cbn [get_page_from].
    assert (Hb : exists l,
               snd (get_page_from env retries todo (attempt + 1)
                      ((log ++ [RateLimit; Request attempt])
                       ++ [SleepBackoff (2 ^ attempt * 5)]))
               = (log ++ l)%list /\ P (S todo) attempt l).
    { destruct (IH (attempt + 1)
                  ((log ++ [RateLimit; Request attempt])
                   ++ [SleepBackoff (2 ^ attempt * 5)])%list) as (l & Hl & HP).
      eexists. rewrite Hl, <- !app_assoc. cbn [app].
      split; [reflexivity | now apply Hback]. }
    assert (Hd : attempt < retries ->
                 exists l,
                   snd (get_page_from env retries todo (attempt + 1)
                          ((log ++ [RateLimit; Request attempt]) ++ [SleepRetryDelay]))
                   = (log ++ l)%list /\ P (S todo) attempt l).
    { intros Hlt.
      destruct (IH (attempt + 1)
                  ((log ++ [RateLimit; Request attempt]) ++ [SleepRetryDelay])%list)
        as (l & Hl & HP).
      eexists. rewrite Hl, <- !app_assoc. cbn [app].
      split; [reflexivity | now apply Hdelay]. }
    assert (Hs : forall r : page_result,
               exists l, snd (r, (log ++ [RateLimit; Request attempt])%list)
                         = (log ++ l)%list /\ P (S todo) attempt l).
    { intros r. eexists. split; [reflexivity | apply Hstop]. }
    destruct (env attempt) as [code| | |];
      try (destruct (Z.ltb_spec attempt retries); [now apply Hd | apply Hs]).
    destruct (code =? 200); [apply Hs|].
    destruct (code =? 404); [apply Hs|].
    destruct ((code =? 429) || (code =? 503)); [exact Hb|].
    destruct (Z.ltb_spec attempt retries); [now apply Hd | apply Hs].
Qed.

(** X12: [get_page] never sends a request without calling [_rate_limit]
    first, retries included, and never calls [_rate_limit] without sending
    a request; the requests it sends are the attempts 0, 1, 2, ... in this
    order, none left out and none repeated. *)
Theorem get_page_paced (env : Z -> fetch_result) (retries : option Z) :
  let log := snd (get_page env retries) in
  paced log = true /\
  request_indices log = attempts_from (requests_sent log) 0.
Proof.
  cbv zeta. unfold get_page.
  set (n := match retries with Some r => r | None => MAX_RETRIES end).
  destruct (get_page_from_run env n
              (fun _ attempt l =>
                 paced l = true /\
                 request_indices l = attempts_from (requests_sent l) attempt))
    with (todo := Z.to_nat (n + 1)) (attempt := 0) (log := @nil event)
    as (l & -> & HP); [| | | |exact HP].
  - intros attempt. split; reflexivity.
  - intros _ attempt. split; reflexivity.
  - intros _ attempt l [Hp Hi]. split; [exact Hp|].
    change (request_indices (RateLimit :: Request attempt :: SleepBackoff (2 ^ attempt * 5) :: l))
      with (attempt :: request_indices l).
    change (requests_sent (RateLimit :: Request attempt :: SleepBackoff (2 ^ attempt * 5) :: l))
      with (S (requests_sent l)).
    cbn [attempts_from]. now rewrite Hi.
  - intros _ attempt l _ [Hp Hi]. split; [exact Hp|].
    change (request_indices (RateLimit :: Request attempt :: SleepRetryDelay :: l))
      with (attempt :: request_indices l).
    change (requests_sent (RateLimit :: Request attempt :: SleepRetryDelay :: l))
      with (S (requests_sent l)).
    cbn [attempts_from]. now rewrite Hi.
Qed.





Lemma is_ok_status (r : fetch_result) :
  is_ok r = true -> r = Status 200.
Proof.
  destruct r as [code| | |]; try discriminate. simpl.
  intros H. apply Z.eqb_eq in H. now subst.
Qed.

Lemma post_data_failed (env : Z -> fetch_result) (retries : Z) (m : nat) :
  forall todo attempt log,
    (forall j, attempt <= j < attempt + Z.of_nat m -> is_ok (env j) = false) ->
    attempt + Z.of_nat m <= retries ->
    post_data_from env retries (m + todo) attempt log
    = post_data_from env retries todo (attempt + Z.of_nat m)
        (log ++ delayed_run m attempt)%list.
Proof.
  induction m as [|m IH]; intros todo attempt log Hno Hle.
  - simpl. now rewrite Z.add_0_r, app_nil_r.
  - cbn [Nat.add post_data_from].
    assert (Hlt : (attempt <? retries) = true) by (apply Z.ltb_lt; lia).
    pose proof (Hno attempt (ltac:(lia))) as Ha. unfold is_ok in Ha.
    assert (Hrest : post_data_from env retries (m + todo) (attempt + 1)
                      ((log ++ [RateLimit; Request attempt]) ++ [SleepRetryDelay])
                    = post_data_from env retries todo (attempt + Z.of_nat (S m))
                        (log ++ delayed_run (S m) attempt)%list).
    { rewrite IH by (try (intros j Hj; apply Hno); lia).
      unfold delayed_run. cbn [attempts_from flat_map].
      rewrite <- !app_assoc. cbn [app]. f_equal. lia. }
    destruct (env attempt) as [code| | |]; rewrite ?Ha, Hlt; exact Hrest.
Qed.

Lemma post_data_no_backoff (env : Z -> fetch_result) (retries : Z) (todo : nat) :
  forall attempt log,
    backoff_waits (snd (post_data_from env retries todo attempt log))
    = backoff_waits log.
Proof.
  induction todo as [|todo IH]; intros attempt log; [reflexivity|].
  cbn [post_data_from].
  assert (H1 : backoff_waits (log ++ [RateLimit; Request attempt]) = backoff_waits log).
  { rewrite backoff_waits_app. apply app_nil_r. }
  assert (H2 : backoff_waits
                 (snd (post_data_from env retries todo (attempt + 1)
                         ((log ++ [RateLimit; Request attempt]) ++ [SleepRetryDelay])))
               = backoff_waits log).
  { rewrite IH, backoff_waits_app, H1. apply app_nil_r. }
  destruct (env attempt) as [code| | |];
    try (destruct (attempt <? retries); [exact H2 | exact H1]).
  destruct (code =? 200); [exact H1|].
  destruct (attempt <? retries); [exact H2 | exact H1].
Qed.

(** X14: [post_data] retries every answer but HTTP 200, a 404, 429 or 503
    included, each time after the fixed retry delay and never after a
    longer wait.  The first attempt answered with 200 ends the loop; when
    none is, the loop gives up after [retries + 1] requests and [retries]
    delays.  With a negative [retries] no request is sent. *)
Theorem post_data_outcome (env : Z -> fetch_result) (retries : Z) :
  let r := post_data env (Some retries) in
  (forall k, 0 <= k <= retries ->
             is_ok (env k) = true ->
             (forall j, 0 <= j < k -> is_ok (env j) = false) ->
             r = (Page 200,
                  (delayed_run (Z.to_nat k) 0 ++ [RateLimit; Request k])%list)) /\
  (0 <= retries ->
   (forall j, 0 <= j <= retries -> is_ok (env j) = false) ->
   r = (NoPage,
        (delayed_run (Z.to_nat retries) 0 ++ [RateLimit; Request retries])%list)) /\
  (retries < 0 -> r = (NoPage, [])) /\
  backoff_waits (snd r) = [].
Proof.
  cbv zeta. unfold post_data. split; [|split; [|split]].
  - intros k Hk Hok Hbefore.
    replace (Z.to_nat (retries + 1))
      with (Z.to_nat k + S (Z.to_nat (retries - k)))%nat by lia.
    rewrite post_data_failed by (try (intros j Hj; apply Hbefore); lia).
    rewrite Z.add_0_l, Z2Nat.id by lia. cbn [post_data_from app].
    now rewrite (is_ok_status _ Hok).
  - intros Hr Hnone.
    replace (Z.to_nat (retries + 1)) with (Z.to_nat retries + 1)%nat by lia.
    rewrite post_data_failed by (try (intros j Hj; apply Hnone); lia).
    rewrite Z.add_0_l, Z2Nat.id by lia. cbn [post_data_from app].
    pose proof (Hnone retries (ltac:(lia))) as Ha. unfold is_ok in Ha.
    rewrite Z.ltb_irrefl.
    destruct (env retries) as [code| | |]; rewrite ?Ha; reflexivity.
  - intros Hr. replace (Z.to_nat (retries + 1)) with 0%nat by lia. reflexivity.
  - apply post_data_no_backoff.
Qed.

Lemma post_data_outcome_witness :
  let env := fun _ : Z => Status 404 in
  0 <= 2 /\
  post_data env (Some 2)
  = (NoPage, [RateLimit; Request 0; SleepRetryDelay;
              RateLimit; Request 1; SleepRetryDelay;
              RateLimit; Request 2]).
Proof.
  intros env. assert (H : 0 <= 2) by lia. split; [exact H|].
  exact (proj1 (proj2 (post_data_outcome env 2)) H (fun _ _ => eq_refl)).
Defined.

(** ** The crawler *)

Lemma get_page_from_status (env : Z -> fetch_result) (retries : Z) (todo : nat) :
  forall attempt log status,
    fst (get_page_from env retries todo attempt log) = Page status -> status = 200.
Proof.
  induction todo as [|todo IH]; intros attempt log status; [discriminate|].
  cbn [get_page_from].
  destruct (env attempt) as [code| | |];
    try (destruct (attempt <? retries); [apply IH | discriminate]).
  destruct (code =? 200) eqn:E.
  { intros [= <-]. now apply Z.eqb_eq. }
  destruct (code =? 404); [discriminate|].
  destruct ((code =? 429) || (code =? 503)); [apply IH|].
  destruct (attempt <? retries); [apply IH | discriminate].
Qed.

Lemma in_set_add (u url : string) (s : list string) :
  in_set u (set_add url s) = String.eqb u url || in_set u s.
Proof.
  unfold set_add. destruct (in_set url s) eqn:E; [|reflexivity].
  destruct (String.eqb_spec u url) as [->|]; [|reflexivity].
  now rewrite E.
Qed.

Lemma length_set_add (url : string) (s : list string) :
  (List.length (set_add url s) <= S (List.length s))%nat.
Proof. unfold set_add. destruct (in_set url s); simpl; lia. Qed.

Section CrawlerProperties.

Variable web : nat -> string -> Z -> fetch_result.

Lemma crawl_url_cases (url : string) (c : crawler) :
  (crawl_url web url c = (None, c) /\
   (is_running c = false \/ in_set url (visited_urls c) = true)) \/
  (is_running c = true /\ in_set url (visited_urls c) = false /\
   crawl_url web url c
   = (None, mkCrawler true (crawled_count c) (failed_count c + 1)
              (visited_urls c) (S (fetches c)))) \/
  (is_running c = true /\ in_set url (visited_urls c) = false /\
   crawl_url web url c
   = (Some (mkPage url 200),
      mkCrawler true (crawled_count c + 1) (failed_count c)
                (set_add url (visited_urls c)) (S (fetches c)))).
Proof.
  unfold crawl_url. destruct (is_running c) eqn:Er; [|left; auto].
  cbn [negb]. destruct (in_set url (visited_urls c)) eqn:Ev; [left; auto|].
  right. unfold get_page.
  destruct (fst (get_page_from (web (fetches c) url) MAX_RETRIES
                   (Z.to_nat (MAX_RETRIES + 1)) 0 [])) as [status|] eqn:E.
  - right. apply get_page_from_status in E. subst. auto.
  - left. auto.
Qed.

Lemma crawl_urls_from_spec (urls : list string) :
  forall i results c,
    counts_ok c ->
    exists more c',
      crawl_urls_from web urls i results c = (Crawled (results ++ more), c') /\
      counts_ok c' /\
      is_running c' = is_running c /\
      crawled_count c' = crawled_count c + Z.of_nat (List.length more) /\
      failed_count c <= failed_count c' /\
      (failed_count c' - failed_count c) + Z.of_nat (List.length more)
      <= Z.of_nat (List.length urls) /\
      NoDup (map page_url more) /\
      (forall p, In p more ->
                 In (page_url p) urls /\ page_status p = 200 /\
                 in_set (page_url p) (visited_urls c) = false) /\
      (forall u, in_set u (visited_urls c') = true <->
                 in_set u (visited_urls c) = true \/ In u (map page_url more)) /\
      (is_running c = false -> more = [] /\ c' = c).
Proof.
  assert (Hnone : forall (l : list string) results c,
             counts_ok c ->
             exists more c',
               (Crawled results, c) = (Crawled (results ++ more), c') /\
               counts_ok c' /\
               is_running c' = is_running c /\
               crawled_count c' = crawled_count c + Z.of_nat (List.length more) /\
               failed_count c <= failed_count c' /\
               (failed_count c' - failed_count c) + Z.of_nat (List.length more)
               <= Z.of_nat (List.length l) /\
               NoDup (map page_url more) /\
               (forall p, In p more ->
                          In (page_url p) l /\ page_status p = 200 /\
                          in_set (page_url p) (visited_urls c) = false) /\
               (forall u, in_set u (visited_urls c') = true <->
                          in_set u (visited_urls c) = true \/ In u (map page_url more)) /\
               (is_running c = false -> more = [] /\ c' = c)).
  { intros l results c Hok. exists [], c. rewrite app_nil_r.
    split; [reflexivity|]. split; [exact Hok|]. split; [reflexivity|].
    split; [cbn [List.length]; lia|]. split; [lia|].
    split; [cbn [List.length]; lia|]. split; [constructor|].
    split; [contradiction|]. split; [|auto].
    intros u. cbn [map In]. tauto. }
  induction urls as [|url rest IH]; intros i results c Hok.
  { cbn [crawl_urls_from]. now apply Hnone. }
  cbn [crawl_urls_from].
  destruct (is_running c) eqn:Er; cbn [negb].
  2:{ destruct (Hnone (url :: rest) results c Hok) as (more & c' & H).
      exists more, c'. now rewrite Er in H. }
  destruct Hok as [Hf Hv].
  destruct (crawl_url_cases url c) as [[E Hwhy]|[(_ & Hnew & E)|(_ & Hnew & E)]];
    rewrite E.
  - (* already visited *)
    destruct Hwhy as [Hwhy|Hwhy]; [congruence|].
    assert (Hpos : (crawled_count c + failed_count c =? 0) = false).
    { apply Z.eqb_neq. destruct (visited_urls c); [discriminate|].
      cbn [List.length] in Hv. lia. }
    rewrite Hpos, andb_false_r.
    destruct (IH (i + 1) results c (conj Hf Hv))
      as (more & c' & Hrun & Hok' & Hr' & Hc' & Hf' & Hn' & Hd' & Hp' & Hv' & _).
    exists more, c'. rewrite Hrun.
    split; [reflexivity|]. split; [exact Hok'|]. split; [congruence|].
    split; [exact Hc'|]. split; [exact Hf'|].
    split; [cbn [List.length]; lia|]. split; [exact Hd'|].
    split; [|split; [exact Hv' | intros; discriminate]].
    intros p Hp. destruct (Hp' p Hp) as (H1 & H2 & H3).
    split; [now right | split; assumption].
  - (* fetched, no page *)
    set (c1 := mkCrawler true (crawled_count c) (failed_count c + 1)
                 (visited_urls c) (S (fetches c))).
    assert (Hok1 : counts_ok c1) by (split; cbn; lia).
    assert (Hpos : (crawled_count c1 + failed_count c1 =? 0) = false).
    { apply Z.eqb_neq. cbn. lia. }
    rewrite Hpos, andb_false_r.
    destruct (IH (i + 1) results c1 Hok1)
      as (more & c' & Hrun & Hok' & Hr' & Hc' & Hf' & Hn' & Hd' & Hp' & Hv' & _).
    exists more, c'. rewrite Hrun. unfold c1 in Hr', Hc', Hf', Hn', Hp', Hv'.
    cbn [is_running crawled_count failed_count visited_urls] in Hr', Hc', Hf', Hn', Hp', Hv'.
    split; [reflexivity|]. split; [exact Hok'|]. split; [congruence|].
    split; [exact Hc'|]. split; [lia|].
    split; [cbn [List.length]; lia|]. split; [exact Hd'|].
    split; [|split; [exact Hv' | intros; discriminate]].
    intros p Hp. destruct (Hp' p Hp) as (H1 & H2 & H3).
    split; [now right | split; assumption].
  - (* fetched *)
    set (c1 := mkCrawler true (crawled_count c + 1) (failed_count c)
                 (set_add url (visited_urls c)) (S (fetches c))).
    assert (Hok1 : counts_ok c1).
    { split; cbn; [lia|]. pose proof (length_set_add url (visited_urls c)). lia. }
    assert (Hpos : (crawled_count c1 + failed_count c1 =? 0) = false).
    { apply Z.eqb_neq. cbn. lia. }
    rewrite Hpos, andb_false_r.
    destruct (IH (i + 1) (results ++ [mkPage url 200])%list c1 Hok1)
      as (more & c' & Hrun & Hok' & Hr' & Hc' & Hf' & Hn' & Hd' & Hp' & Hv' & _).
    exists (mkPage url 200 :: more), c'. rewrite Hrun, <- app_assoc.
    unfold c1 in Hr', Hc', Hf', Hn', Hp', Hv'.
    cbn [is_running crawled_count failed_count visited_urls] in Hr', Hc', Hf', Hn', Hp', Hv'.
    split; [reflexivity|]. split; [exact Hok'|]. split; [congruence|].
    split; [cbn [List.length]; lia|]. split; [exact Hf'|].
    split; [cbn [List.length]; lia|].
    split; [|split; [|split; [|intros; discriminate]]].
    + cbn [map page_url]. constructor; [|exact Hd'].
      intros Hin. apply in_map_iff in Hin as (p & Hu & Hp).
      destruct (Hp' p Hp) as (_ & _ & H3).
      rewrite Hu, in_set_add, String.eqb_refl in H3. discriminate.
    + intros p [<-|Hp].
      * cbn [page_url page_status]. split; [now left | split; [reflexivity | exact Hnew]].
      * destruct (Hp' p Hp) as (H1 & H2 & H3).
        split; [now right | split; [exact H2|]].
        rewrite in_set_add in H3. now apply orb_false_iff in H3.
    + intros u. rewrite Hv', in_set_add. cbn [map page_url In].
      rewrite orb_true_iff, String.eqb_eq. intuition auto.
Qed.

(** X15: the counters of the crawler.  Neither counter is ever negative
    and [crawled_count] is never below the number of visited URLs: this
    holds of a new crawler and is kept by [start], [stop], [cleanup],
    [crawl_url] and [crawl_urls].  While it holds, the success rate that
    [crawl_urls] reports every tenth URL is never a division by zero. *)
Theorem crawler_counts (c : crawler) (url : string) (urls : list string) :
  counts_ok (mkCrawler false 0 0 [] 0) /\
  (counts_ok c ->
   counts_ok (start c) /\ counts_ok (stop c) /\ counts_ok (cleanup c) /\
   counts_ok (snd (crawl_url web url c)) /\
   counts_ok (snd (crawl_urls web urls c)) /\
   exists results, fst (crawl_urls web urls c) = Crawled results).
Proof.
  split; [split; cbn; lia|].
  intros Hok. pose proof Hok as [Hf Hv].
  split; [|split; [|split; [|split]]].
  - unfold start. destruct (is_running c); [exact Hok | split; cbn; lia].
  - unfold stop. destruct (is_running c); [split; cbn; lia | exact Hok].
  - split; cbn; lia.
  - destruct (crawl_url_cases url c) as [[E _]|[(_ & _ & E)|(_ & _ & E)]];
      rewrite E; [exact Hok | split; cbn; lia|].
    split; cbn; [lia|]. pose proof (length_set_add url (visited_urls c)). lia.
  - unfold crawl_urls. destruct urls as [|u rest].
    + split; [exact Hok | now exists []].
    + destruct (crawl_urls_from_spec (u :: rest) 1 [] c Hok)
        as (more & c' & Hrun & Hok' & _).
      rewrite Hrun. split; [exact Hok' | now exists more].
Qed.

(** X16: what [crawl_urls] returns.  The pages returned are pages of the
    given URLs, each fetched with status 200, none of a URL that was
    visited before and no two of the same URL, however often the list
    repeats it; [crawled_count] grows by the number of pages returned;
    a URL is visited afterwards exactly if it was before or its page is
    returned; and a crawler that is not running returns nothing and stays
    as it is. *)
Theorem crawl_urls_results (c : crawler) (urls : list string) :
  counts_ok c ->
  exists results,
    fst (crawl_urls web urls c) = Crawled results /\
    let c' := snd (crawl_urls web urls c) in
    NoDup (map page_url results) /\
    (forall p, In p results ->
               In (page_url p) urls /\ page_status p = 200 /\
               in_set (page_url p) (visited_urls c) = false) /\
    crawled_count c' = crawled_count c + Z.of_nat (List.length results) /\
    (failed_count c' - failed_count c) + Z.of_nat (List.length results)
    <= Z.of_nat (List.length urls) /\
    (forall u, in_set u (visited_urls c') = true <->
               in_set u (visited_urls c) = true \/ In u (map page_url results)) /\
    (is_running c = false -> results = [] /\ c' = c).
Proof.
  intros Hok. unfold crawl_urls. destruct urls as [|u rest].
  - exists []. cbn [fst snd]. split; [reflexivity|]. cbv zeta.
    split; [constructor|]. split; [contradiction|].
    split; [cbn; lia|]. split; [cbn; lia|].
    split; [|auto]. intros v. cbn [map In]. tauto.
  - destruct (crawl_urls_from_spec (u :: rest) 1 [] c Hok)
      as (more & c' & Hrun & _ & _ & Hc' & _ & Hn' & Hd' & Hp' & Hv' & Hstop).
    exists more. rewrite Hrun. cbn [fst snd]. split; [reflexivity|]. cbv zeta.
    repeat (split; [assumption|]). exact Hstop.
Qed.

End CrawlerProperties.

Lemma crawler_counts_witness :
  let web := fun (_ : nat) (_ : string) (_ : Z) => Status 200 in
  let c := mkCrawler true 0 0 [] 0 in
  counts_ok c /\
  exists results, fst (crawl_urls web ["a"; "a"] c) = Crawled results.
Proof.
  intros web c. assert (H : counts_ok c) by (split; cbn; lia).
  split; [exact H|].
  exact (proj2 (proj2 (proj2 (proj2 (proj2
           (proj2 (crawler_counts web c "a" ["a"; "a"]) H)))))).
Defined.

Lemma crawl_urls_results_witness :
  let web := fun (_ : nat) (_ : string) (_ : Z) => Status 200 in
  let c := mkCrawler true 0 0 [] 0 in
  counts_ok c /\
  exists results, fst (crawl_urls web ["a"; "b"; "a"] c) = Crawled results /\
                  NoDup (map page_url results).
Proof.
  intros web c. assert (H : counts_ok c) by (split; cbn; lia).
  split; [exact H|].
  destruct (crawl_urls_results web c ["a"; "b"; "a"] H) as (results & H1 & H2 & _).
  exists results. split; [exact H1 | exact H2].
Defined.

(** ** The upsert loop of the Top-N script *)

Lemma upsert_row_cases (r : pydict) (t : tally) (w : world) :
  (dict_mem "name" r = false /\
   upsert_row r (t, w)
   = (mkTally (stored t) (enriched t) (skipped t) (failed t + 1), w)) \/
  (dict_mem "name" r = true /\
   exists candidate,
     snd (upsert_row r (t, w))
     = snd (fst (enrich_or_insert_unreviewed_school candidate true w)) /\
     let t' := fst (upsert_row r (t, w)) in
     let w' := snd (upsert_row r (t, w)) in
     failed t' = failed t /\
     stored t' + enriched t' + skipped t' = stored t + enriched t + skipped t + 1 /\
     stored t <= stored t' /\ enriched t <= enriched t' /\ skipped t <= skipped t' /\
     Z.of_nat (List.length (rows w'))
     = Z.of_nat (List.length (rows w)) + (stored t' - stored t) /\
     next_id w' = next_id w + (stored t' - stored t)).
Proof.
  unfold upsert_row, topN_candidate, getitem, dict_mem.
  destruct (dict_get "name" r) as [name|]; [right | left; auto].
  split; [reflexivity|]. cbn [bind].
  match goal with
  | |- context [enrich_or_insert_unreviewed_school ?c true w] => set (cand := c)
  end.
  exists cand. pose proof (enrich_cases cand true w) as H.
  cbv zeta in H.
  destruct (enrich_or_insert_unreviewed_school cand true w) as [[o w'] d'] eqn:E.
  cbn [fst snd] in H.
  split.
  { destruct (String.eqb (snd o) "inserted"); [reflexivity|].
    destruct (String.eqb (snd o) "enriched"); reflexivity. }
  cbv zeta.
  destruct H as [([Hr Hn] & Hact & _)
                |[(nm & site & source & raw & -> & Hrows & Hn)
                 |(existing & raw & cur & payload & Ho & _ & _ & _ & _ & Hrows & Hn)]].
  - rewrite Hact. cbn [String.eqb Ascii.eqb Bool.eqb fst snd stored enriched skipped failed].
    rewrite Hr, Hn. repeat split; lia.
  - cbn [String.eqb Ascii.eqb Bool.eqb fst snd stored enriched skipped failed].
    rewrite Hrows, Hn, length_app. cbn [List.length]. repeat split; lia.
  - rewrite Ho. cbn [String.eqb Ascii.eqb Bool.eqb fst snd stored enriched skipped failed].
    rewrite Hrows, Hn, length_map. repeat split; lia.
Qed.

Lemma upsert_fold_tally (batch : list pydict) :
  forall t w,
    let t' := fst (fold_left (fun st r => upsert_row r st) batch (t, w)) in
    let w' := snd (fold_left (fun st r => upsert_row r st) batch (t, w)) in
    stored t <= stored t' /\ enriched t <= enriched t' /\ skipped t <= skipped t' /\
    failed t' = failed t + Z.of_nat (List.length (nameless batch)) /\
    stored t' + enriched t' + skipped t' + failed t'
    = stored t + enriched t + skipped t + failed t + Z.of_nat (List.length batch) /\
    Z.of_nat (List.length (rows w'))
    = Z.of_nat (List.length (rows w)) + (stored t' - stored t) /\
    next_id w' = next_id w + (stored t' - stored t).
Proof.
  induction batch as [|r rest IH]; intros t w.
  - cbn. repeat split; lia.
  - cbn [fold_left]. cbv zeta.
    destruct (upsert_row r (t, w)) as [t1 w1] eqn:E.
    specialize (IH t1 w1). cbv zeta in IH.
    destruct IH as (I1 & I2 & I3 & I4 & I5 & I6 & I7).
    unfold nameless in *. cbn [filter List.length].
    destruct (upsert_row_cases r t w) as [[Hm Hstep]|[Hm (cand & _ & Hstep)]].
    + rewrite E in Hstep. injection Hstep as -> ->. rewrite Hm. cbn [negb List.length].
      cbn [stored enriched skipped failed] in *. repeat split; lia.
    + cbv zeta in Hstep. rewrite E in Hstep. cbn [fst snd] in Hstep.
      rewrite Hm. cbn [negb]. repeat split; lia.
Qed.

(** X17: the counters of the Top-N upsert loop.  Every fetched row is
    counted once: inserted, enriched, skipped and failed add up to the
    number of rows.  A row fails exactly when it has no name, since the
    reconciliation itself never raises.  The table grows by one row, and
    the next identity by one, for every row counted as inserted. *)
Theorem upsert_tally (batch : list pydict) (w : world) :
  let t := fst (upsert_all batch w) in
  let w' := snd (upsert_all batch w) in
  0 <= stored t /\ 0 <= enriched t /\ 0 <= skipped t /\
  stored t + enriched t + skipped t + failed t = Z.of_nat (List.length batch) /\
  failed t = Z.of_nat (List.length (nameless batch)) /\
  Z.of_nat (List.length (rows w')) = Z.of_nat (List.length (rows w)) + stored t /\
  next_id w' = next_id w + stored t.
Proof.
  cbv zeta. unfold upsert_all.
  pose proof (upsert_fold_tally batch (mkTally 0 0 0 0) w) as H. cbv zeta in H.
  cbn [stored enriched skipped failed] in H.
  destruct H as (H1 & H2 & H3 & H4 & H5 & H6 & H7).
  repeat split; lia.
Qed.

Lemma upsert_fold_keeps (batch : list pydict) (f : string) (n : nat) :
  In f scalar_fields ->
  forall t w row,
    store_ok w ->
    nth_error (rows w) n = Some row ->
    _is_empty_value (dget row f) = false ->
    exists row',
      nth_error (rows (snd (fold_left (fun st r => upsert_row r st) batch (t, w)))) n
      = Some row' /\ dget row' f = dget row f.
Proof.
  intros Hf. induction batch as [|r rest IH]; intros t w row Hok Hn Hne.
  - exists row. auto.
  - cbn [fold_left].
    destruct (upsert_row r (t, w)) as [t1 w1] eqn:E.
    destruct (upsert_row_cases r t w) as [[_ Hstep]|[_ (cand & Hw & _)]].
    + rewrite E in Hstep. injection Hstep as _ ->. now apply IH.
    + rewrite E in Hw. cbn [snd] in Hw.
      destruct (fill_only_empty_keeps cand w f n row (proj1 Hok) Hf Hn Hne)
        as (row1 & Hn1 & Hv1).
      rewrite <- Hw in Hn1.
      destruct (IH t1 w1 row1) as (row' & Hn' & Hv').
      * rewrite Hw. exact (proj1 (store_ok_step cand true w Hok)).
      * exact Hn1.
      * now rewrite Hv1.
      * exists row'. split; [exact Hn' | congruence].
Qed.

(** X18: a whole Top-N run only fills.  When the identities of the table
    are in order, a scalar field that a stored row holds with a non-empty
    value still holds that value after every fetched row has been
    upserted, whatever the rows are and however the store answers. *)
Theorem upsert_only_fills (batch : list pydict) (w : world) (f : string)
    (n : nat) (row : pydict) :
  store_ok w ->
  In f scalar_fields ->
  nth_error (rows w) n = Some row ->
  _is_empty_value (dget row f) = false ->
  exists row',
    nth_error (rows (snd (upsert_all batch w))) n = Some row' /\
    dget row' f = dget row f.
Proof.
  intros Hok Hf Hn Hne. unfold upsert_all.
  now apply upsert_fold_keeps.
Qed.

Lemma upsert_only_fills_witness :
  let row := [("id", VInt 1); ("name", VStr "Example University");
              ("country", VStr "Freedonia")] in
  let w := mkWorld [row] 2 [] refusing in
  let batch := [[("name", VStr "Example University"); ("country", VStr "Sylvania")];
                [("country", VStr "Sylvania")]] in
  store_ok w /\
  exists row',
    nth_error (rows (snd (upsert_all batch w))) 0 = Some row' /\
    dget row' "country" = VStr "Freedonia".
Proof.
  intros row w batch.
  assert (H : store_ok w).
  { split; [|split]; [|reflexivity|].
    - unfold ids_unique. simpl. constructor; [intros [] | constructor].
    - intros r [<-|[]]. exists 1. split; [reflexivity | simpl; lia]. }
  split; [exact H|].
  apply (upsert_only_fills batch w "country" 0 row H); try reflexivity.
  simpl. tauto.
Defined.

(** ** The completeness check of the Top-N script *)

Lemma in_py_range (lo hi k : Z) : In k (py_range lo hi) <-> lo <= k < hi.
Proof.
  unfold py_range. rewrite in_map_iff. split.
  - intros (i & <- & Hi). apply in_seq in Hi. lia.
  - intros Hk. exists (Z.to_nat (k - lo)). split; [lia|].
    apply in_seq. lia.
Qed.

Lemma NoDup_map_inj {A B : Type} (f : A -> B) (l : list A) :
  (forall x y, f x = f y -> x = y) -> NoDup l -> NoDup (map f l).
Proof.
  intros Hf. induction 1 as [|x l Hx Hl IH]; cbn [map]; constructor; [|exact IH].
  intros Hin. apply in_map_iff in Hin as (y & Hy & Hin).
  apply Hf in Hy. now subst.
Qed.

Lemma filter_none {A : Type} (p : A -> bool) (l : list A) :
  (forall x, In x l -> p x = false) -> filter p l = [].
Proof.
  induction l as [|x l IH]; intros H; cbn [filter]; [reflexivity|].
  rewrite (H x) by now left. apply IH. intros y Hy. apply H. now right.
Qed.

Lemma NoDup_py_range (lo hi : Z) : NoDup (py_range lo hi).
Proof.
  unfold py_range. apply NoDup_map_inj; [|apply seq_NoDup].
  intros i j H. lia.
Qed.

Lemma length_py_range (lo hi : Z) :
  List.length (py_range lo hi) = Z.to_nat (hi - lo).
Proof. unfold py_range. now rewrite length_map, length_seq. Qed.

Lemma fold_max_ge (l : list Z) :
  forall x, x <= fold_left Z.max l x /\
            forall k, In k l -> k <= fold_left Z.max l x.
Proof.
  induction l as [|y l IH]; intros x; cbn [fold_left].
  - split; [lia | contradiction].
  - destruct (IH (Z.max x y)) as [H1 H2]. split; [lia|].
    intros k [<-|Hk]; [lia | now apply H2].
Qed.

Lemma max_rank_ge (ranks : list Z) (k : Z) :
  In k ranks -> exists m, max_rank ranks = Some m /\ k <= m.
Proof.
  destruct ranks as [|x r]; [contradiction|]. cbn [max_rank].
  intros Hk. eexists. split; [reflexivity|].
  destruct (fold_max_ge r x) as [H1 H2].
  destruct Hk as [<-|Hk]; [exact H1 | now apply H2].
Qed.

Lemma existsb_Zeqb (k : Z) (l : list Z) : existsb (Z.eqb k) l = true <-> In k l.
Proof.
  rewrite existsb_exists. split.
  - intros (x & Hx & E). apply Z.eqb_eq in E. now subst.
  - intros H. exists k. split; [exact H | apply Z.eqb_refl].
Qed.

Lemma need_fetch_complete (N : Z) (ranks : list Z) :
  1 <= N ->
  need_fetch_topN N (Z.of_nat (List.length ranks)) (max_rank ranks) ranks = false
  <-> forall k, 1 <= k <= N -> In k ranks.
Proof.
  intros HN. unfold need_fetch_topN. split.
  - destruct (Z.of_nat (List.length ranks) <? N); [discriminate|].
    destruct (max_rank ranks) as [m|]; [|discriminate].
    destruct (m <? N); [discriminate|].
    intros H k Hk. apply Z.ltb_ge in H.
    destruct (existsb (Z.eqb k) ranks) eqn:E; [now apply existsb_Zeqb|].
    assert (Hin : In k (filter (fun k => negb (existsb (Z.eqb k) ranks))
                               (py_range 1 (N + 1)))).
    { apply filter_In. split; [apply in_py_range; lia | now rewrite E]. }
    destruct (filter _ _); [contradiction | cbn [List.length] in H; lia].
  - intros Hall.
    assert (Hlen : (List.length (py_range 1 (N + 1)) <= List.length ranks)%nat).
    { apply NoDup_incl_length; [apply NoDup_py_range|].
      intros k Hk. apply in_py_range in Hk. apply Hall. lia. }
    rewrite length_py_range in Hlen.
    destruct (Z.ltb_spec (Z.of_nat (List.length ranks)) N); [lia|].
    destruct (max_rank_ge ranks N (Hall N (ltac:(lia)))) as (m & -> & Hm).
    destruct (Z.ltb_spec m N); [lia|].
    assert (Hnone : filter (fun k => negb (existsb (Z.eqb k) ranks))
                           (py_range 1 (N + 1)) = []).
    { apply filter_none. intros k Hk. apply in_py_range in Hk.
      apply negb_false_iff, existsb_Zeqb, Hall. lia. }
    now rewrite Hnone.
Qed.

Lemma in_topN_ranks (rows : list pydict) (k : Z) :
  In k (topN_ranks rows)
  <-> exists row, In row rows /\ as_int (dget row "qs_ranking") = Some k.
Proof.
  unfold topN_ranks. rewrite in_flat_map. split.
  - intros (row & Hin & Hk). exists row. split; [exact Hin|].
    destruct (as_int (dget row "qs_ranking")); [|contradiction].
    destruct Hk as [->|[]]. reflexivity.
  - intros (row & Hin & Hk). exists row. split; [exact Hin|].
    rewrite Hk. now left.
Qed.

Lemma length_topN_ranks (rows : list pydict) :
  (List.length (topN_ranks rows) <= List.length rows)%nat.
Proof.
  induction rows as [|row rows IH]; [apply Nat.le_refl|].
  unfold topN_ranks in *. cbn [flat_map]. rewrite length_app. cbn [List.length].
  destruct (as_int (dget row "qs_ranking")); cbn [List.length]; lia.
Qed.

(** X19: when the Top-N script fetches again.  On an answer to its status
    query it skips the fetch exactly when every rank from 1 to N is the
    integer rank of some row of the answer; the tests on the count and on
    the largest rank add nothing to this one.  When the answer has at most
    400 rows, the limit the query asks for, and N is above 400, it always
    fetches; and so it does when the query is refused or fails. *)
Theorem refetch_decision (N : Z) :
  (forall rows,
      1 <= N ->
      (refetch N (Ret (mkResponse 200 rows)) = false
       <-> forall k, 1 <= k <= N ->
                     exists row, In row rows /\
                                 as_int (dget row "qs_ranking") = Some k)) /\
  (forall rows,
      400 < N -> (List.length rows <= 400)%nat ->
      refetch N (Ret (mkResponse 200 rows)) = true) /\
  (forall code rows, code <> 200 -> refetch N (Ret (mkResponse code rows)) = true) /\
  (forall e, refetch N (Raise e) = true).
Proof.
  split; [|split; [|split]].
  - intros rows HN. unfold refetch, fetch_topN_status.
    cbn [status_code body Z.eqb Pos.eqb].
    rewrite (need_fetch_complete N (topN_ranks rows) HN).
    split; intros H k Hk; apply in_topN_ranks, H, Hk.
  - intros rows HN Hlen. unfold refetch, fetch_topN_status.
    cbn [status_code body Z.eqb Pos.eqb]. unfold need_fetch_topN.
    pose proof (length_topN_ranks rows).
    destruct (Z.ltb_spec (Z.of_nat (List.length (topN_ranks rows))) N);
      [reflexivity | lia].
  - intros code rows Hc. unfold refetch, fetch_topN_status. cbn [status_code].
    apply Z.eqb_neq in Hc. rewrite Hc. unfold need_fetch_topN.
    destruct (0 <? N); reflexivity.
  - intros e. unfold refetch, fetch_topN_status, need_fetch_topN.
    destruct (0 <? N); reflexivity.
Qed.

Lemma refetch_decision_witness :
  let rows := [[("qs_ranking", VInt 2)]; [("qs_ranking", VInt 1)];
               [("qs_ranking", VStr "3")]] in
  1 <= 2 /\ refetch 2 (Ret (mkResponse 200 rows)) = false.
Proof.
  intros rows. assert (H : 1 <= 2) by lia. split; [exact H|].
  apply (proj2 (proj1 (refetch_decision 2) rows H)).
  intros k Hk. assert (E : k = 1 \/ k = 2) by lia.
  destruct E as [->| ->].
  - exists [("qs_ranking", VInt 1)]. split; [right; now left | reflexivity].
  - exists [("qs_ranking", VInt 2)]. split; [now left | reflexivity].
Defined.

(** ** The rank bounds of the Top-N script *)

Lemma isdigit_not_space (c : ascii) :
  isdigit_char c = true -> negb (isspace c) = true.
Proof. revert c. intros c. by_char c. Qed.

Lemma isdigit_not_space_int (c : ascii) :
  isdigit_char c = true -> negb (isspace_int c) = true.
Proof. revert c. intros c. by_char c. Qed.

Lemma isdigit_not_sign (c : ascii) :
  isdigit_char c = true ->
  Ascii.eqb c "+" = false /\ Ascii.eqb c "-" = false.
Proof. revert c. intros c. by_char c. Qed.

Lemma isdigit_not_underscore (c : ascii) :
  isdigit_char c = true -> Ascii.eqb c "_" = false.
Proof. revert c. intros c. by_char c. Qed.

Lemma isdigit_parts (s : string) :
  isdigit s = true -> is_empty_str s = false /\ all_chars isdigit_char s = true.
Proof.
  unfold isdigit. intros H. apply andb_true_iff in H as [H1 H2].
  apply negb_true_iff in H1. auto.
Qed.

Lemma isdigit_nonneg (s : string) (n : Z) :
  isdigit s = true -> py_int s = Ret n -> 0 <= n.
Proof.
  intros H. apply isdigit_parts in H as [_ H].
  apply py_int_no_minus. now apply (has_char_none isdigit_char).
Qed.

Lemma py_int_error (s : string) (e : pyexc) : py_int s = Raise e -> e = ValueError.
Proof.
  unfold py_int. destruct (int_signed _); [discriminate | now intros [= <-]].
Qed.

Lemma int_digits_superscript (s : string) :
  forall acc prev,
    all_chars isdigit_char s = true -> all_chars is_decimal s = false ->
    int_digits s acc prev = None.
Proof.
  induction s as [|c r IH]; cbn [all_chars int_digits]; intros acc prev Hd Hs;
    [discriminate|].
  apply andb_true_iff in Hd as [Hc Hr].
  destruct (is_decimal c) eqn:Ec.
  - apply IH; [exact Hr | exact Hs].
  - now rewrite (isdigit_not_underscore c Hc).
Qed.

Lemma py_int_superscript (s : string) :
  all_chars isdigit_char s = true -> all_chars is_decimal s = false ->
  py_int s = Raise ValueError.
Proof.
  intros Hd Hs. unfold py_int.
  rewrite strip_by_clean
    by (revert Hd; apply all_chars_impl, isdigit_not_space_int).
  destruct s as [|c r]; [discriminate|]. unfold int_signed.
  assert (Hc : isdigit_char c = true)
    by (cbn [all_chars] in Hd; now apply andb_true_iff in Hd).
  destruct (isdigit_not_sign c Hc) as [-> ->].
  now rewrite (int_digits_superscript _ 0 false Hd Hs).
Qed.

(** X20: what [_parse_rank_bounds] can return.  It returns both bounds or
    neither, and no bound is negative, so that [_normalize_rank_to_int]
    never yields a negative rank.  It raises nothing but [ValueError], and
    it does raise it: on a text that [str.isdigit] accepts and [int]
    rejects, which is one of digits with a superscript digit among them. *)
Theorem parse_bounds_shape :
  (forall v,
      match _parse_rank_bounds v with
      | Ret (Some lo, Some hi) => 0 <= lo /\ 0 <= hi
      | Ret (None, None) => True
      | Ret _ => False
      | Raise e => e = ValueError
      end) /\
  (forall v n, _normalize_rank_to_int v = Ret (Some n) -> 0 <= n) /\
  (forall s,
      isdigit s = true -> all_chars is_decimal s = false ->
      _parse_rank_bounds (VStr s) = Raise ValueError /\
      _normalize_rank_to_int (VStr s) = Raise ValueError).
Proof.
  assert (Hshape : forall v,
             match _parse_rank_bounds v with
             | Ret (Some lo, Some hi) => 0 <= lo /\ 0 <= hi
             | Ret (None, None) => True
             | Ret _ => False
             | Raise e => e = ValueError
             end).
  { intros v. destruct (is_none v) eqn:Hv.
    { destruct v; try discriminate Hv. exact I. }
    rewrite (parse_bounds_text v Hv), parse_bounds_stripped. cbv zeta.
    set (s := remove_char "=" (strip (strip (py_str v)))).
    destruct (is_empty_str s); [exact I|].
    destruct (isdigit s) eqn:Ed.
    { destruct (py_int s) as [n|e] eqn:En; cbn [bind].
      - pose proof (isdigit_nonneg s n Ed En). auto.
      - now apply py_int_error in En. }
    destruct (has_char "-" s); [|exact I].
    destruct (isdigit (strip (fst (split_first "-" s)))) eqn:Ea; [|exact I].
    destruct (isdigit (strip (snd (split_first "-" s)))) eqn:Eb; [|exact I].
    cbn [andb].
    destruct (py_int (strip (fst (split_first "-" s)))) as [lo|e] eqn:Elo; cbn [bind].
    2:{ now apply py_int_error in Elo. }
    destruct (py_int (strip (snd (split_first "-" s)))) as [hi|e] eqn:Ehi; cbn [bind].
    2:{ now apply py_int_error in Ehi. }
    split; [exact (isdigit_nonneg _ _ Ea Elo) | exact (isdigit_nonneg _ _ Eb Ehi)]. }
  split; [exact Hshape|]. split.
  - intros v n. unfold _normalize_rank_to_int. specialize (Hshape v).
    destruct (_parse_rank_bounds v) as [[[lo|] [hi|]]|e]; cbn [bind];
      try discriminate.
    intros [= <-]. apply Hshape.
  - intros s Hd Hs. destruct (isdigit_parts s Hd) as [Hne Hall].
    assert (E : _parse_rank_bounds (VStr s) = Raise ValueError).
    { rewrite parse_bounds_stripped. cbv zeta.
      assert (Hst : strip s = s).
      { apply strip_by_clean. revert Hall.
        apply all_chars_impl, isdigit_not_space. }
      rewrite Hst, (remove_char_absent "=" s)
        by (now apply (has_char_none isdigit_char)).
      rewrite Hne, Hd, (py_int_superscript s Hall Hs). reflexivity. }
    split; [exact E|]. unfold _normalize_rank_to_int. now rewrite E.
Qed.

Lemma parse_bounds_shape_witness :
  isdigit (String (ascii_of_N 178) EmptyString) = true /\
  _normalize_rank_to_int (VStr (String (ascii_of_N 178) EmptyString))
  = Raise ValueError.
Proof.
  split; [reflexivity|].
  exact (proj2 (proj2 (proj2 parse_bounds_shape)
                  (String (ascii_of_N 178) EmptyString) eq_refl eq_refl)).
Defined.

(** ** The address of robots.txt *)

Lemma contains_split_at (sep s : string) :
  contains sep s = true -> exists b a, split_at sep s = Some (b, a).
Proof.
  induction s as [|c r IH]; cbn [contains split_at].
  - rewrite orb_false_r. intros ->. eauto.
  - destruct (String.prefix sep (String c r)); [eauto|].
    cbn [orb]. intros H. destruct (IH H) as (b & a & ->). eauto.
Qed.

Lemma split_at_none (sep s : string) :
  contains sep s = false -> split_at sep s = None.
Proof.
  induction s as [|c r IH]; cbn [contains split_at]; intros H;
    apply orb_false_iff in H as [-> H]; [reflexivity|].
  now rewrite (IH H).
Qed.

Lemma split_at_scheme (pre post : string) :
  has_char ":" pre = false ->
  split_at "://" (pre ++ "://" ++ post) = Some (pre, post).
Proof.
  induction pre as [|c r IH]; intros H.
  - destruct post; vm_compute; reflexivity.
  - cbn [has_char] in H. apply orb_false_iff in H as [Hc Hr].
    change (String c r ++ "://" ++ post) with (String c (r ++ "://" ++ post)).
    cbn [split_at String.prefix].
    destruct (Ascii.ascii_dec ":" c) as [<-|_]; [discriminate Hc|].
    now rewrite (IH Hr).
Qed.

(** X21: the address [check_robots_txt] asks for.  Extracting the domain
    never fails for want of a piece, and the domain never contains a
    slash, so the address is always https://<domain>/robots.txt.  For a
    URL with one scheme separator the domain is the text between the
    separator and the first slash after it: the scheme is dropped and
    replaced by https, the path is dropped.  A text is returned only if
    the request for that address is answered with status 200. *)
Theorem robots_address :
  (forall base_url,
      exists d, base_domain base_url = Some d /\ has_char "/" d = false) /\
  (forall scheme host path,
      has_char ":" scheme = false ->
      has_char "/" host = false ->
      contains "://" (host ++ String "/" path) = false ->
      base_domain (scheme ++ "://" ++ host ++ String "/" path) = Some host /\
      forall session_get text,
        check_robots_txt session_get (scheme ++ "://" ++ host ++ String "/" path)
        = Some text ->
        session_get ("https://" ++ host ++ "/robots.txt") = Ret (200, text)).
Proof.
  split.
  - intros base_url. unfold base_domain.
    destruct (contains "://" base_url) eqn:E.
    + destruct (contains_split_at _ _ E) as (b & a & Hs).
      unfold second_piece. rewrite Hs.
      destruct (split_at "://" a) as [[b' a']|]; eexists;
        (split; [reflexivity | apply split_first_before]).
    + eexists. split; [reflexivity | apply split_first_before].
  - intros scheme host path Hs Hh Hone.
    assert (Hd : base_domain (scheme ++ "://" ++ host ++ String "/" path) = Some host).
    { unfold base_domain, second_piece.
      assert (Hin : contains "://" (scheme ++ "://" ++ host ++ String "/" path) = true).
      { destruct (contains "://" (scheme ++ "://" ++ host ++ String "/" path)) eqn:E;
          [reflexivity|].
        apply split_at_none in E.
        rewrite (split_at_scheme scheme (host ++ String "/" path) Hs) in E.
        discriminate. }
      rewrite Hin, (split_at_scheme scheme (host ++ String "/" path) Hs).
      rewrite (split_at_none _ _ Hone).
      now rewrite (split_first_app "/" host path Hh). }
    split; [exact Hd|].
    intros session_get text. unfold check_robots_txt. rewrite Hd.
    unfold robots_url.
    destruct (session_get ("https://" ++ host ++ "/robots.txt")) as [[code t]|e];
      [|discriminate].
    destruct (code =? 200) eqn:E; [|discriminate].
    intros [= ->]. apply Z.eqb_eq in E. now subst.
Qed.

Lemma robots_address_witness :
  has_char ":" "http" = false /\
  has_char "/" "example.org:8080" = false /\
  contains "://" ("example.org:8080" ++ String "/" "a/b") = false /\
  base_domain ("http" ++ "://" ++ "example.org:8080" ++ String "/" "a/b")
  = Some "example.org:8080".
Proof.
  split; [reflexivity|]. split; [reflexivity|]. split; [reflexivity|].
  exact (proj1 (proj2 robots_address "http" "example.org:8080" "a/b"
                  eq_refl eq_refl eq_refl)).
Defined.
